(** * ui-primitives: the shared state / event / lifecycle core

    A shallow embedding of

    - [core/EventTarget.ts]   (the per-instance publish/subscribe hub),
    - [core/StateManager.ts]  (the controlled/uncontrolled value cell),
    - [core/Component.ts]     (the widget lifecycle base),
    - [label/Label.ts] and [switch/Switch.ts] (two concrete widgets),

    together with the properties the specification states about them, and
    further properties of the same code.

    TypeScript methods become Rocq functions over an explicit [world]
    (the JavaScript heap reachable from one page: one hub/cell instance,
    the DOM listener lists, one widget).  Callbacks supplied by the user of
    the library are the environment of the program: they are given as small
    scripts ([stmt]); the library code itself is embedded function by
    function.  Calls that may re-enter the library go through an
    interpreter [run] indexed by a recursion budget. *)

From Stdlib Require Import ZArith Lia List Bool Ascii.
From stdpp Require Import base option strings pretty gmap list.

Local Open Scope string_scope.
Local Open Scope list_scope.

(** ** JavaScript values *)

Module Js.

(** The values a cell or an event payload carries.  Objects (and arrays)
    are compared by reference, so only their address is kept. *)
Inductive value :=
| VUndefined
| VNull
| VBool (b : bool)
| VNum (n : Z)
| VNaN
| VStr (s : string)
| VObj (addr : nat).

#[global] Instance value_eq_dec : EqDecision value.
Proof. solve_decision. Defined.

(** [a === b].  Every value is identical to itself except [NaN]. *)
Definition strict_eq (a b : value) : bool :=
  match a, b with
  | VNaN, _ | _, VNaN => false
  | _, _ => bool_decide (a = b)
  end.

(** [!v] for a boolean-typed slot: anything falsy negates to [true]. *)
Definition truthy (v : value) : bool :=
  match v with
  | VUndefined | VNull | VNaN => false
  | VBool b => b
  | VNum n => negb (n =? 0)%Z
  | VStr s => negb (bool_decide (s = ""))
  | VObj _ => true
  end.

Definition not (v : value) : value := VBool (negb (truthy v)).

(** [a ?? b] *)
Definition nullish (a b : value) : value :=
  match a with
  | VUndefined | VNull => b
  | _ => a
  end.

(** String(v), as used when a value is written into an attribute. *)
Definition to_string (v : value) : string :=
  match v with
  | VUndefined => "undefined"
  | VNull => "null"
  | VBool true => "true"
  | VBool false => "false"
  | VNum n => pretty n
  | VNaN => "NaN"
  | VStr s => s
  | VObj _ => "[object Object]"
  end.

(** The number a string of decimal digits spells ([acc] is the value of
    the digits read so far); the empty string converts to 0. *)
Definition digit (c : ascii) : option Z :=
  let n := Z.of_nat (nat_of_ascii c) in
  if (48 <=? n)%Z && (n <=? 57)%Z then Some (n - 48)%Z else None.

Fixpoint decimal (s : string) (acc : Z) : option Z :=
  match s with
  | EmptyString => Some acc
  | String c rest =>
      match digit c with
      | Some k => decimal rest (10 * acc + k)%Z
      | None => None
      end
  end.

(** [v > 1].  The operand is converted to a number first: [undefined]
    becomes [NaN], which compares false with everything, [null] becomes 0,
    a boolean 0 or 1, and a string of decimal digits the number it spells.
    Any other string is parsed as a numeric literal with sign, fraction,
    exponent or radix prefix, and an object is converted by its own
    [valueOf] or [toString]; these two conversions are not embedded, and
    the comparison is left open for them ([None]). *)
Definition above_one (v : value) : option bool :=
  match v with
  | VUndefined | VNull | VNaN | VBool _ => Some false
  | VNum n => Some (1 <? n)%Z
  | VStr s => (fun n => (1 <? n)%Z) <$> decimal s 0
  | VObj _ => None
  end.

Inductive error :=
| Error (msg : string)
| TypeError (msg : string).

#[global] Instance error_eq_dec : EqDecision error.
Proof. solve_decision. Defined.

End Js.

Export Js.

(** ** Functions, events and the heap *)

Module Heap.

(** Function objects that end up in listener sets.  A closure is identified
    by what it closes over plus an allocation stamp [k], so two calls of
    [once] or [subscribe] with the same listener yield distinct
    listeners, as in JavaScript. *)
Inductive fn :=
| User (id : nat)
    (* a callback written by the user of the library *)
| OnceWrapper (type : string) (listener : fn) (k : nat)
    (* [wrappedListener] of EventTarget.once *)
| SubscribeWrapper (listener : fn) (k : nat)
    (* [wrappedListener] of StateManager.subscribe *)
| LabelMouseDown
    (* [(e) => this.handleMouseDown(e)] of Label.setupElement *)
| SwitchChecked
    (* the subscriber installed by Switch.setupEventListeners *)
| SwitchClick.
    (* [(e) => this.handleClick(e)] of Switch.setupEventListeners *)

#[global] Instance fn_eq_dec : EqDecision fn.
Proof.
  unfold EqDecision, Decision.
  decide equality; first [apply Nat.eq_dec | apply String.string_dec].
Defined.

(** [event.detail] of a CustomEvent. *)
Inductive detail :=
| Payload (v : value)
| Change (value oldValue : value)       (* { value, oldValue } *)
| Checked (checked : value).            (* { checked } *)

Record event := Event {
  type : string;
  edetail : detail;
  defaultPrevented : bool }.

Definition CustomEvent (ty : string) (d : detail) : event :=
  {| type := ty; edetail := d; defaultPrevented := false |}.

(** What a function is called with: listeners receive the event,
    [onChange] and subscribers receive the bare value. *)
Inductive arg :=
| AEvent (e : event)
| AValue (v : value).

#[global] Instance detail_eq_dec : EqDecision detail.
Proof. solve_decision. Defined.
#[global] Instance event_eq_dec : EqDecision event.
Proof. solve_decision. Defined.
#[global] Instance arg_eq_dec : EqDecision arg.
Proof. solve_decision. Defined.

(** DOM event targets.  Elements are numbered; [Own] is the private
    [EventTarget] that Component.ts allocates with [new EventTarget()]
    (Component.ts imports nothing, so this is the platform's class). *)
Inductive target :=
| Elem (n : nat)
| Own
| Document.

#[global] Instance target_eq_dec : EqDecision target.
Proof. solve_decision. Defined.

(** Everything an observer of the page can see happen, in order. *)
Inductive obs :=
| Called (f : fn) (a : arg)
| Noted (tag : string)
| ConsoleWarn (msg : string)
| ConsoleError (msg : string) (e : error)
| PreventDefault (ty : string)
| StopPropagation (ty : string).

#[global] Instance obs_eq_dec : EqDecision obs.
Proof. solve_decision. Defined.

(** Bodies of user callbacks.  [On], [Off], [Once], [Emit] act on the hub
    the callback was registered on; [Assign], [SetValue] and
    [UpdateControlledValue] on the cell. *)
Inductive stmt :=
| Note (tag : string)
| Throw (msg : string)
| IfArg (v : value) (s : stmt)      (* if (payload === v) s *)
| On (ty : string) (f : fn)
| Off (ty : string) (f : fn)
| Once (ty : string) (f : fn)
| Emit (ty : string) (d : value)
| Assign (v : value)                (* cell.value = v *)
| SetValue (v : value)
| UpdateControlledValue (v : value).

(** StateOptions<T>; an absent optional field is [undefined]. *)
Record StateOptions := {
  prop : value;
  defaultProp : value;
  onChange : option fn;
  caller : option string }.

(** One instance of the custom EventTarget class.  StateManager extends
    it, so the instance carries the StateManager fields as well; the
    EventTarget methods only ever touch [listeners].  A JavaScript Set
    iterated by [forEach] is a growing array of entries in which a
    deleted entry is blanked, not shifted: [None] is such a blank. *)
Record StateManager := {
  listeners : gmap string (list (option fn));
  _value : value;
  options : StateOptions;
  isControlled : bool }.

(** The options bag a widget is constructed with (LabelOptions and
    SwitchOptions side by side; a widget reads only its own fields). *)
Record ComponentOptions := {
  htmlFor : value;
  checked : value;
  defaultChecked : value;
  o_required : value;
  o_disabled : value;
  o_value : value;
  o_name : value;
  o_form : value;
  onCheckedChange : option fn }.

Inductive widget_class := Label | Switch.

Record SwitchElements := {
  el_root : nat;
  el_thumb : option nat;
  el_bubbleInput : option nat }.

Inductive cell_ref := TheCell.

(** The widget instance: the fields of Component, then those of Switch.
    A field not yet assigned (or nulled by [cleanup]) is [None] or
    [VUndefined]. *)
Record Widget := {
  class : widget_class;
  element : nat;
  w_options : ComponentOptions;
  tracked : list (string * list fn);      (* Component.listeners *)
  destroyed : bool;
  checkedState : option cell_ref;
  elements : option SwitchElements;
  required : value;
  disabled : value;
  s_value : value;
  name : value;
  form : value;
  hasConsumerStoppedPropagation : value }.

(** The part of the document the widget touches. *)
Record Dom := {
  registered : list (target * string * fn);   (* native listener lists *)
  attributes : gmap (nat * string) string;
  properties : gmap (nat * string) value;     (* input.checked and the like *)
  children : list nat;                        (* descendants of the root *)
  next_node : nat;
  canUseDOM : bool;                           (* window and document exist *)
  inside_form : bool;                         (* element.closest('form') *)
  inside_control : bool }.                    (* target.closest('button, input, ...') *)

Record world := {
  code : nat -> list stmt;     (* the body of each user callback *)
  sm : StateManager;
  dom : Dom;
  widget : Widget;
  next_closure : nat;
  log : list obs }.

(** Field updates. *)
Definition with_sm (f : StateManager -> StateManager) (w : world) : world :=
  {| code := code w; sm := f (sm w); dom := dom w; widget := widget w;
     next_closure := next_closure w; log := log w |}.
Definition with_dom (f : Dom -> Dom) (w : world) : world :=
  {| code := code w; sm := sm w; dom := f (dom w); widget := widget w;
     next_closure := next_closure w; log := log w |}.
Definition with_widget (f : Widget -> Widget) (w : world) : world :=
  {| code := code w; sm := sm w; dom := dom w; widget := f (widget w);
     next_closure := next_closure w; log := log w |}.
Definition say (o : list obs) (w : world) : world :=
  {| code := code w; sm := sm w; dom := dom w; widget := widget w;
     next_closure := next_closure w; log := log w ++ o |}.
Definition fresh_closure (w : world) : world :=
  {| code := code w; sm := sm w; dom := dom w; widget := widget w;
     next_closure := S (next_closure w); log := log w |}.

Definition set_listeners (m : gmap string (list (option fn))) (s : StateManager) :=
  {| listeners := m; _value := _value s; options := options s;
     isControlled := isControlled s |}.
Definition store_value (v : value) (s : StateManager) :=
  {| listeners := listeners s; _value := v; options := options s;
     isControlled := isControlled s |}.

(** *** Computations: state, exceptions, and a recursion budget *)

Inductive result (A : Type) :=
| Ok (a : A)
| Throws (e : error).
Arguments Ok {A} a.
Arguments Throws {A} e.

(** [None] means that the embedding gives no result: the recursion budget
    ran out, or a step was reached that is left open. *)
Definition M (A : Type) := world -> option (result A * world).

Definition ret {A} (a : A) : M A := fun w => Some (Ok a, w).
Definition throw {A} (e : error) : M A := fun w => Some (Throws e, w).
Definition bind {A B} (m : M A) (k : A -> M B) : M B :=
  fun w => match m w with
           | None => None
           | Some (Ok a, w') => k a w'
           | Some (Throws e, w') => Some (Throws e, w')
           end.
Definition try_catch {A} (m : M A) (h : error -> M A) : M A :=
  fun w => match m w with
           | None => None
           | Some (Ok a, w') => Some (Ok a, w')
           | Some (Throws e, w') => h e w'
           end.
Definition modify (f : world -> world) : M unit := fun w => Some (Ok tt, f w).
Definition gets {A} (f : world -> A) : M A := fun w => Some (Ok (f w), w).

(** What the interpreter can be asked to do on behalf of library code:
    call a function object, or continue a [Set.forEach] over the listeners
    of [ty] from entry [i]. *)
Inductive task :=
| TCall (f : fn) (a : arg)
| TForEach (ty : string) (i : nat) (e : event).

(** [m'] yields every result [m] yields. *)
Definition refines {A} (m m' : M A) : Prop :=
  forall w r, m w = Some r -> m' w = Some r.

End Heap.

Export Heap.

Notation "'let!' x ':=' m 'in' k" := (bind m (fun x => k))
  (at level 10, x name, m at level 100, k at level 200).
Notation "m1 '>>' m2" := (bind m1 (fun _ => m2))
  (at level 61, left associativity).

(** ** core/EventTarget.ts *)

Module EventTarget.

(** *** Set<EventListener> *)

Definition set_has (f : fn) (s : list (option fn)) : bool :=
  bool_decide (Some f ∈ s).

Definition set_add (f : fn) (s : list (option fn)) : list (option fn) :=
  if set_has f s then s else s ++ [Some f].

Definition set_delete (f : fn) (s : list (option fn)) : list (option fn) :=
  (fun e => if bool_decide (e = Some f) then None else e) <$> s.

(** The live entries, in insertion order. *)
Definition set_elements (s : list (option fn)) : list fn := omap id s.

Definition set_size (s : list (option fn)) : nat := length (set_elements s).

(** *** Methods *)

Definition addEventListener (ty : string) (listener : fn) (w : world) : world :=
  let m := listeners (sm w) in
  let m1 := match m !! ty with
            | Some _ => m
            | None => <[ty := []]> m
            end in
  match m1 !! ty with
  | Some s => with_sm (set_listeners (<[ty := set_add listener s]> m1)) w
  | None => w
  end.

Definition removeEventListener (ty : string) (listener : fn) (w : world) : world :=
  let m := listeners (sm w) in
  match m !! ty with
  | Some s => with_sm (set_listeners (<[ty := set_delete listener s]> m)) w
  | None => w
  end.

Definition console_error (e : event) (err : error) : M unit :=
  modify (say [ConsoleError ("Error in event listener for " ++ type e ++ ":") err]).

(** One turn of [listeners.forEach(listener => { try {...} catch {...} })]
    at entry [i]; [rec] runs the call and the rest of the loop.  The set is
    read again at every turn, so entries added meanwhile are visited and
    entries deleted meanwhile are skipped.  (The Set object under [ty] is
    never replaced while a dispatch runs: callbacks have no statement for
    [removeAllListeners].) *)
Definition forEach_step (rec : task -> M unit) (ty : string) (i : nat) (e : event)
  : M unit :=
  let! entry := gets (fun w => (listeners (sm w) !! ty) ≫= (fun s => s !! i)) in
  match entry with
  | None => ret tt
  | Some None => rec (TForEach ty (S i) e)
  | Some (Some listener) =>
      try_catch (rec (TCall listener (AEvent e)))
                (fun err => console_error e err) >>
      rec (TForEach ty (S i) e)
  end.

Definition dispatchEvent (rec : task -> M unit) (e : event) : M bool :=
  let! present := gets (fun w => listeners (sm w) !! type e) in
  match present with
  | Some _ => rec (TForEach (type e) 0 e)
  | None => ret tt
  end >>
  ret (negb (defaultPrevented e)).

(** [new CustomEvent(type, { detail })]: an omitted detail is [null]. *)
Definition emit (rec : task -> M unit) (ty : string) (d : value) : M unit :=
  let event := CustomEvent ty (Payload (nullish d VNull)) in
  dispatchEvent rec event >> ret tt.

Definition once (ty : string) (listener : fn) (w : world) : world :=
  let wrappedListener := OnceWrapper ty listener (next_closure w) in
  addEventListener ty wrappedListener (fresh_closure w).

(** The body of [wrappedListener]. *)
Definition once_wrapper (rec : task -> M unit) (ty : string) (listener wrapped : fn)
    (a : arg) : M unit :=
  rec (TCall listener a) >>
  modify (removeEventListener ty wrapped).

Definition removeAllListeners (ty : option string) (w : world) : world :=
  match ty with
  | Some t => if bool_decide (t = "") then with_sm (set_listeners ∅) w
              else with_sm (set_listeners (delete t (listeners (sm w)))) w
  | None => with_sm (set_listeners ∅) w
  end.

Definition listenerCount (ty : string) (w : world) : nat :=
  match listeners (sm w) !! ty with
  | Some s => set_size s
  | None => 0
  end.

End EventTarget.

(** ** core/StateManager.ts *)

Module StateManager.

Definition or_default (c : option string) (d : string) : string :=
  match c with
  | Some s => if bool_decide (s = "") then d else s
  | None => d
  end.

(** [new StateManager(initialValue, options)] *)
Definition new (initialValue : value) (o : StateOptions) : StateManager :=
  let controlled := negb (strict_eq (prop o) VUndefined) in
  {| listeners := ∅;
     _value := if controlled then prop o
               else if negb (strict_eq (defaultProp o) VUndefined) then defaultProp o
               else initialValue;
     options := o;
     isControlled := controlled |}.

(** [get value()] and [getValue()] *)
Definition getValue (w : world) : value := _value (sm w).

Definition isControlledState (w : world) : bool := isControlled (sm w).

Definition setValue (rec : task -> M unit) (newValue : value) : M unit :=
  let! current := gets getValue in
  if strict_eq current newValue then ret tt
  else
    let oldValue := current in
    modify (with_sm (store_value newValue)) >>
    let! cb := gets (fun w => onChange (options (sm w))) in
    match cb with
    | Some f => rec (TCall f (AValue newValue))
    | None => ret tt
    end >>
    EventTarget.dispatchEvent rec (CustomEvent "change" (Change newValue oldValue)) >>
    ret tt.

(** [set value(newValue)] *)
Definition set_value (rec : task -> M unit) (newValue : value) : M unit :=
  let! controlled := gets isControlledState in
  if controlled then
    let! c := gets (fun w => caller (options (sm w))) in
    modify (say [ConsoleWarn ("[" ++ or_default c "StateManager" ++
      "] Cannot set value on controlled state. Use the onChange callback instead.")])
  else setValue rec newValue.

Definition updateControlledValue (rec : task -> M unit) (newValue : value) : M unit :=
  let! controlled := gets isControlledState in
  if negb controlled then ret tt
  else
    let! oldValue := gets getValue in
    modify (with_sm (store_value newValue)) >>
    EventTarget.dispatchEvent rec (CustomEvent "change" (Change newValue oldValue)) >>
    ret tt.

(** [subscribe(listener)] registers a fresh wrapper; the function it
    returns is [unsubscribe] of that wrapper. *)
Definition subscribe (listener : fn) (w : world) : fn * world :=
  let wrappedListener := SubscribeWrapper listener (next_closure w) in
  (wrappedListener, EventTarget.addEventListener "change" wrappedListener (fresh_closure w)).

Definition unsubscribe (wrappedListener : fn) (w : world) : world :=
  EventTarget.removeEventListener "change" wrappedListener w.

(** [event.detail.value]; reading a property of [null] or [undefined]
    is a TypeError, reading an unknown property gives [undefined]. *)
Definition detail_value (a : arg) : result value :=
  match a with
  | AEvent e =>
      match edetail e with
      | Change v _ => Ok v
      | Payload VNull | Payload VUndefined =>
          Throws (TypeError "Cannot read properties of null (reading 'value')")
      | Payload _ | Checked _ => Ok VUndefined
      end
  | AValue _ => Throws (TypeError "Cannot read properties of undefined (reading 'value')")
  end.

(** The body of [wrappedListener]. *)
Definition subscribe_wrapper (rec : task -> M unit) (listener : fn) (a : arg) : M unit :=
  match detail_value a with
  | Ok v => rec (TCall listener (AValue v))
  | Throws e => throw e
  end.

Definition createState (initialValue : value) (o : StateOptions) : StateManager :=
  new initialValue o.

Definition createControllableState (o : StateOptions) : result StateManager :=
  if negb (strict_eq (prop o) VUndefined) then Ok (new (prop o) o)
  else if negb (strict_eq (defaultProp o) VUndefined) then Ok (new (defaultProp o) o)
  else Throws (Error ("[" ++ or_default (caller o) "createControllableState" ++
                      "] Either 'prop' or 'defaultProp' must be provided")).

End StateManager.

(** ** The platform: native event targets and element attributes *)

Module Native.

Definition has_listener (t : target) (ty : string) (f : fn) (d : Dom) : bool :=
  bool_decide ((t, ty, f) ∈ registered d).

Definition set_registered (r : list (target * string * fn)) (d : Dom) : Dom :=
  {| registered := r; attributes := attributes d; properties := properties d;
     children := children d; next_node := next_node d; canUseDOM := canUseDOM d;
     inside_form := inside_form d; inside_control := inside_control d |}.
Definition set_attributes (a : gmap (nat * string) string) (d : Dom) : Dom :=
  {| registered := registered d; attributes := a; properties := properties d;
     children := children d; next_node := next_node d; canUseDOM := canUseDOM d;
     inside_form := inside_form d; inside_control := inside_control d |}.
Definition set_properties (p : gmap (nat * string) value) (d : Dom) : Dom :=
  {| registered := registered d; attributes := attributes d; properties := p;
     children := children d; next_node := next_node d; canUseDOM := canUseDOM d;
     inside_form := inside_form d; inside_control := inside_control d |}.
Definition set_children (c : list nat) (n : nat) (d : Dom) : Dom :=
  {| registered := registered d; attributes := attributes d; properties := properties d;
     children := c; next_node := n; canUseDOM := canUseDOM d;
     inside_form := inside_form d; inside_control := inside_control d |}.

(** [target.addEventListener(type, callback)]: a second registration of
    the same callback for the same type is ignored. *)
Definition addEventListener (t : target) (ty : string) (f : fn) (d : Dom) : Dom :=
  if has_listener t ty f d then d
  else set_registered (registered d ++ [(t, ty, f)]) d.

Definition removeEventListener (t : target) (ty : string) (f : fn) (d : Dom) : Dom :=
  set_registered (filter (fun r => r <> (t, ty, f)) (registered d)) d.

(** The callbacks registered on [t] for [ty], in registration order. *)
Definition listeners_of (t : target) (ty : string) (d : Dom) : list fn :=
  omap (fun r : target * string * fn =>
          if bool_decide (r.1 = (t, ty)) then Some r.2 else None) (registered d).

(** [target.dispatchEvent(event)], without propagation to other nodes:
    the listener list is copied first, a listener removed meanwhile is
    skipped, and an exception in a listener is reported, not rethrown. *)
Fixpoint invoke_all (rec : task -> M unit) (t : target) (e : event) (fs : list fn)
  : M unit :=
  match fs with
  | [] => ret tt
  | f :: rest =>
      let! still := gets (fun w => has_listener t (type e) f (dom w)) in
      (if still
       then try_catch (rec (TCall f (AEvent e)))
                      (fun err => modify (say [ConsoleError "Uncaught" err]))
       else ret tt) >>
      invoke_all rec t e rest
  end.

Definition dispatchEvent (rec : task -> M unit) (t : target) (e : event) : M unit :=
  let! fs := gets (fun w => listeners_of t (type e) (dom w)) in
  invoke_all rec t e fs.

Definition setAttribute (n : nat) (k v : string) (d : Dom) : Dom :=
  set_attributes (<[(n, k) := v]> (attributes d)) d.
Definition removeAttribute (n : nat) (k : string) (d : Dom) : Dom :=
  set_attributes (delete (n, k) (attributes d)) d.
Definition getAttribute (n : nat) (k : string) (d : Dom) : option string :=
  attributes d !! (n, k).
Definition hasAttribute (n : nat) (k : string) (d : Dom) : bool :=
  bool_decide (is_Some (attributes d !! (n, k))).
Definition setProperty (n : nat) (k : string) (v : value) (d : Dom) : Dom :=
  set_properties (<[(n, k) := v]> (properties d)) d.

(** [input.checked = v]: the value is converted to a boolean; the
    checkedness of an input is not reflected in an attribute. *)
Definition setChecked (n : nat) (v : value) (d : Dom) : Dom :=
  setProperty n "checked" (VBool (truthy v)) d.

(** [input.required = v] and [input.disabled = v]: the value is converted
    to a boolean, and the property reflects the content attribute of the
    same name, which is present exactly when the property is true. *)
Definition setReflected (n : nat) (k : string) (v : value) (d : Dom) : Dom :=
  setProperty n k (VBool (truthy v))
    (if truthy v then setAttribute n k "" d else removeAttribute n k d).

(** [root.querySelector('[attr]')]: the first descendant carrying it. *)
Definition querySelector (k : string) (d : Dom) : option nat :=
  head (filter (fun n => hasAttribute n k d = true) (children d)).

Definition appendChild (n : nat) (d : Dom) : Dom :=
  set_children (filter (fun c => c <> n) (children d) ++ [n]) (next_node d) d.

(** [document.createElement]: a fresh, detached element. *)
Definition createElement (d : Dom) : nat * Dom :=
  (next_node d, set_children (children d) (S (next_node d)) d).

End Native.

(** ** core/Component.ts *)

Module Component.

Definition set_tracked (t : list (string * list fn)) (x : Widget) : Widget :=
  {| class := class x; element := element x; w_options := w_options x;
     tracked := t; destroyed := destroyed x; checkedState := checkedState x;
     elements := elements x; required := required x; disabled := disabled x;
     s_value := s_value x; name := name x; form := form x;
     hasConsumerStoppedPropagation := hasConsumerStoppedPropagation x |}.
Definition set_destroyed (b : bool) (x : Widget) : Widget :=
  {| class := class x; element := element x; w_options := w_options x;
     tracked := tracked x; destroyed := b; checkedState := checkedState x;
     elements := elements x; required := required x; disabled := disabled x;
     s_value := s_value x; name := name x; form := form x;
     hasConsumerStoppedPropagation := hasConsumerStoppedPropagation x |}.

(** [this.listeners : Map<string, Set<EventListener>>], keyed by the event
    name alone, in insertion order. *)
Fixpoint track (event : string) (listener : fn) (m : list (string * list fn))
  : list (string * list fn) :=
  match m with
  | [] => [(event, [listener])]
  | (ev, s) :: rest =>
      if bool_decide (ev = event)
      then (ev, if bool_decide (listener ∈ s) then s else s ++ [listener]) :: rest
      else (ev, s) :: track event listener rest
  end.

Fixpoint untrack (event : string) (listener : fn) (m : list (string * list fn))
  : list (string * list fn) :=
  match m with
  | [] => []
  | (ev, s) :: rest =>
      if bool_decide (ev = event)
      then (ev, filter (fun l => l <> listener) s) :: rest
      else (ev, s) :: untrack event listener rest
  end.

Definition addEventListener (t : target) (event : string) (listener : fn) (w : world)
  : world :=
  with_dom (Native.addEventListener t event listener)
    (with_widget (fun x => set_tracked (track event listener (tracked x)) x) w).

Definition removeEventListener (t : target) (event : string) (listener : fn) (w : world)
  : world :=
  with_widget (fun x => set_tracked (untrack event listener (tracked x)) x)
    (with_dom (Native.removeEventListener t event listener) w).

Definition dispatchEvent (rec : task -> M unit) (e : event) : M unit :=
  Native.dispatchEvent rec Own e.

(** [addCustomEventListener(event, listener)]; the function it returns is
    [removeEventListener Own event listener]. *)
Definition addCustomEventListener (event : string) (listener : fn) (w : world) : world :=
  addEventListener Own event listener w.

(** [setAttribute(element, name, value)] with [value === null] removing. *)
Definition setAttribute (n : nat) (k : string) (v : option string) : M unit :=
  modify (with_dom (match v with
                    | None => Native.removeAttribute n k
                    | Some s => Native.setAttribute n k s
                    end)).
Definition setDataAttribute (n : nat) (k : string) (v : option string) : M unit :=
  setAttribute n ("data-" ++ k) v.

(** [createElement(tagName, attributes)] as the widgets call it, with
    attribute names in lower case and without [className]: every key,
    [data-] prefixed or not, ends up as an attribute of that name.  The
    method for arbitrary keys is [Elements.createElement] below. *)
Definition createElement (attrs : list (string * string)) : M nat :=
  let! n := (fun w => let '(n, d) := Native.createElement (dom w) in
                      Some (Ok n, with_dom (fun _ => d) w)) in
  modify (with_dom (fun d =>
    foldl (fun d kv => Native.setAttribute n kv.1 kv.2 d) d attrs)) >>
  ret n.

(** A newly allocated instance: the Component fields are set by the base
    constructor, no field of a subclass is assigned yet, and the private
    event target is a new one. *)
Definition allocate (cls : widget_class) (el : nat) (o : ComponentOptions) (w : world)
  : world :=
  with_dom (fun d => Native.set_registered
                       (filter (fun r => r.1.1 <> Own) (registered d)) d)
    (with_widget (fun _ =>
       {| class := cls; element := el; w_options := o;
          tracked := []; destroyed := false;
          checkedState := None; elements := None;
          required := VUndefined; disabled := VUndefined; s_value := VUndefined;
          name := VUndefined; form := VUndefined;
          hasConsumerStoppedPropagation := VUndefined |}) w).

(** [constructor(element, options)]; [init] is the subclass's
    implementation of the abstract method, called from inside the base
    constructor. *)
Definition constructor (init : M unit) (cls : widget_class) (el : nat)
    (o : ComponentOptions) : M unit :=
  let! can := gets (fun w => canUseDOM (dom w)) in
  if negb can
  then throw (Error "Component can only be instantiated in a DOM environment")
  else modify (allocate cls el o) >> init.

(** The removals of [destroy]: every tracked pair is removed from
    [this.eventTarget]. *)
Definition remove_tracked (m : list (string * list fn)) (d : Dom) : Dom :=
  foldl (fun d '(event, s) =>
           foldl (fun d listener => Native.removeEventListener Own event listener d) d s)
        d m.

(** [destroy()]; [cleanup] is the subclass's hook, if it has one. *)
Definition destroy (cleanup : option (M unit)) : M unit :=
  let! gone := gets (fun w => destroyed (widget w)) in
  if gone then ret tt
  else
    modify (with_widget (set_destroyed true)) >>
    modify (fun w => with_dom (remove_tracked (tracked (widget w))) w) >>
    modify (with_widget (set_tracked [])) >>
    match cleanup with
    | Some hook => hook
    | None => ret tt
    end.

Definition isDestroyed (w : world) : bool := destroyed (widget w).

End Component.


(** ** core/Component.ts: building elements and tracking listeners *)

Module Elements.

(** [key.startsWith(p)] and [key.slice(n)] *)
Definition startsWith (p s : string) : bool := String.prefix p s.
Definition slice (n : nat) (s : string) : string :=
  String.substring n (String.length s - n) s.

(** Attribute names as the platform's [element.setAttribute(name, value)]
    treats them on an HTML element.  A name that is empty or holds white
    space (tab, line feed, form feed, carriage return, space), NUL, [/],
    [=] or [>] is refused with an InvalidCharacterError on every platform.
    A name made of ASCII letters, digits, [-], [.], [_] and [:] that does
    not start with a digit, [-] or [.] is accepted on every platform, and
    put in ASCII lower case.  On the names in between platforms differ
    (some check the XML Name production, some only the characters above);
    the embedding leaves them open. *)
Definition refused_char (c : ascii) : bool :=
  bool_decide (nat_of_ascii c ∈ [0; 9; 10; 12; 13; 32; 47; 61; 62]).

Definition refused (name : string) : bool :=
  bool_decide (name = "") || existsb refused_char (String.list_ascii_of_string name).

Definition letter (c : ascii) : bool :=
  let n := nat_of_ascii c in
  Nat.leb 65 n && Nat.leb n 90 || Nat.leb 97 n && Nat.leb n 122.

Definition name_start (c : ascii) : bool :=
  let n := nat_of_ascii c in
  letter c || Nat.eqb n 95 || Nat.eqb n 58.

Definition name_char (c : ascii) : bool :=
  let n := nat_of_ascii c in
  name_start c || Nat.leb 48 n && Nat.leb n 57 || Nat.eqb n 45 || Nat.eqb n 46.

Definition accepted (name : string) : bool :=
  match name with
  | EmptyString => false
  | String c rest => name_start c && forallb name_char (String.list_ascii_of_string rest)
  end.

Definition lower_char (c : ascii) : ascii :=
  let n := nat_of_ascii c in
  if Nat.leb 65 n && Nat.leb n 90 then ascii_of_nat (n + 32) else c.

Fixpoint toLowerCase (s : string) : string :=
  match s with
  | EmptyString => EmptyString
  | String c rest => String (lower_char c) (toLowerCase rest)
  end.

Definition setAttribute (n : nat) (name value : string) : M unit :=
  if accepted name
  then modify (with_dom (Native.setAttribute n (toLowerCase name) value))
  else if refused name
       then throw (Error "InvalidCharacterError")
       else fun _ => None.

(** [setDataAttribute(element, name, value)] for a string [value]. *)
Definition setDataAttribute (n : nat) (name value : string) : M unit :=
  setAttribute n ("data-" ++ name) value.

(** One turn of [Object.entries(attributes).forEach(([key, value]) => ...)]
    as [createElement] writes it: a [data-] key goes through
    [setDataAttribute] with the prefix cut off, [className] is assigned
    to the property of that name, which reflects the [class] attribute,
    and any other key goes to [element.setAttribute]. *)
Definition set_entry (n : nat) (kv : string * string) : M unit :=
  let '(key, value) := kv in
  if startsWith "data-" key then setDataAttribute n (slice 5 key) value
  else if bool_decide (key = "className")
       then modify (with_dom (Native.setAttribute n "class" value))
       else setAttribute n key value.

Fixpoint set_entries (n : nat) (attrs : list (string * string)) : M unit :=
  match attrs with
  | [] => ret tt
  | kv :: rest => set_entry n kv >> set_entries n rest
  end.

(** [createElement(tagName, attributes)] for the name of an HTML element,
    called without children. *)
Definition createElement (attrs : list (string * string)) : M nat :=
  let! n := (fun w => let '(n, d) := Native.createElement (dom w) in
                      Some (Ok n, with_dom (fun _ => d) w)) in
  set_entries n attrs >> ret n.


End Elements.

Module Tracking.

(** [this.listeners.get(event)?.has(listener)] *)
Definition is_tracked (event : string) (listener : fn) (m : list (string * list fn))
  : bool :=
  bool_decide (Exists (fun p : string * list fn => p.1 = event /\ listener ∈ p.2) m).

(** A registration that [destroy] removes: one on the private event target
    whose event name and listener are tracked. *)
Definition swept (m : list (string * list fn)) (r : target * string * fn) : bool :=
  bool_decide (r.1.1 = Own) && is_tracked r.1.2 r.2 m.

(** Every listener on the private event target is tracked. *)
Definition own_tracked (w : world) : bool :=
  forallb (fun r : target * string * fn =>
             negb (bool_decide (r.1.1 = Own)) || is_tracked r.1.2 r.2 (tracked (widget w)))
          (registered (dom w)).

End Tracking.

(** ** label/Label.ts *)

Module Label.

(** [event.detail > 1]; the detail objects the library itself builds are
    plain objects, which convert to [NaN]. *)
Definition detail_above_one (d : detail) : option bool :=
  match d with
  | Payload v => above_one v
  | Change _ _ | Checked _ => Some false
  end.

(** [!event.defaultPrevented && event.detail > 1] reads the detail only
    when the event is not yet prevented. *)
Definition handleMouseDown (a : arg) : M unit :=
  let! inside := gets (fun w => inside_control (dom w)) in
  if inside then ret tt
  else
    match a with
    | AEvent e =>
        if defaultPrevented e then ret tt
        else
          match detail_above_one (edetail e) with
          | Some true => modify (say [PreventDefault (type e)])
          | Some false => ret tt
          | None => fun _ => None
          end
    | AValue _ => throw (TypeError "Cannot read properties of undefined (reading 'closest')")
    end.

Definition setupElement : M unit :=
  let! el := gets (fun w => element (widget w)) in
  modify (Component.addEventListener (Elem el) "mousedown" LabelMouseDown).

Definition init : M unit :=
  let! o := gets (fun w => w_options (widget w)) in
  setupElement >>
  let! el := gets (fun w => element (widget w)) in
  if truthy (htmlFor o)
  then Component.setAttribute el "for" (Some (to_string (htmlFor o)))
  else ret tt.

(** [new Label(element, options)] *)
Definition new (el : nat) (o : ComponentOptions) : M unit :=
  Component.constructor init Label el o.

(** Label declares no [cleanup]. *)
Definition destroy : M unit := Component.destroy None.

(** [setFor(htmlFor)] and [getFor()] *)
Definition setFor (htmlFor : string) : M unit :=
  let! el := gets (fun w => element (widget w)) in
  Component.setAttribute el "for" (Some htmlFor).

Definition getFor (w : world) : option string :=
  Native.getAttribute (element (widget w)) "for" (dom w).

End Label.

(** ** switch/Switch.ts *)

Module Switch.

Definition set_fields (cs : option cell_ref) (els : option SwitchElements)
    (req dis val nm fm stopped : value) (x : Widget) : Widget :=
  {| class := class x; element := element x; w_options := w_options x;
     tracked := tracked x; destroyed := destroyed x; checkedState := cs;
     elements := els; required := req; disabled := dis;
     s_value := val; name := nm; form := fm;
     hasConsumerStoppedPropagation := stopped |}.
Definition set_checkedState (cs : option cell_ref) (x : Widget) : Widget :=
  set_fields cs (elements x) (required x) (disabled x) (s_value x) (name x) (form x)
             (hasConsumerStoppedPropagation x) x.
Definition set_elements (els : option SwitchElements) (x : Widget) : Widget :=
  set_fields (checkedState x) els (required x) (disabled x) (s_value x) (name x) (form x)
             (hasConsumerStoppedPropagation x) x.
Definition set_disabled (dis : value) (x : Widget) : Widget :=
  set_fields (checkedState x) (elements x) (required x) dis (s_value x) (name x) (form x)
             (hasConsumerStoppedPropagation x) x.
Definition set_stopped (b : value) (x : Widget) : Widget :=
  set_fields (checkedState x) (elements x) (required x) (disabled x) (s_value x) (name x)
             (form x) b x.

(** Reading a field to use it as an object: a TypeError when the field is
    not assigned yet or has been nulled. *)
Definition the_elements : M SwitchElements :=
  let! els := gets (fun w => elements (widget w)) in
  match els with
  | Some e => ret e
  | None => throw (TypeError "this.elements is undefined")
  end.
Definition the_checkedState : M cell_ref :=
  let! cs := gets (fun w => checkedState (widget w)) in
  match cs with
  | Some c => ret c
  | None => throw (TypeError "this.checkedState is undefined")
  end.
Definition the_node (n : option nat) : M nat :=
  match n with
  | Some k => ret k
  | None => throw (TypeError "element is null")
  end.

(** [v.toString()] *)
Definition toString (v : value) : M string :=
  match v with
  | VUndefined | VNull =>
      throw (TypeError "Cannot read properties of undefined (reading 'toString')")
  | _ => ret (to_string v)
  end.

(** In [this.elements.thumb = a || b] the object [this.elements] is read
    first, then the right-hand side is evaluated, and only the assignment
    itself throws when the object read is [undefined]. *)
Definition findElements : M unit :=
  let! target := gets (fun w => elements (widget w)) in
  let! el := gets (fun w => element (widget w)) in
  let! found := gets (fun w => Native.querySelector "data-switch-thumb" (dom w)) in
  let! thumb := match found with
                | Some n => ret n
                | None => Component.createElement
                            [("data-switch-thumb", ""); ("role", "presentation")]
                end in
  let! els := match target with
              | Some e => ret e
              | None => throw (TypeError "this.elements is undefined")
              end in
  modify (with_widget (set_elements
    (Some {| el_root := el_root els; el_thumb := Some thumb;
             el_bubbleInput := el_bubbleInput els |}))) >>
  let! input := Component.createElement
                  [("type", "checkbox"); ("aria-hidden", "true"); ("tabindex", "-1");
                   ("style", "position: absolute; pointer-events: none; opacity: 0; margin: 0;")] in
  modify (with_widget (set_elements
    (Some {| el_root := el_root els; el_thumb := Some thumb;
             el_bubbleInput := Some input |}))) >>
  let! again := gets (fun w => Native.querySelector "data-switch-thumb" (dom w)) in
  (if bool_decide (again = None)
   then modify (with_dom (Native.appendChild thumb))
   else ret tt) >>
  modify (with_dom (Native.appendChild input)).

Definition setupAttributes : M unit :=
  let! el := gets (fun w => element (widget w)) in
  Component.setAttribute el "type" (Some "button") >>
  Component.setAttribute el "role" (Some "switch") >>
  Component.setAttribute el "data-switch" (Some "") >>
  let! x := gets widget in
  (if truthy (name x)
   then let! els := the_elements in
        let! input := the_node (el_bubbleInput els) in
        Component.setAttribute input "name" (Some (to_string (name x)))
   else ret tt) >>
  (if truthy (form x)
   then let! els := the_elements in
        let! input := the_node (el_bubbleInput els) in
        Component.setAttribute input "form" (Some (to_string (form x)))
   else ret tt) >>
  let! els := the_elements in
  let! input := the_node (el_bubbleInput els) in
  Component.setAttribute input "value"
    (if bool_decide (s_value x = VNull) then None else Some (to_string (s_value x))) >>
  Component.setAttribute input "required"
    (Some (if truthy (required x) then "true" else "false")).

Definition getChecked : M value :=
  the_checkedState >> gets StateManager.getValue.

Definition updateDisplay : M unit :=
  let! checked := getChecked in
  let! x := gets widget in
  let el := element x in
  let! c := toString checked in
  Component.setAttribute el "aria-checked" (Some c) >>
  let! r := toString (required x) in
  Component.setAttribute el "aria-required" (Some r) >>
  let state := if truthy checked then "checked" else "unchecked" in
  Component.setDataAttribute el "state" (Some state) >>
  (if truthy (disabled x)
   then Component.setAttribute el "data-disabled" (Some "") >>
        Component.setAttribute el "disabled" (Some "")
   else modify (with_dom (Native.removeAttribute el "data-disabled")) >>
        modify (with_dom (Native.removeAttribute el "disabled"))) >>
  let! els := the_elements in
  let! thumb := the_node (el_thumb els) in
  Component.setDataAttribute thumb "state" (Some state) >>
  (if truthy (disabled x)
   then Component.setAttribute thumb "data-disabled" (Some "")
   else modify (with_dom (Native.removeAttribute thumb "data-disabled"))) >>
  let! input := the_node (el_bubbleInput els) in
  modify (with_dom (Native.setChecked input checked)) >>
  modify (with_dom (Native.setReflected input "required" (required x))) >>
  modify (with_dom (Native.setReflected input "disabled" (disabled x))).

(** The body of the subscriber [(checked) => { ... }]. *)
Definition checked_subscriber (rec : task -> M unit) (a : arg) : M unit :=
  let checked := match a with
                 | AValue v => v
                 | AEvent _ => VObj 0
                 end in
  updateDisplay >>
  Component.dispatchEvent rec (CustomEvent "checkedChange" (Checked checked)).

Definition setupEventListeners : M unit :=
  the_checkedState >>
  modify (fun w => (StateManager.subscribe SwitchChecked w).2) >>
  let! el := gets (fun w => element (widget w)) in
  modify (Component.addEventListener (Elem el) "click" SwitchClick).

Definition init : M unit :=
  findElements >> setupAttributes >> setupEventListeners >> updateDisplay.

Definition handleClick (rec : task -> M unit) (a : arg) : M unit :=
  let! x := gets widget in
  if truthy (disabled x) then ret tt
  else
    let! in_form := gets (fun w => inside_form (dom w)) in
    let isFormControl := truthy (form x) || in_form in
    let! current := getChecked in
    StateManager.setValue rec (Js.not current) >>
    if isFormControl then
      match a with
      | AEvent e =>
          modify (with_widget (set_stopped (VBool (defaultPrevented e)))) >>
          if defaultPrevented e then ret tt
          else modify (say [StopPropagation (type e)])
      | AValue _ => modify (with_widget (set_stopped VUndefined)) >>
          throw (TypeError "event.stopPropagation is not a function")
      end
    else ret tt.

Definition setChecked (rec : task -> M unit) (checked : value) : M unit :=
  the_checkedState >> StateManager.setValue rec checked.

Definition toggle (rec : task -> M unit) : M unit :=
  let! current := getChecked in
  setChecked rec (Js.not current).

Definition enable : M unit :=
  modify (with_widget (set_disabled (VBool false))) >> updateDisplay.
Definition disable : M unit :=
  modify (with_widget (set_disabled (VBool true))) >> updateDisplay.
Definition isDisabled (w : world) : value := disabled (widget w).

Definition cleanup : M unit :=
  modify (with_widget (set_checkedState None)) >>
  modify (with_widget (set_elements None)).

(** What the constructor of Switch does once [super(element, options)] has
    returned: the field initialiser, then the assignments of its body. *)
Definition assign_fields (el : nat) (o : ComponentOptions) : M unit :=
  modify (with_widget (set_stopped (VBool false))) >>
  match StateManager.createControllableState
          {| prop := checked o;
             defaultProp := nullish (defaultChecked o) (VBool false);
             onChange := onCheckedChange o;
             caller := None |} with
  | Throws e => throw e
  | Ok cell =>
      modify (fun w => with_sm (fun _ => cell) w) >>
      modify (with_widget (fun x =>
        set_fields (Some TheCell)
          (Some {| el_root := el; el_thumb := None; el_bubbleInput := None |})
          (nullish (o_required o) (VBool false))
          (nullish (o_disabled o) (VBool false))
          (nullish (o_value o) (VStr "on"))
          (o_name o) (o_form o)
          (hasConsumerStoppedPropagation x) x))
  end.

(** [new Switch(element, options)]: the base constructor, and with it
    [init], runs first; the fields of Switch are assigned afterwards. *)
Definition new (el : nat) (o : ComponentOptions) : M unit :=
  Component.constructor init Switch el o >> assign_fields el o.

Definition destroy : M unit := Component.destroy (Some cleanup).

End Switch.

(** ** Running callbacks *)

Module Run.

(** The value a callback's guard looks at. *)
Definition arg_payload (a : arg) : value :=
  match a with
  | AValue v => v
  | AEvent e => match edetail e with
                | Payload v => v
                | Change v _ => v
                | Checked v => v
                end
  end.

Fixpoint exec_stmt (rec : task -> M unit) (a : arg) (s : stmt) : M unit :=
  match s with
  | Note tag => modify (say [Noted tag])
  | Throw msg => throw (Error msg)
  | IfArg v s' => if strict_eq (arg_payload a) v then exec_stmt rec a s' else ret tt
  | On ty f => modify (EventTarget.addEventListener ty f)
  | Off ty f => modify (EventTarget.removeEventListener ty f)
  | Once ty f => modify (EventTarget.once ty f)
  | Emit ty d => EventTarget.emit rec ty d
  | Assign v => StateManager.set_value rec v
  | SetValue v => StateManager.setValue rec v
  | UpdateControlledValue v => StateManager.updateControlledValue rec v
  end.

Fixpoint exec (rec : task -> M unit) (a : arg) (body : list stmt) : M unit :=
  match body with
  | [] => ret tt
  | s :: rest => exec_stmt rec a s >> exec rec a rest
  end.

(** Calling a function object; every call is recorded. *)
Definition call (rec : task -> M unit) (f : fn) (a : arg) : M unit :=
  modify (say [Called f a]) >>
  match f with
  | User id => let! body := gets (fun w => code w id) in exec rec a body
  | OnceWrapper ty listener _ => EventTarget.once_wrapper rec ty listener f a
  | SubscribeWrapper listener _ => StateManager.subscribe_wrapper rec listener a
  | LabelMouseDown => Label.handleMouseDown a
  | SwitchChecked => Switch.checked_subscriber rec a
  | SwitchClick => Switch.handleClick rec a
  end.

(** [run n] serves nested calls up to depth [n]. *)
Fixpoint run (fuel : nat) (t : task) : M unit :=
  match fuel with
  | 0 => fun _ => None
  | S n =>
      match t with
      | TCall f a => call (run n) f a
      | TForEach ty i e => EventTarget.forEach_step (run n) ty i e
      end
  end.

#[global] Arguments run : simpl never.

(** The public operations, closed with the interpreter. *)
Definition emit n ty d := EventTarget.emit (run n) ty d.
Definition dispatchEvent n e := EventTarget.dispatchEvent (run n) e.
Definition setValue n v := StateManager.setValue (run n) v.
Definition set_value n v := StateManager.set_value (run n) v.
Definition updateControlledValue n v := StateManager.updateControlledValue (run n) v.
(** A native event fired at a DOM target by the user or a test. *)
Definition simulate n t e := Native.dispatchEvent (run n) t e.

End Run.

(** ** Example pages *)

Module Examples.

Definition no_options : ComponentOptions :=
  {| htmlFor := VUndefined; checked := VUndefined; defaultChecked := VUndefined;
     o_required := VUndefined; o_disabled := VUndefined; o_value := VUndefined;
     o_name := VUndefined; o_form := VUndefined; onCheckedChange := None |}.

Definition empty_dom : Dom :=
  {| registered := []; attributes := ∅; properties := ∅; children := [];
     next_node := 1; canUseDOM := true; inside_form := false;
     inside_control := false |}.

Definition no_widget : Widget :=
  {| class := Label; element := 0; w_options := no_options; tracked := [];
     destroyed := false; checkedState := None; elements := None;
     required := VUndefined; disabled := VUndefined; s_value := VUndefined;
     name := VUndefined; form := VUndefined;
     hasConsumerStoppedPropagation := VUndefined |}.

(** A page holding the cell [c] and the user callbacks [bodies]. *)
Definition page (bodies : nat -> list stmt) (c : StateManager) : world :=
  {| code := bodies; sm := c; dom := empty_dom; widget := no_widget;
     next_closure := 0; log := [] |}.

(** A bare hub: an EventTarget with no listeners. *)
Definition hub : StateManager :=
  StateManager.new VUndefined
    {| prop := VUndefined; defaultProp := VUndefined; onChange := None; caller := None |}.

End Examples.

(** ** Example listeners *)

Module Scenes.
Import Examples.

(** Callback 0 and 2 note something, callback 1 throws, callback 3 emits
    ["x"] again when it is handed the payload 1, callback 4 is a spy. *)
Definition bodies (id : nat) : list stmt :=
  match id with
  | 0 => [Note "first"]
  | 1 => [Throw "boom"]
  | 2 => [Note "third"]
  | 3 => [Note "fn"; IfArg (VNum 1) (Emit "x" (VNum 2))]
  | _ => []
  end.

Definition three_listeners : world :=
  EventTarget.addEventListener "x" (User 2)
    (EventTarget.addEventListener "x" (User 1)
       (EventTarget.addEventListener "x" (User 0) (page bodies hub))).

(** A controlled cell holding [false], with callback 4 as [onChange] and
    callback 5 subscribed. *)
Definition controlled_page : world :=
  (StateManager.subscribe (User 5)
     (page bodies
        (StateManager.new VUndefined
           {| prop := VBool false; defaultProp := VUndefined;
              onChange := Some (User 4); caller := Some "Switch" |}))).2.

(** The same, uncontrolled, with default [false]. *)
Definition uncontrolled_page : world :=
  (StateManager.subscribe (User 5)
     (page bodies
        (StateManager.new VUndefined
           {| prop := VUndefined; defaultProp := VBool false;
              onChange := Some (User 4); caller := None |}))).2.

Definition mousedown : event := CustomEvent "mousedown" (Payload (VNum 1)).
Definition click : event := CustomEvent "click" (Payload (VNum 1)).

(** The world a computation leaves behind. *)
Definition after {A} (m : M A) (w : world) : world :=
  match m w with
  | Some (_, w') => w'
  | None => w
  end.

(** A cleanup hook that notes whether [isDestroyed()] already holds. *)
Definition probe : M unit :=
  fun w => Some (Ok tt, say [Noted (if Component.isDestroyed w
                                    then "cleanup: destroyed" else "cleanup: live")] w).

(** [{ checked: false, onCheckedChange: cb }] *)
Definition controlled_options (cb : fn) : ComponentOptions :=
  {| htmlFor := VUndefined; checked := VBool false; defaultChecked := VUndefined;
     o_required := VUndefined; o_disabled := VUndefined; o_value := VUndefined;
     o_name := VUndefined; o_form := VUndefined; onCheckedChange := Some cb |}.

End Scenes.


(** ** More example pages *)

Module Pages.
Import Examples Scenes.

(** An uncontrolled cell holding [false] whose [onChange] (callback 1)
    throws, with callback 5 subscribed. *)
Definition throwing_page : world :=
  (StateManager.subscribe (User 5)
     (page bodies
        (StateManager.new VUndefined
           {| prop := VUndefined; defaultProp := VBool false;
              onChange := Some (User 1); caller := None |}))).2.

(** A widget page with callback 0 listening for the widget's own
    ["opened"] event and callback 2 for clicks on element 0, both
    registered through the base class. *)
Definition tracked_page : world :=
  Component.addEventListener (Elem 0) "click" (User 2)
    (Component.addCustomEventListener "opened" (User 0) (page bodies hub)).

(** Callback 6 removes callback 2 from ["x"], callback 7 registers
    callback 4 for ["x"]; the others are those of [Scenes.bodies]. *)
Definition meddlers (id : nat) : list stmt :=
  match id with
  | 6 => [Off "x" (User 2)]
  | 7 => [On "x" (User 4)]
  | _ => bodies id
  end.

(** A hub on which callbacks 0, [id] and 2 listen for ["x"], in this order. *)
Definition hub_with (id : nat) : world :=
  EventTarget.addEventListener "x" (User 2)
    (EventTarget.addEventListener "x" (User id)
       (EventTarget.addEventListener "x" (User 0) (page meddlers hub))).

(** A user program on a cell: it sets, updates and assigns the value,
    registers a listener and emits an event. *)
Definition program : list stmt :=
  [SetValue (VBool true); UpdateControlledValue (VBool false); Assign (VBool true);
   On "change" (User 0); Emit "change" VUndefined].

End Pages.

(** ** Callbacks that do not call back into the library

    A callback is quiet when its body only notes side effects of its own and
    possibly throws.  The whole effect of a quiet callback is a list of
    observations and an optional exception, computed without the
    interpreter. *)

Module Quiet.
Import Run.

Fixpoint quiet_stmt (s : stmt) : bool :=
  match s with
  | Note _ | Throw _ => true
  | IfArg _ s' => quiet_stmt s'
  | _ => false
  end.

Definition quiet_body (body : list stmt) : bool := forallb quiet_stmt body.

Fixpoint stmt_effect (a : arg) (s : stmt) : list obs * option error :=
  match s with
  | Note tag => ([Noted tag], None)
  | Throw msg => ([], Some (Error msg))
  | IfArg v s' => if strict_eq (arg_payload a) v then stmt_effect a s' else ([], None)
  | _ => ([], None)
  end.

Fixpoint body_effect (a : arg) (body : list stmt) : list obs * option error :=
  match body with
  | [] => ([], None)
  | s :: rest =>
      match stmt_effect a s with
      | (o, Some e) => (o, Some e)
      | (o, None) => let '(o', e) := body_effect a rest in (o ++ o', e)
      end
  end.

Definition outcome (e : option error) : result unit :=
  match e with
  | None => Ok tt
  | Some x => Throws x
  end.

(** Listeners the library can be handed: a quiet user callback, or the
    wrapper [subscribe] builds around one. *)
Definition tame (c : nat -> list stmt) (f : fn) : bool :=
  match f with
  | User id => quiet_body (c id)
  | SubscribeWrapper (User id) _ => quiet_body (c id)
  | _ => false
  end.

Definition quiet (c : nat -> list stmt) (f : fn) : bool :=
  match f with
  | User id => quiet_body (c id)
  | _ => false
  end.

Definition call_effect (c : nat -> list stmt) (f : fn) (a : arg)
  : list obs * option error :=
  match f with
  | User id => let '(o, e) := body_effect a (c id) in (Called f a :: o, e)
  | SubscribeWrapper (User id) _ =>
      match StateManager.detail_value a with
      | Ok v => let '(o, e) := body_effect (AValue v) (c id) in
                (Called f a :: Called (User id) (AValue v) :: o, e)
      | Throws e => ([Called f a], Some e)
      end
  | _ => ([], None)
  end.

(** What one listener contributes to a dispatch of [e]. *)
Definition listener_effect (c : nat -> list stmt) (e : event) (f : fn) : list obs :=
  let '(o, err) := call_effect c f (AEvent e) in
  o ++ match err with
       | Some x => [ConsoleError ("Error in event listener for " ++ type e ++ ":") x]
       | None => []
       end.

Definition dispatch_effect (c : nat -> list stmt) (e : event) (fs : list fn) : list obs :=
  concat (listener_effect c e <$> fs).

End Quiet.

(** ** Observing a run *)

Module Observe.
Import Run Quiet.

(** The calls, logged exceptions and warnings in a stretch of the log. *)
Definition calls (l : list obs) : list (fn * arg) :=
  omap (fun o => match o with Called f a => Some (f, a) | _ => None end) l.
Definition errors (l : list obs) : list error :=
  omap (fun o => match o with ConsoleError _ e => Some e | _ => None end) l.
Definition warnings (l : list obs) : list string :=
  omap (fun o => match o with ConsoleWarn m => Some m | _ => None end) l.

(** The arguments [f] was called with. *)
Definition calls_of (f : fn) (l : list obs) : list arg :=
  snd <$> filter (fun c => c.1 = f) (calls l).

(** What was logged between [w] and [w']. *)
Definition since (w w' : world) : list obs := drop (length (log w)) (log w').

(** The set registered for [ty]: its raw entries and its members. *)
Definition entries (ty : string) (w : world) : list (option fn) :=
  default [] (listeners (sm w) !! ty).
Definition registered_for (ty : string) (w : world) : list fn :=
  EventTarget.set_elements (entries ty w).

(** The exception a quiet listener ends with, if any. *)
Definition thrown (c : nat -> list stmt) (a : arg) (f : fn) : option error :=
  (call_effect c f a).2.

(** The outcome of a run started in [w] and what it logged. *)
Definition observe {A} (w : world) (r : option (result A * world))
  : option (result A * list obs) :=
  (fun p => (p.1, since w p.2)) <$> r.

(** The listeners that were handed the event [e] itself. *)
Definition notified (e : event) (l : list obs) : list fn :=
  fst <$> filter (fun c => c.2 = AEvent e) (calls l).

(** The [onChange] callback is absent or quiet. *)
Definition callback_quiet (w : world) : bool :=
  match onChange (options (sm w)) with
  | Some f => quiet (code w) f
  | None => true
  end.

(** What calling [onChange] with [v] logs, and how it ends. *)
Definition callback_effect (w : world) (v : value) : list obs * option error :=
  match onChange (options (sm w)) with
  | Some f => call_effect (code w) f (AValue v)
  | None => ([], None)
  end.

Definition change (v old : value) : event := CustomEvent "change" (Change v old).



End Observe.


(** ** Closures the library allocates *)

Module Closures.
Import Observe.

(** The allocation stamp of a closure the library created. *)
Definition stamp (f : fn) : option nat :=
  match f with
  | OnceWrapper _ _ k | SubscribeWrapper _ k => Some k
  | _ => None
  end.

(** [f] is not a closure that is still to be allocated. *)
Definition allocated (w : world) (f : fn) : bool :=
  match stamp f with
  | Some k => Nat.ltb k (next_closure w)
  | None => true
  end.

(** Every closure registered for [ty] was allocated in the past, as it is
    on every heap a JavaScript program can reach. *)
Definition well_stamped (ty : string) (w : world) : bool :=
  forallb (allocated w) (registered_for ty w).

End Closures.



(** ** What stays fixed: a cell's configuration *)

Module Config.

(** The part of a cell that is fixed when it is constructed. *)
Definition same_config (w w' : world) : Prop :=
  isControlled (sm w') = isControlled (sm w)
  /\ options (sm w') = options (sm w)
  /\ code w' = code w.

Definition keeps_config {A} (m : M A) : Prop :=
  forall w r w', m w = Some (r, w') -> same_config w w'.

End Config.


(** * Properties *)

(** ** Strict equality *)

Module JsFacts.

Lemma strict_eq_true a b : strict_eq a b = true -> a = b.
Proof.
  unfold strict_eq.
  destruct a, b; intros H; try discriminate H;
    apply bool_decide_eq_true in H; exact H.
Qed.

Lemma strict_eq_refl a : a <> VNaN -> strict_eq a a = true.
Proof.
  unfold strict_eq.
  destruct a; intros H; try (apply bool_decide_eq_true; reflexivity).
  congruence.
Qed.

Lemma strict_eq_false_neq a b : a <> b -> strict_eq a b = false.
Proof.
  intros H. destruct (strict_eq a b) eqn:E; [|reflexivity].
  apply strict_eq_true in E. contradiction.
Qed.

End JsFacts.

(** ** Running quiet callbacks *)

Module QuietFacts.
Import JsFacts Run Quiet.

Lemma say_nil w : say [] w = w.
Proof. destruct w; unfold say; simpl. by rewrite app_nil_r. Qed.

Lemma say_say a b w : say b (say a w) = say (a ++ b) w.
Proof. unfold say; simpl. by rewrite app_assoc. Qed.

Lemma exec_stmt_quiet rec a s w :
  quiet_stmt s = true ->
  exec_stmt rec a s w = Some (outcome (stmt_effect a s).2, say (stmt_effect a s).1 w).
Proof.
  induction s; simpl; try discriminate; intros Hq.
  - reflexivity.
  - unfold throw. by rewrite say_nil.
  - destruct (strict_eq (arg_payload a) v); [by apply IHs|].
    unfold ret; simpl. by rewrite say_nil.
Qed.

Lemma exec_quiet rec a body w :
  quiet_body body = true ->
  exec rec a body w = Some (outcome (body_effect a body).2, say (body_effect a body).1 w).
Proof.
  revert w. induction body as [|s rest IH]; intros w Hq; simpl.
  - unfold ret. by rewrite say_nil.
  - simpl in Hq. apply andb_true_iff in Hq as [Hs Hr].
    unfold bind. rewrite (exec_stmt_quiet _ _ _ _ Hs).
    destruct (stmt_effect a s) as [o [e|]]; simpl; [reflexivity|].
    rewrite (IH _ Hr). destruct (body_effect a rest) as [o' e']; simpl.
    by rewrite say_say.
Qed.

Lemma run_call n f a : run (S n) (TCall f a) = call (run n) f a.
Proof. reflexivity. Qed.

Lemma run_forEach n ty i e :
  run (S n) (TForEach ty i e) = EventTarget.forEach_step (run n) ty i e.
Proof. reflexivity. Qed.

Lemma call_tame n f a w :
  tame (code w) f = true ->
  run (S (S n)) (TCall f a) w
  = Some (outcome (call_effect (code w) f a).2, say (call_effect (code w) f a).1 w).
Proof.
  intros Ht. destruct f as [id| | [id| | | | |] k | | |]; try discriminate; simpl in Ht.
  - rewrite run_call. unfold call, bind, modify, gets; simpl.
    rewrite (exec_quiet _ _ _ _ Ht).
    destruct (body_effect a (code w id)) as [o e]; simpl.
    by rewrite say_say.
  - rewrite run_call. unfold call, bind, modify; simpl.
    unfold StateManager.subscribe_wrapper.
    destruct (StateManager.detail_value a) as [v|err]; simpl; [|reflexivity].
    rewrite run_call. unfold call, bind, modify, gets; simpl.
    rewrite (exec_quiet _ _ _ _ Ht).
    destruct (body_effect (AValue v) (code w id)) as [o e]; simpl.
    by rewrite !say_say.
Qed.

Lemma call_quiet n f a w :
  quiet (code w) f = true ->
  run (S n) (TCall f a) w
  = Some (outcome (call_effect (code w) f a).2, say (call_effect (code w) f a).1 w).
Proof.
  intros Ht. destruct f as [id| | | | |]; try discriminate; simpl in Ht.
  rewrite run_call. unfold call, bind, modify, gets; simpl.
  rewrite (exec_quiet _ _ _ _ Ht).
  destruct (body_effect a (code w id)) as [o e]; simpl.
  by rewrite say_say.
Qed.

Lemma quiet_tame c f : quiet c f = true -> tame c f = true.
Proof. by destruct f. Qed.

(** A [forEach] over tame listeners visits every live entry from [i] on,
    in order, whatever each of them does; [3 + m] levels of nesting are
    enough when at most [m] entries remain. *)
Lemma forEach_tame k : forall m ty i e w (s : list (option fn)),
  k <= m ->
  listeners (sm w) !! ty = Some s ->
  length s - i <= k ->
  (forall f, f ∈ EventTarget.set_elements (drop i s) -> tame (code w) f = true) ->
  run (S (S (S m))) (TForEach ty i e) w
  = Some (Ok tt, say (dispatch_effect (code w) e (EventTarget.set_elements (drop i s))) w).
Proof.
  induction k as [|k IH]; intros m ty i e w s Hkm Hs Hlen Htame;
    rewrite run_forEach; unfold EventTarget.forEach_step, bind, gets; simpl;
    rewrite Hs; simpl; destruct (s !! i) as [entry|] eqn:Hi.
  - apply lookup_lt_Some in Hi. lia.
  - apply lookup_ge_None in Hi. rewrite (drop_ge _ _ Hi). simpl.
    unfold ret. by rewrite say_nil.
  - pose proof (lookup_lt_Some _ _ _ Hi) as Hlt.
    rewrite (drop_S _ _ _ Hi) in Htame |- *.
    destruct m as [|m]; [lia|].
    destruct entry as [f|].
    + assert (Hf : tame (code w) f = true)
        by (apply Htame; unfold EventTarget.set_elements; simpl; left).
      unfold try_catch. rewrite (call_tame _ _ _ _ Hf).
      unfold EventTarget.set_elements, dispatch_effect, listener_effect; simpl.
      destruct (call_effect (code w) f (AEvent e)) as [o [err|]]; simpl.
      * rewrite (IH m ty (S i) e _ s); simpl; try done; try lia.
        -- rewrite !say_say. by rewrite <- !app_assoc.
        -- intros g Hg. apply Htame. unfold EventTarget.set_elements; simpl. by right.
      * rewrite (IH m ty (S i) e _ s); simpl; try done; try lia.
        -- rewrite !say_say. by rewrite app_nil_r.
        -- intros g Hg. apply Htame. unfold EventTarget.set_elements; simpl. by right.
    + rewrite (IH m ty (S i) e _ s); simpl; try done; lia.
  - apply lookup_ge_None in Hi. rewrite (drop_ge _ _ Hi). simpl.
    unfold ret. by rewrite say_nil.
Qed.

(** Whatever the listeners are, the loop catches what they throw. *)
Lemma forEach_no_throw n : forall ty i e w err w',
  run n (TForEach ty i e) w <> Some (Throws err, w').
Proof.
  induction n as [|n IH]; intros ty i e w err w'; [discriminate|].
  rewrite run_forEach. unfold EventTarget.forEach_step, bind, gets; simpl.
  destruct (listeners (sm w) !! ty ≫= (fun s => s !! i)) as [[f|]|]; simpl.
  - unfold try_catch, EventTarget.console_error, modify.
    destruct (run n (TCall f (AEvent e)) w) as [[[[]|x] w1]|]; simpl;
      try discriminate; apply IH.
  - apply IH.
  - discriminate.
Qed.

Lemma dispatchEvent_no_throw n e w err w' :
  dispatchEvent n e w <> Some (Throws err, w').
Proof.
  unfold dispatchEvent, EventTarget.dispatchEvent, bind, gets, ret; simpl.
  destruct (listeners (sm w) !! type e); [|discriminate].
  destruct (run n (TForEach (type e) 0 e) w) as [[[[]|x] w1]|] eqn:E;
    try discriminate.
  by apply forEach_no_throw in E.
Qed.

Lemma dispatchEvent_tame m e w (s : list (option fn)) :
  length s <= m ->
  listeners (sm w) !! type e = Some s ->
  (forall f, f ∈ EventTarget.set_elements s -> tame (code w) f = true) ->
  dispatchEvent (S (S (S m))) e w
  = Some (Ok (negb (defaultPrevented e)),
          say (dispatch_effect (code w) e (EventTarget.set_elements s)) w).
Proof.
  intros Hm Hs Ht.
  unfold dispatchEvent, EventTarget.dispatchEvent, bind, gets, ret; simpl.
  rewrite Hs.
  rewrite (forEach_tame (length s) m (type e) 0 e w s); try done; lia.
Qed.

Lemma dispatchEvent_absent n e w :
  listeners (sm w) !! type e = None ->
  dispatchEvent n e w = Some (Ok (negb (defaultPrevented e)), w).
Proof.
  intros Hs.
  unfold dispatchEvent, EventTarget.dispatchEvent, bind, gets, ret; simpl.
  by rewrite Hs.
Qed.

End QuietFacts.

(** ** A larger recursion budget never changes a result *)

Module Mono.
Import Run QuietFacts.

Lemma refines_refl {A} (m : M A) : refines m m.
Proof. by intros w r. Qed.

Lemma bind_refines {A B} (m m' : M A) (k k' : A -> M B) :
  refines m m' -> (forall a, refines (k a) (k' a)) ->
  refines (bind m k) (bind m' k').
Proof.
  intros Hm Hk w r. unfold bind.
  destruct (m w) as [[[a|e] w1]|] eqn:E; try discriminate;
    rewrite (Hm _ _ E); [apply Hk | done].
Qed.

Lemma try_catch_refines {A} (m m' : M A) (h h' : error -> M A) :
  refines m m' -> (forall e, refines (h e) (h' e)) ->
  refines (try_catch m h) (try_catch m' h').
Proof.
  intros Hm Hh w r. unfold try_catch.
  destruct (m w) as [[[a|e] w1]|] eqn:E; try discriminate;
    rewrite (Hm _ _ E); [done | apply Hh].
Qed.

Ltac mono :=
  repeat first
    [ apply refines_refl
    | apply bind_refines
    | apply try_catch_refines
    | progress intros
    | match goal with
      | H : forall t, refines (?r t) (?r' t) |- refines (?r _) (?r' _) => apply H
      | |- refines (match ?x with _ => _ end) _ => destruct x
      | |- refines (if ?x then _ else _) _ => destruct x
      end ].

Section Rec.
Variables rec rec' : task -> M unit.
Hypothesis Hrec : forall t, refines (rec t) (rec' t).

Lemma dispatchEvent_mono e :
  refines (EventTarget.dispatchEvent rec e) (EventTarget.dispatchEvent rec' e).
Proof. unfold EventTarget.dispatchEvent. mono. Qed.

Lemma emit_mono ty d : refines (EventTarget.emit rec ty d) (EventTarget.emit rec' ty d).
Proof. unfold EventTarget.emit. mono; try apply dispatchEvent_mono. Qed.

Lemma setValue_mono v : refines (StateManager.setValue rec v) (StateManager.setValue rec' v).
Proof. unfold StateManager.setValue. mono; try apply dispatchEvent_mono. Qed.

Lemma set_value_mono v : refines (StateManager.set_value rec v) (StateManager.set_value rec' v).
Proof. unfold StateManager.set_value. mono; try apply setValue_mono. Qed.

Lemma updateControlledValue_mono v :
  refines (StateManager.updateControlledValue rec v)
          (StateManager.updateControlledValue rec' v).
Proof. unfold StateManager.updateControlledValue. mono; try apply dispatchEvent_mono. Qed.

Lemma invoke_all_mono t e fs :
  refines (Native.invoke_all rec t e fs) (Native.invoke_all rec' t e fs).
Proof. induction fs as [|f fs IH]; simpl; mono; try apply IH. Qed.

Lemma native_dispatch_mono t e :
  refines (Native.dispatchEvent rec t e) (Native.dispatchEvent rec' t e).
Proof. unfold Native.dispatchEvent. mono; try apply invoke_all_mono. Qed.

Lemma exec_stmt_mono a s : refines (exec_stmt rec a s) (exec_stmt rec' a s).
Proof.
  induction s; simpl; mono;
    try first [ apply IHs | apply emit_mono | apply set_value_mono | apply setValue_mono
              | apply updateControlledValue_mono ].
Qed.

Lemma exec_mono a body : refines (exec rec a body) (exec rec' a body).
Proof.
  induction body as [|s rest IH]; simpl; mono; try first [apply exec_stmt_mono | apply IH].
Qed.

Lemma call_mono f a : refines (call rec f a) (call rec' f a).
Proof.
  unfold call. apply bind_refines; [apply refines_refl|]. intros _.
  destruct f.
  - mono; try apply exec_mono.
  - unfold EventTarget.once_wrapper. mono.
  - unfold StateManager.subscribe_wrapper. mono.
  - apply refines_refl.
  - unfold Switch.checked_subscriber, Component.dispatchEvent. mono;
      try first [apply native_dispatch_mono | apply invoke_all_mono].
  - unfold Switch.handleClick. mono; try apply setValue_mono.
Qed.

Lemma forEach_step_mono ty i e :
  refines (EventTarget.forEach_step rec ty i e) (EventTarget.forEach_step rec' ty i e).
Proof. unfold EventTarget.forEach_step. mono. Qed.
End Rec.

Lemma run_mono n : forall m t, n <= m -> refines (run n t) (run m t).
Proof.
  induction n as [|n IH]; intros m t Hle; [by intros w r|].
  destruct m as [|m]; [lia|].
  destruct t as [f a|ty i e].
  - rewrite !QuietFacts.run_call. apply call_mono. intros t. apply IH. lia.
  - rewrite !QuietFacts.run_forEach. apply forEach_step_mono. intros t. apply IH. lia.
Qed.

Lemma emit_more n m ty d w r :
  emit n ty d w = Some r -> n <= m -> emit m ty d w = Some r.
Proof.
  intros H Hle. revert H. apply emit_mono. intros t. by apply run_mono.
Qed.

Lemma setValue_more n m v w r :
  setValue n v w = Some r -> n <= m -> setValue m v w = Some r.
Proof.
  intros H Hle. revert H. apply setValue_mono. intros t. by apply run_mono.
Qed.

Lemma updateControlledValue_more n m v w r :
  updateControlledValue n v w = Some r -> n <= m -> updateControlledValue m v w = Some r.
Proof.
  intros H Hle. revert H. apply updateControlledValue_mono. intros t. by apply run_mono.
Qed.

Lemma simulate_more n m t e w r :
  simulate n t e w = Some r -> n <= m -> simulate m t e w = Some r.
Proof.
  intros H Hle. revert H. apply native_dispatch_mono. intros t'. by apply run_mono.
Qed.

(** Sequencing two computations that both stay within their budget. *)
Lemma bind_more {A B} (m m' : M A) (k k' : A -> M B) w r :
  refines m m' -> (forall a, refines (k a) (k' a)) ->
  bind m k w = Some r -> bind m' k' w = Some r.
Proof. intros Hm Hk. by apply bind_refines. Qed.

End Mono.

(** ** What a dispatch logs *)

Module ObserveFacts.
Import Run Quiet QuietFacts Observe.

Lemma since_say w o : since w (say o w) = o.
Proof. unfold since, say; simpl. by rewrite drop_app_length. Qed.

Lemma since_refl w : since w w = [].
Proof. unfold since. by rewrite drop_all. Qed.

Lemma calls_app a b : calls (a ++ b) = calls a ++ calls b.
Proof. apply omap_app. Qed.
Lemma errors_app a b : errors (a ++ b) = errors a ++ errors b.
Proof. apply omap_app. Qed.

Lemma stmt_effect_notes a s :
  calls (stmt_effect a s).1 = [] /\ errors (stmt_effect a s).1 = [].
Proof.
  induction s; simpl; try done.
  destruct (strict_eq (arg_payload a) v); [apply IHs | done].
Qed.

Lemma body_effect_notes a body :
  calls (body_effect a body).1 = [] /\ errors (body_effect a body).1 = [].
Proof.
  induction body as [|s rest [IHc IHe]]; simpl; [done|].
  destruct (stmt_effect_notes a s) as [Hc He].
  destruct (stmt_effect a s) as [o [e|]]; simpl in *; [done|].
  destruct (body_effect a rest) as [o' e']; simpl in *.
  rewrite calls_app, errors_app, Hc, He, IHc, IHe. done.
Qed.

Lemma listener_effect_quiet c e f :
  quiet c f = true ->
  calls (listener_effect c e f) = [(f, AEvent e)]
  /\ errors (listener_effect c e f) = option_list (thrown c (AEvent e) f).
Proof.
  destruct f as [id| | | | |]; try discriminate. intros _.
  unfold listener_effect, thrown, call_effect.
  destruct (body_effect_notes (AEvent e) (c id)) as [Hc He].
  destruct (body_effect (AEvent e) (c id)) as [o err]; simpl in *.
  rewrite calls_app, errors_app, Hc, He. by destruct err.
Qed.

Lemma dispatch_effect_cons c e f fs :
  dispatch_effect c e (f :: fs) = listener_effect c e f ++ dispatch_effect c e fs.
Proof. reflexivity. Qed.

Lemma dispatch_effect_quiet c e fs :
  (forall f, f ∈ fs -> quiet c f = true) ->
  calls (dispatch_effect c e fs) = (fun f => (f, AEvent e)) <$> fs
  /\ errors (dispatch_effect c e fs) = omap (thrown c (AEvent e)) fs.
Proof.
  induction fs as [|f fs IH]; intros Hq; [done|].
  rewrite dispatch_effect_cons.
  destruct (listener_effect_quiet c e f) as [Hc He]; [apply Hq; left|].
  destruct IH as [IHc IHe]; [intros g Hg; apply Hq; by right|].
  rewrite calls_app, errors_app, Hc, He, IHc, IHe.
  split; [done|]. simpl. by destruct (thrown c (AEvent e) f).
Qed.

Lemma forallb_elem_of {A} (p : A -> bool) (l : list A) :
  forallb p l = true <-> (forall x, x ∈ l -> p x = true).
Proof.
  rewrite forallb_forall. split; intros H x Hx; apply H; by apply list_elem_of_In.
Qed.

(** [emit] over quiet listeners, in closed form. *)
Lemma emit_quiet n ty d w :
  forallb (quiet (code w)) (registered_for ty w) = true ->
  3 + length (entries ty w) <= n ->
  emit n ty d w
  = Some (Ok tt, say (dispatch_effect (code w) (CustomEvent ty (Payload (nullish d VNull)))
                        (registered_for ty w)) w).
Proof.
  intros Hq' Hn. pose proof (proj1 (forallb_elem_of _ _) Hq') as Hq. clear Hq'.
  unfold emit, EventTarget.emit, bind.
  change (EventTarget.dispatchEvent (run n) ?e) with (dispatchEvent n e).
  unfold registered_for, entries in *.
  destruct (listeners (sm w) !! ty) as [s|] eqn:Hs; simpl in *.
  - destruct n as [|[|[|m]]]; try lia.
    rewrite (dispatchEvent_tame m _ w s); simpl; try done; try lia.
    intros f Hf. apply quiet_tame. by apply Hq.
  - rewrite dispatchEvent_absent by done. unfold ret. unfold dispatch_effect; simpl.
    by rewrite say_nil.
Qed.

Lemma emit_never_throws n ty d w err w' :
  emit n ty d w <> Some (Throws err, w').
Proof.
  unfold emit, EventTarget.emit, bind.
  change (EventTarget.dispatchEvent (run n) ?e) with (dispatchEvent n e).
  destruct (dispatchEvent n _ w) as [[[b|x] w1]|] eqn:E; try discriminate.
  by apply dispatchEvent_no_throw in E.
Qed.

End ObserveFacts.

(** ** Facts about the listener sets *)

Module Sets.
Import EventTarget Observe ObserveFacts.

Lemma set_has_elements f s : set_has f s = true <-> f ∈ set_elements s.
Proof.
  unfold set_has, set_elements. rewrite bool_decide_eq_true, list_elem_of_omap.
  split.
  - intros H. by exists (Some f).
  - intros [[g|] [H1 H2]]; simpl in *; [by simplify_eq | done].
Qed.

Lemma set_elements_app s t : set_elements (s ++ t) = set_elements s ++ set_elements t.
Proof. apply omap_app. Qed.

Lemma set_elements_add f s :
  set_elements (set_add f s)
  = if bool_decide (f ∈ set_elements s) then set_elements s else set_elements s ++ [f].
Proof.
  unfold set_add. destruct (set_has f s) eqn:E.
  - apply set_has_elements in E. by rewrite bool_decide_eq_true_2.
  - rewrite bool_decide_eq_false_2.
    + by rewrite set_elements_app.
    + intros H. apply set_has_elements in H. congruence.
Qed.

Lemma set_elements_delete f s :
  set_elements (set_delete f s) = filter (fun g => g <> f) (set_elements s).
Proof.
  unfold set_delete, set_elements.
  induction s as [|[g|] s IH]; simpl; [done| |done].
  destruct (decide (g = f)) as [->|Hne].
  - rewrite bool_decide_eq_true_2 by done. simpl.
    rewrite filter_cons_False by (intros H; by apply H). done.
  - rewrite bool_decide_eq_false_2 by congruence. simpl.
    rewrite filter_cons_True by done. by f_equal.
Qed.

Lemma set_delete_absent f s : f ∉ set_elements s -> set_delete f s = s.
Proof.
  unfold set_delete, set_elements.
  induction s as [|[g|] s IH]; simpl; intros H; [done| |].
  - rewrite bool_decide_eq_false_2.
    + f_equal. apply IH. intros Hs. apply H. by right.
    + intros ?; simplify_eq. apply H. by left.
  - f_equal. by apply IH.
Qed.

Lemma set_add_present f s : f ∈ set_elements s -> set_add f s = s.
Proof. intros H. unfold set_add. apply set_has_elements in H. by rewrite H. Qed.

Lemma set_add_member f s : f ∈ set_elements (set_add f s).
Proof.
  rewrite set_elements_add. case_bool_decide; [done|].
  apply elem_of_app. right. by left.
Qed.

Lemma set_add_idem f s : set_add f (set_add f s) = set_add f s.
Proof. apply set_add_present, set_add_member. Qed.

Lemma length_set_add f s : length (set_add f s) <= S (length s).
Proof. unfold set_add. destruct (set_has f s); [lia|]. rewrite length_app. simpl. lia. Qed.

Lemma length_set_delete f s : length (set_delete f s) = length s.
Proof. unfold set_delete. apply length_fmap. Qed.

(** Membership is kept duplicate free by [add] and [delete]. *)
Lemma NoDup_set_add f s : NoDup (set_elements s) -> NoDup (set_elements (set_add f s)).
Proof.
  intros H. rewrite set_elements_add. case_bool_decide; [done|].
  apply NoDup_app. split; [done|]. split.
  - intros g Hg Hf. apply list_elem_of_singleton in Hf. by subst.
  - apply NoDup_singleton.
Qed.

Lemma NoDup_set_delete f s : NoDup (set_elements s) -> NoDup (set_elements (set_delete f s)).
Proof. intros H. rewrite set_elements_delete. by apply NoDup_filter. Qed.

(** The two registration methods, in closed form. *)
Lemma addEventListener_eq ty f w :
  addEventListener ty f w
  = with_sm (set_listeners (<[ty := set_add f (entries ty w)]> (listeners (sm w)))) w.
Proof.
  unfold addEventListener, entries.
  destruct (listeners (sm w) !! ty) as [s|] eqn:E; simpl.
  - by rewrite E.
  - rewrite lookup_insert_eq. by rewrite insert_insert_eq.
Qed.

Lemma removeEventListener_eq ty f w :
  removeEventListener ty f w
  = match listeners (sm w) !! ty with
    | Some s => with_sm (set_listeners (<[ty := set_delete f s]> (listeners (sm w)))) w
    | None => w
    end.
Proof. reflexivity. Qed.

Lemma entries_add ty f w :
  entries ty (addEventListener ty f w) = set_add f (entries ty w).
Proof.
  rewrite addEventListener_eq. unfold entries at 1. simpl.
  by rewrite lookup_insert_eq.
Qed.

Lemma entries_remove ty f w :
  entries ty (removeEventListener ty f w) = set_delete f (entries ty w).
Proof.
  rewrite removeEventListener_eq. unfold entries.
  destruct (listeners (sm w) !! ty) as [s|] eqn:E; simpl.
  - by rewrite lookup_insert_eq.
  - by rewrite E.
Qed.

Lemma code_add ty f w : code (addEventListener ty f w) = code w.
Proof. by rewrite addEventListener_eq. Qed.

Lemma code_remove ty f w : code (removeEventListener ty f w) = code w.
Proof. rewrite removeEventListener_eq. by destruct (listeners (sm w) !! ty). Qed.

Lemma with_sm_id w : with_sm (set_listeners (listeners (sm w))) w = w.
Proof. by destruct w as [c [l v o i] d x k lg]. Qed.

Lemma addEventListener_idem ty f w :
  addEventListener ty f (addEventListener ty f w) = addEventListener ty f w.
Proof.
  rewrite (addEventListener_eq ty f (addEventListener ty f w)).
  rewrite entries_add, set_add_idem.
  rewrite addEventListener_eq. unfold with_sm, set_listeners; simpl.
  by rewrite insert_insert_eq.
Qed.

Lemma removeEventListener_absent ty f w :
  f ∉ registered_for ty w -> removeEventListener ty f w = w.
Proof.
  unfold registered_for, entries. rewrite removeEventListener_eq.
  destruct (listeners (sm w) !! ty) as [s|] eqn:E; simpl; [|done].
  intros H. rewrite (set_delete_absent _ _ H), (insert_id _ _ _ E).
  apply with_sm_id.
Qed.

End Sets.

(** ** The Event Hub *)

Module HubSpec.
Import Run Quiet QuietFacts Observe ObserveFacts Sets.

Lemma filter_eq_NoDup (fs : list fn) f :
  NoDup fs -> f ∈ fs -> filter (fun g => g = f) fs = [f].
Proof.
  induction fs as [|g fs IH]; intros Hnd Hin; [by apply elem_of_nil in Hin|].
  apply NoDup_cons in Hnd as [Hg Hnd].
  destruct (decide (g = f)) as [->|Hne].
  - rewrite filter_cons_True by done. f_equal.
    clear IH Hin. induction fs as [|h fs IH]; [done|].
    rewrite filter_cons_False.
    + apply IH; [|by apply NoDup_cons in Hnd as [_ ?]].
      intros H. apply Hg. by right.
    + intros ->. apply Hg. by left.
  - rewrite filter_cons_False by done. apply IH; [done|].
    apply elem_of_cons in Hin as [->|Hin]; done.
Qed.

Lemma filter_eq_absent (fs : list fn) f :
  f ∉ fs -> filter (fun g => g = f) fs = [].
Proof.
  induction fs as [|g fs IH]; intros Hin; [done|].
  rewrite filter_cons_False.
  - apply IH. intros H. apply Hin. by right.
  - intros ->. apply Hin. by left.
Qed.

Lemma calls_of_fmap f a (fs : list fn) l :
  calls l = (fun g => (g, a)) <$> fs ->
  calls_of f l = (fun _ => a) <$> filter (fun g => g = f) fs.
Proof.
  unfold calls_of. intros ->. induction fs as [|g fs IH]; [done|].
  rewrite fmap_cons. destruct (decide (g = f)) as [->|Hne].
  - rewrite !filter_cons_True by done. rewrite !fmap_cons. simpl. by f_equal.
  - rewrite !filter_cons_False by done. done.
Qed.

(** One turn of the dispatch loop, for an arbitrary listener: when the
    listener throws, the exception is logged and the loop goes on with the
    next entry. *)
Lemma forEach_catches k ty i e f w x w1 :
  listeners (sm w) !! ty ≫= (fun s => s !! i) = Some (Some f) ->
  run k (TCall f (AEvent e)) w = Some (Throws x, w1) ->
  run (S k) (TForEach ty i e) w
  = run k (TForEach ty (S i) e)
      (say [ConsoleError ("Error in event listener for " ++ type e ++ ":") x] w1).
Proof.
  intros Hi Hf. rewrite run_forEach.
  unfold EventTarget.forEach_step, bind, gets, try_catch; simpl.
  rewrite Hi, Hf. unfold EventTarget.console_error, modify.
  by destruct (run k (TForEach ty (S i) e) _) as [[[[]|?] ?]|].
Qed.

(** C6: each listener invocation of an emit is isolated.  For every hub,
    event name and payload, with listeners that do not themselves operate
    on the hub: emit returns normally, every registered listener is
    called exactly once, in registration order, whichever of them throw,
    and every exception thrown is logged.  Whatever the listeners are, no
    exception reaches the caller of emit, and a listener that throws has
    its exception logged while the loop continues with the next entry. *)
Theorem emit_isolates_listeners (w : world) (ty : string) (d : value) (n : nat) :
  forallb (quiet (code w)) (registered_for ty w) = true ->
  3 + length (entries ty w) <= n ->
  let e := CustomEvent ty (Payload (nullish d VNull)) in
  (exists w',
      emit n ty d w = Some (Ok tt, w')
      /\ calls (since w w') = (fun f => (f, AEvent e)) <$> registered_for ty w
      /\ errors (since w w') = omap (thrown (code w) (AEvent e)) (registered_for ty w))
  /\ (forall k err w'', emit k ty d w <> Some (Throws err, w''))
  /\ (forall k i f x w0 w1,
        listeners (sm w0) !! ty ≫= (fun s => s !! i) = Some (Some f) ->
        run k (TCall f (AEvent e)) w0 = Some (Throws x, w1) ->
        run (S k) (TForEach ty i e) w0
        = run k (TForEach ty (S i) e)
            (say [ConsoleError ("Error in event listener for " ++ ty ++ ":") x] w1)).
Proof.
  intros Hq Hn e.
  split; [|split; [intros k err w''; apply emit_never_throws|]].
  - eexists. split; [by apply emit_quiet|].
    rewrite since_say. apply dispatch_effect_quiet.
    by apply forallb_elem_of.
  - intros k i f x w0 w1 Hi Hf. by apply (forEach_catches k ty i e f w0 x w1).
Qed.

(** The theorem at a hub with three listeners, the second of which throws. *)
Lemma emit_isolates_listeners_witness :
  let w := Scenes.three_listeners in
  let e := CustomEvent "x" (Payload (VNum 7)) in
  (exists w',
      emit 6 "x" (VNum 7) w = Some (Ok tt, w')
      /\ calls (since w w') = [(User 0, AEvent e); (User 1, AEvent e); (User 2, AEvent e)]
      /\ errors (since w w') = [Error "boom"])
  /\ (forall k err w'', emit k "x" (VNum 7) w <> Some (Throws err, w''))
  /\ (forall k i f x w0 w1,
        listeners (sm w0) !! "x" ≫= (fun s => s !! i) = Some (Some f) ->
        run k (TCall f (AEvent e)) w0 = Some (Throws x, w1) ->
        run (S k) (TForEach "x" i e) w0
        = run k (TForEach "x" (S i) e)
            (say [ConsoleError ("Error in event listener for " ++ "x" ++ ":") x] w1)).
Proof.
  apply (emit_isolates_listeners Scenes.three_listeners "x" (VNum 7) 6).
  - reflexivity.
  - vm_compute. lia.
Defined.

(** After [off], an emit does not invoke the listener. *)
Lemma emit_after_remove (w : world) (x : string) (f : fn) (p : value) (n : nat) :
  forallb (quiet (code w)) (registered_for x w) = true ->
  3 + length (entries x w) <= n ->
  let off := EventTarget.removeEventListener x f in
  exists w', emit n x p (off w) = Some (Ok tt, w')
             /\ calls_of f (since (off w) w') = [].
Proof.
  intros Hq Hn off.
  assert (Hoff : registered_for x (off w) = filter (fun g => g <> f) (registered_for x w)).
  { unfold registered_for, off. by rewrite entries_remove, set_elements_delete. }
  assert (Hq' : forallb (quiet (code (off w))) (registered_for x (off w)) = true).
  { apply forallb_elem_of. intros g Hg. rewrite Hoff in Hg.
    apply list_elem_of_filter in Hg as [_ Hg].
    unfold off. rewrite code_remove.
    by apply (proj1 (forallb_elem_of _ _) Hq). }
  eexists. split.
  - apply emit_quiet; [done|]. unfold off. rewrite entries_remove, length_set_delete. lia.
  - rewrite since_say.
    erewrite calls_of_fmap; [|apply dispatch_effect_quiet; by apply forallb_elem_of].
    rewrite filter_eq_absent; [done|]. rewrite Hoff.
    intros H. by apply list_elem_of_filter in H as [H _].
Qed.

(** Refutes C8 as stated: a payload [undefined] (or an omitted one) does
    not reach the listener as it is; the event's detail is [null]. *)
Lemma emit_undefined_delivers_null :
  let w := EventTarget.addEventListener "x" (User 4) (Examples.page Scenes.bodies Examples.hub) in
  exists w',
    emit 4 "x" VUndefined w = Some (Ok tt, w')
    /\ calls_of (User 4) (since w w') = [AEvent (CustomEvent "x" (Payload VNull))]
    /\ calls_of (User 4) (since w w') <> [AEvent (CustomEvent "x" (Payload VUndefined))].
Proof. intros w. eexists. split; [by vm_compute|]. by vm_compute. Qed.

(** C8, amended: for every hub, event name [x], listener [f] and payload
    [p]: registering [f] twice stores it once, so that emit invokes it
    exactly once, with detail [p] if [p] is not [undefined] and with
    detail [null] if it is; removing a listener that is not registered
    changes nothing (and, being a plain update of the set, cannot fail); and
    after [off] an emit no longer invokes [f].  The listeners registered
    for [x], and [f], are assumed not to operate on the hub themselves. *)
Theorem on_off_emit (w : world) (x : string) (f : fn) (p : value) (n : nat) :
  forallb (quiet (code w)) (registered_for x w) = true ->
  quiet (code w) f = true ->
  NoDup (registered_for x w) ->
  4 + length (entries x w) <= n ->
  let on := EventTarget.addEventListener x f in
  let off := EventTarget.removeEventListener x f in
  let e := CustomEvent x (Payload (nullish p VNull)) in
  on (on w) = on w
  /\ filter (fun g => g = f) (registered_for x (on (on w))) = [f]
  /\ (exists w', emit n x p (on (on w)) = Some (Ok tt, w')
                 /\ calls_of f (since (on (on w)) w') = [AEvent e])
  /\ (p <> VUndefined -> e = CustomEvent x (Payload p))
  /\ (p = VUndefined -> e = CustomEvent x (Payload VNull))
  /\ (f ∉ registered_for x w -> off w = w)
  /\ (exists w', emit n x p (off (on w)) = Some (Ok tt, w')
                 /\ calls_of f (since (off (on w)) w') = [])
  /\ (exists w', emit n x p (off w) = Some (Ok tt, w')
                 /\ calls_of f (since (off w) w') = []).
Proof.
  intros Hq Hf Hnd Hn on off e.
  assert (Hidem : on (on w) = on w) by apply addEventListener_idem.
  assert (Hreg : registered_for x (on w)
                 = if bool_decide (f ∈ registered_for x w)
                   then registered_for x w else registered_for x w ++ [f]).
  { unfold registered_for, on. by rewrite entries_add, set_elements_add. }
  assert (Hin : f ∈ registered_for x (on w)).
  { unfold registered_for, on. rewrite entries_add. apply set_add_member. }
  assert (Hnd' : NoDup (registered_for x (on w))).
  { unfold registered_for, on. rewrite entries_add. by apply NoDup_set_add. }
  assert (Hq' : forallb (quiet (code (on w))) (registered_for x (on w)) = true).
  { apply forallb_elem_of. intros g Hg. rewrite Hreg in Hg.
    unfold on. rewrite code_add.
    pose proof (proj1 (forallb_elem_of _ _) Hq) as Hall.
    case_bool_decide; [by apply Hall|].
    apply elem_of_app in Hg as [Hg|Hg]; [by apply Hall|].
    apply list_elem_of_singleton in Hg. by subst. }
  assert (Hlen : length (entries x (on w)) <= S (length (entries x w))).
  { unfold on. rewrite entries_add. apply length_set_add. }
  rewrite Hidem. split; [done|]. split; [by apply filter_eq_NoDup|].
  split; [|split; [|split; [|split; [apply removeEventListener_absent|split]]]].
  - eexists. split; [apply emit_quiet; [done | lia]|].
    rewrite since_say.
    erewrite calls_of_fmap; [|apply dispatch_effect_quiet; by apply forallb_elem_of].
    by rewrite filter_eq_NoDup.
  - intros Hp. unfold e. by destruct p.
  - intros ->. done.
  - apply emit_after_remove; [done | lia].
  - apply emit_after_remove; [done | lia].
Qed.

(** The theorem at the same hub, for a fourth listener. *)
Lemma on_off_emit_witness :
  let w := Scenes.three_listeners in
  let on := EventTarget.addEventListener "x" (User 4) in
  let off := EventTarget.removeEventListener "x" (User 4) in
  let e := CustomEvent "x" (Payload (VNum 7)) in
  on (on w) = on w
  /\ filter (fun g => g = User 4) (registered_for "x" (on (on w))) = [User 4]
  /\ (exists w', emit 7 "x" (VNum 7) (on (on w)) = Some (Ok tt, w')
                 /\ calls_of (User 4) (since (on (on w)) w') = [AEvent e])
  /\ (VNum 7 <> VUndefined -> e = CustomEvent "x" (Payload (VNum 7)))
  /\ (VNum 7 = VUndefined -> e = CustomEvent "x" (Payload VNull))
  /\ (User 4 ∉ registered_for "x" w -> off w = w)
  /\ (exists w', emit 7 "x" (VNum 7) (off (on w)) = Some (Ok tt, w')
                 /\ calls_of (User 4) (since (off (on w)) w') = [])
  /\ (exists w', emit 7 "x" (VNum 7) (off w) = Some (Ok tt, w')
                 /\ calls_of (User 4) (since (off w) w') = []).
Proof.
  apply (on_off_emit Scenes.three_listeners "x" (User 4) (VNum 7) 7).
  - reflexivity.
  - reflexivity.
  - refine (bool_decide_unpack _ _). vm_compute. exact I.
  - vm_compute. lia.
Defined.

(** C7: [once] removes its wrapper only after the listener has returned.
    A listener that emits the same event again while it runs is therefore
    invoked a second time by that nested emit (here: one emit of ["x"]
    with payload 1 calls callback 3 twice), and a listener that throws is
    never unregistered, so that each later emit invokes it again (here:
    two emits call callback 1 twice and its wrapper stays registered). *)
Theorem once_listener_fires_again :
  let reentrant := EventTarget.once "x" (User 3) (Examples.page Scenes.bodies Examples.hub) in
  let throwing := EventTarget.once "x" (User 1) (Examples.page Scenes.bodies Examples.hub) in
  let e v := AEvent (CustomEvent "x" (Payload (VNum v))) in
  (exists w', (forall n, 8 <= n -> emit n "x" (VNum 1) reentrant = Some (Ok tt, w'))
              /\ calls_of (User 3) (since reentrant w') = [e 1; e 2]%Z)
  /\ (exists w', (forall n, 8 <= n ->
                    (emit n "x" (VNum 0) >> emit n "x" (VNum 0)) throwing = Some (Ok tt, w'))
                 /\ calls_of (User 1) (since throwing w') = [e 0; e 0]%Z
                 /\ registered_for "x" w' = [OnceWrapper "x" (User 1) 0]).
Proof.
  intros reentrant throwing e. split.
  - destruct (emit 8 "x" (VNum 1) reentrant) as [[r w']|] eqn:E;
      [|by vm_compute in E].
    exists w'. split.
    + intros n Hn. rewrite (Mono.emit_more 8 n _ _ _ _ E Hn).
      f_equal. f_equal. by vm_compute in E; simplify_eq.
    + by vm_compute in E; simplify_eq.
  - destruct ((emit 8 "x" (VNum 0) >> emit 8 "x" (VNum 0)) throwing)
      as [[r w']|] eqn:E; [|by vm_compute in E].
    exists w'. split; [|split].
    + intros n Hn.
      rewrite (Mono.bind_more (emit 8 "x" (VNum 0)) (emit n "x" (VNum 0))
                 (fun _ => emit 8 "x" (VNum 0)) (fun _ => emit n "x" (VNum 0))
                 throwing (r, w')); try done.
      * f_equal. f_equal. by vm_compute in E; simplify_eq.
      * intros w0 r0 H0. by apply (Mono.emit_more 8).
      * intros _ w0 r0 H0. by apply (Mono.emit_more 8).
    + by vm_compute in E; simplify_eq.
    + by vm_compute in E; simplify_eq.
Qed.

(** For contrast: a listener that returns normally and leaves the hub
    alone is invoked by the first of two emits only. *)
Lemma once_listener_that_returns :
  let w := EventTarget.once "x" (User 0) (Examples.page Scenes.bodies Examples.hub) in
  exists w', (forall n, 8 <= n ->
                (emit n "x" (VNum 0) >> emit n "x" (VNum 0)) w = Some (Ok tt, w'))
             /\ length (calls_of (User 0) (since w w')) = 1
             /\ registered_for "x" w' = [].
Proof.
  intros w.
  destruct ((emit 8 "x" (VNum 0) >> emit 8 "x" (VNum 0)) w)
    as [[r w']|] eqn:E; [|by vm_compute in E].
  exists w'. split; [|split].
  - intros n Hn.
    rewrite (Mono.bind_more (emit 8 "x" (VNum 0)) (emit n "x" (VNum 0))
               (fun _ => emit 8 "x" (VNum 0)) (fun _ => emit n "x" (VNum 0))
               w (r, w')); try done.
    + f_equal. f_equal. by vm_compute in E; simplify_eq.
    + intros w0 r0 H0. by apply (Mono.emit_more 8).
    + intros _ w0 r0 H0. by apply (Mono.emit_more 8).
  - by vm_compute in E; simplify_eq.
  - by vm_compute in E; simplify_eq.
Qed.

End HubSpec.

(** ** The Observable Value Cell *)

Module CellFacts.
Import JsFacts Run Quiet QuietFacts Observe ObserveFacts Sets.

Lemma is_undefined v : strict_eq v VUndefined = true <-> v = VUndefined.
Proof.
  split; [apply strict_eq_true|]. intros ->. by apply strict_eq_refl.
Qed.

Lemma defined v : negb (strict_eq v VUndefined) = bool_decide (v <> VUndefined).
Proof.
  destruct (strict_eq v VUndefined) eqn:E; simpl.
  - apply is_undefined in E. by rewrite bool_decide_eq_false_2 by (intros H; by apply H).
  - rewrite bool_decide_eq_true_2; [done|]. intros ->. by rewrite strict_eq_refl in E.
Qed.

Lemma notified_app e a b : notified e (a ++ b) = notified e a ++ notified e b.
Proof. unfold notified. by rewrite calls_app, filter_app, fmap_app. Qed.

Lemma listener_effect_tame c e f :
  tame c f = true -> notified e (listener_effect c e f) = [f].
Proof.
  intros Ht. unfold listener_effect, notified.
  destruct f as [id| | [id| | | | |] k | | |]; try discriminate; unfold call_effect.
  - destruct (body_effect_notes (AEvent e) (c id)) as [Hc _].
    destruct (body_effect (AEvent e) (c id)) as [o err]; simpl in *.
    rewrite calls_app, Hc. simpl.
    rewrite filter_cons_True by done. by destruct err.
  - destruct (StateManager.detail_value (AEvent e)) as [v|x]; simpl.
    + destruct (body_effect_notes (AValue v) (c id)) as [Hc _].
      destruct (body_effect (AValue v) (c id)) as [o err]; simpl in *.
      rewrite calls_app, Hc. simpl.
      rewrite filter_cons_True by done. rewrite filter_cons_False by done.
      by destruct err.
    + by rewrite filter_cons_True by done.
Qed.

Lemma dispatch_effect_tame c e fs :
  (forall f, f ∈ fs -> tame c f = true) ->
  notified e (dispatch_effect c e fs) = fs.
Proof.
  induction fs as [|f fs IH]; intros Ht; [done|].
  rewrite dispatch_effect_cons, notified_app, listener_effect_tame, IH; try done.
  - intros g Hg. apply Ht. by right.
  - apply Ht. by left.
Qed.

Lemma since_say_log w w1 o : log w1 = log w -> since w (say o w1) = o.
Proof. intros H. unfold since, say; simpl. rewrite H. by rewrite drop_app_length. Qed.

(** Dispatching to tame listeners, in closed form. *)
Lemma dispatchEvent_closed n e w :
  forallb (tame (code w)) (registered_for (type e) w) = true ->
  3 + length (entries (type e) w) <= n ->
  dispatchEvent n e w
  = Some (Ok (negb (defaultPrevented e)),
          say (dispatch_effect (code w) e (registered_for (type e) w)) w).
Proof.
  intros Hq' Hn. pose proof (proj1 (forallb_elem_of _ _) Hq') as Hq.
  unfold registered_for, entries in *.
  destruct (listeners (sm w) !! type e) as [s|] eqn:Hs; simpl in *.
  - destruct n as [|[|[|m]]]; try lia.
    rewrite (dispatchEvent_tame m _ w s); simpl; try done. lia.
  - rewrite dispatchEvent_absent by done. unfold dispatch_effect; simpl.
    by rewrite say_nil.
Qed.

(** [setValue] in closed form: nothing at all for an identical value;
    otherwise the value is stored, [onChange] runs, and unless it threw
    the listeners of ["change"] are notified. *)
Lemma setValue_closed n v w :
  callback_quiet w = true ->
  forallb (tame (code w)) (registered_for "change" w) = true ->
  3 + length (entries "change" w) <= n ->
  setValue n v w
  = if strict_eq (StateManager.getValue w) v then Some (Ok tt, w)
    else
      let w1 := with_sm (store_value v) w in
      let '(o, err) := callback_effect w v in
      match err with
      | Some x => Some (Throws x, say o w1)
      | None =>
          Some (Ok tt,
                say (o ++ dispatch_effect (code w) (change v (StateManager.getValue w))
                            (registered_for "change" w)) w1)
      end.
Proof.
  intros Hcb Ht Hn.
  unfold setValue, StateManager.setValue, bind, gets; simpl.
  destruct (strict_eq (StateManager.getValue w) v) eqn:E; [done|].
  unfold modify; simpl.
  change (EventTarget.dispatchEvent (run n) ?e) with (dispatchEvent n e).
  unfold callback_quiet, callback_effect in *.
  destruct (onChange (options (sm w))) as [f|] eqn:Hf.
  - destruct n as [|n']; [lia|].
    rewrite (call_quiet n' f (AValue v) (with_sm (store_value v) w) Hcb).
    simpl. destruct (call_effect (code w) f (AValue v)) as [o [x|]]; simpl; [done|].
    rewrite dispatchEvent_closed; simpl; try done. by rewrite say_say.
  - unfold ret; simpl.
    rewrite dispatchEvent_closed; simpl; done.
Qed.

(** [updateControlledValue] in closed form. *)
Lemma updateControlledValue_closed n v w :
  forallb (tame (code w)) (registered_for "change" w) = true ->
  3 + length (entries "change" w) <= n ->
  updateControlledValue n v w
  = if StateManager.isControlledState w
    then Some (Ok tt,
               say (dispatch_effect (code w) (change v (StateManager.getValue w))
                      (registered_for "change" w))
                   (with_sm (store_value v) w))
    else Some (Ok tt, w).
Proof.
  intros Ht Hn.
  unfold updateControlledValue, StateManager.updateControlledValue, bind, gets; simpl.
  destruct (StateManager.isControlledState w); simpl; [|done].
  unfold modify; simpl.
  change (EventTarget.dispatchEvent (run n) ?e) with (dispatchEvent n e).
  rewrite dispatchEvent_closed; simpl; done.
Qed.

(** The [value] setter of a controlled cell. *)
Lemma set_value_controlled n v w :
  StateManager.isControlledState w = true ->
  exists msg, set_value n v w = Some (Ok tt, say [ConsoleWarn msg] w).
Proof.
  intros Hc. unfold set_value, StateManager.set_value, bind, gets; simpl.
  rewrite Hc. unfold modify. by eexists.
Qed.

Lemma set_value_uncontrolled n v w :
  StateManager.isControlledState w = false -> set_value n v w = setValue n v w.
Proof.
  intros Hc. unfold set_value, StateManager.set_value, bind, gets; simpl. by rewrite Hc.
Qed.

End CellFacts.

Module CellSpec.
Import JsFacts Run Quiet QuietFacts Observe ObserveFacts Sets CellFacts.

(** C9: [createControllableState] raises its configuration error exactly
    when neither [prop] nor [defaultProp] is supplied; otherwise the cell
    is controlled exactly when [prop] is present and starts from [prop]
    if present, else from [defaultProp].  The constructor itself, which
    is given a fallback initial value, never fails. *)
Theorem createControllableState_spec (o : StateOptions) :
  ((exists e, StateManager.createControllableState o = Throws e)
     <-> prop o = VUndefined /\ defaultProp o = VUndefined)
  /\ (forall c, StateManager.createControllableState o = Ok c ->
        isControlled c = bool_decide (prop o <> VUndefined)
        /\ _value c = if bool_decide (prop o <> VUndefined) then prop o else defaultProp o)
  /\ (forall initial,
        let c := StateManager.new initial o in
        isControlled c = bool_decide (prop o <> VUndefined)
        /\ _value c = if bool_decide (prop o <> VUndefined) then prop o
                      else if bool_decide (defaultProp o <> VUndefined) then defaultProp o
                      else initial).
Proof.
  unfold StateManager.createControllableState, StateManager.new.
  rewrite !defined.
  destruct (decide (prop o = VUndefined)) as [Hp|Hp];
    destruct (decide (defaultProp o = VUndefined)) as [Hd|Hd];
    rewrite ?(bool_decide_eq_true_2 (prop o <> VUndefined)) by done;
    rewrite ?(bool_decide_eq_false_2 (prop o <> VUndefined)) by (intros H; by apply H);
    rewrite ?(bool_decide_eq_true_2 (defaultProp o <> VUndefined)) by done;
    rewrite ?(bool_decide_eq_false_2 (defaultProp o <> VUndefined))
      by (intros H; by apply H);
    simpl; (split; [split|split]).
  all: try (intros [e He]; discriminate).
  all: try (intros [H1 H2]; done).
  all: try (intros c Hc; simplify_eq; simpl; rewrite !defined).
  all: try (intros initial; simpl).
  all: rewrite ?(bool_decide_eq_true_2 (prop o <> VUndefined)) by done;
    rewrite ?(bool_decide_eq_false_2 (prop o <> VUndefined)) by (intros H; by apply H);
    rewrite ?(bool_decide_eq_true_2 (defaultProp o <> VUndefined)) by done;
    rewrite ?(bool_decide_eq_false_2 (defaultProp o <> VUndefined))
      by (intros H; by apply H);
    try done.
  all: try by eexists.
  all: intros ?; by simplify_eq.
Qed.

(** Refutes C2 as stated: on a controlled cell holding [false], a call of
    [setValue(true)] stores [true] and invokes [onChange(true)]; so
    [updateControlledValue] is not the only operation that changes what
    [getValue()] returns. *)
Lemma setValue_changes_controlled_cell :
  let w := Scenes.controlled_page in
  StateManager.isControlledState w = true
  /\ StateManager.getValue w = VBool false
  /\ exists w', setValue 5 (VBool true) w = Some (Ok tt, w')
                /\ StateManager.getValue w' = VBool true
                /\ calls_of (User 4) (since w w') = [AValue (VBool true)].
Proof.
  intros w. split; [reflexivity|]. split; [reflexivity|].
  destruct (setValue 5 (VBool true) w) as [[r w']|] eqn:E; [|by vm_compute in E].
  exists w'. by vm_compute in E; simplify_eq.
Qed.

Lemma getValue_setValue n x w r w' :
  callback_quiet w = true ->
  forallb (tame (code w)) (registered_for "change" w) = true ->
  3 + length (entries "change" w) <= n ->
  setValue n x w = Some (r, w') -> StateManager.getValue w' = x.
Proof.
  intros Hcb Ht Hn. rewrite setValue_closed by done.
  destruct (strict_eq (StateManager.getValue w) x) eqn:E.
  - intros; simplify_eq. by apply strict_eq_true.
  - simpl. destruct (callback_effect w x) as [o [err|]]; intros; by simplify_eq.
Qed.

(** C2, amended: for every controlled cell and every value [v], assigning
    through the [value] setter logs one warning and does nothing else: the
    cell is unchanged, no function is called (neither a subscriber nor
    [onChange]) and nothing is thrown.  [updateControlledValue(x)] makes
    [getValue()] return [x], and so does a direct call of [setValue(x)],
    which carries no guard. *)
Theorem controlled_cell_set (w : world) (v x : value) (n : nat) :
  StateManager.isControlledState w = true ->
  callback_quiet w = true ->
  forallb (tame (code w)) (registered_for "change" w) = true ->
  3 + length (entries "change" w) <= n ->
  (exists w', set_value n v w = Some (Ok tt, w')
              /\ sm w' = sm w
              /\ StateManager.getValue w' = StateManager.getValue w
              /\ calls (since w w') = []
              /\ length (warnings (since w w')) = 1)
  /\ (exists w', updateControlledValue n x w = Some (Ok tt, w')
                 /\ StateManager.getValue w' = x)
  /\ (exists r w', setValue n x w = Some (r, w')
                   /\ StateManager.getValue w' = x).
Proof.
  intros Hc Hcb Ht Hn. repeat split.
  - destruct (set_value_controlled n v w Hc) as [msg Hmsg].
    eexists. split; [exact Hmsg|]. by rewrite since_say.
  - rewrite updateControlledValue_closed, Hc by done. by eexists.
  - destruct (setValue n x w) as [[r w']|] eqn:E.
    + exists r, w'. split; [done|]. by eapply getValue_setValue.
    + rewrite setValue_closed in E by done.
      destruct (strict_eq (StateManager.getValue w) x); [done|].
      simpl in E. by destruct (callback_effect w x) as [o [err|]].
Qed.

(** The theorem at a controlled cell holding [false]. *)
Lemma controlled_cell_set_witness :
  let w := Scenes.controlled_page in
  (exists w', set_value 4 (VBool true) w = Some (Ok tt, w')
              /\ sm w' = sm w
              /\ StateManager.getValue w' = StateManager.getValue w
              /\ calls (since w w') = []
              /\ length (warnings (since w w')) = 1)
  /\ (exists w', updateControlledValue 4 (VBool true) w = Some (Ok tt, w')
                 /\ StateManager.getValue w' = VBool true)
  /\ (exists r w', setValue 4 (VBool true) w = Some (r, w')
                   /\ StateManager.getValue w' = VBool true).
Proof.
  apply (controlled_cell_set Scenes.controlled_page (VBool true) (VBool true) 4).
  - reflexivity.
  - reflexivity.
  - reflexivity.
  - vm_compute. lia.
Defined.

Lemma setValue_same n v w :
  strict_eq (StateManager.getValue w) v = true -> setValue n v w = Some (Ok tt, w).
Proof.
  intros E. unfold setValue, StateManager.setValue, bind, gets; simpl. by rewrite E.
Qed.

Lemma notified_callback c f v e :
  quiet c f = true -> notified e (call_effect c f (AValue v)).1 = [].
Proof.
  destruct f as [id| | | | |]; try discriminate. intros _.
  unfold notified, call_effect.
  destruct (body_effect_notes (AValue v) (c id)) as [Hc _].
  destruct (body_effect (AValue v) (c id)) as [o err]; simpl in *.
  rewrite Hc. by rewrite filter_cons_False by done.
Qed.

Lemma notified_callback_effect w v e :
  callback_quiet w = true -> notified e (callback_effect w v).1 = [].
Proof.
  unfold callback_quiet, callback_effect.
  destruct (onChange (options (sm w))); [apply notified_callback | done].
Qed.

(** Refutes C3 as stated: on a controlled cell holding [false],
    [updateControlledValue(false)] notifies the subscriber although the
    new value is identical to the old one. *)
Lemma updateControlledValue_notifies_identical :
  let w := Scenes.controlled_page in
  exists w', updateControlledValue 5 (VBool false) w = Some (Ok tt, w')
             /\ StateManager.getValue w' = StateManager.getValue w
             /\ notified (change (VBool false) (VBool false)) (since w w')
                = [SubscribeWrapper (User 5) 0]
             /\ calls_of (User 5) (since w w') = [AValue (VBool false)].
Proof.
  intros w.
  destruct (updateControlledValue 5 (VBool false) w) as [[r w']|] eqn:E;
    [|by vm_compute in E].
  exists w'. by vm_compute in E; simplify_eq.
Qed.

(** C3, amended: on the set path ([setValue], which the [value] setter
    of an uncontrolled cell calls), with an [onChange] that returns
    normally, the subscribers are notified, each exactly once, if and only
    if the new value is not identical ([===]) to the old one; a set with an
    identical value invokes neither the subscribers nor [onChange]; hence
    setting the same value twice in a row notifies once.
    [updateControlledValue] on a controlled cell notifies the subscribers on
    every call, identical value or not. *)
Theorem change_notification (w : world) (v : value) (n : nat) :
  callback_quiet w = true ->
  (callback_effect w v).2 = None ->
  forallb (tame (code w)) (registered_for "change" w) = true ->
  3 + length (entries "change" w) <= n ->
  let old := StateManager.getValue w in
  (exists w', setValue n v w = Some (Ok tt, w')
              /\ notified (change v old) (since w w')
                 = (if strict_eq old v then [] else registered_for "change" w)
              /\ (strict_eq old v = true -> w' = w)
              /\ (strict_eq old v = false ->
                    StateManager.getValue w' = v
                    /\ since w w' = (callback_effect w v).1
                                     ++ dispatch_effect (code w) (change v old)
                                          (registered_for "change" w)))
  /\ (strict_eq v v = true ->
        (setValue n v >> setValue n v) w = setValue n v w)
  /\ (StateManager.isControlledState w = false ->
        set_value n v w = setValue n v w
        /\ (strict_eq v v = true ->
              (set_value n v >> set_value n v) w = set_value n v w))
  /\ (StateManager.isControlledState w = true ->
        exists w', updateControlledValue n v w = Some (Ok tt, w')
                   /\ StateManager.getValue w' = v
                   /\ notified (change v old) (since w w') = registered_for "change" w).
Proof.
  intros Hcb Hret Ht Hn old.
  pose proof (setValue_closed n v w Hcb Ht Hn) as Hset. fold old in Hset.
  destruct (callback_effect w v) as [o err] eqn:Hce. simpl in Hret. subst err.
  split; [|split; [|split]].
  - destruct (strict_eq old v) eqn:E.
    + exists w. rewrite since_refl. done.
    + eexists. split; [exact Hset|]. rewrite since_say_log by done.
      split; [|done].
      rewrite notified_app, dispatch_effect_tame by (by apply forallb_elem_of).
      pose proof (notified_callback_effect w v (change v old) Hcb) as Hn0.
      rewrite Hce in Hn0. simpl in Hn0. by rewrite Hn0.
  - intros Hv. unfold bind. rewrite Hset.
    destruct (strict_eq old v) eqn:E.
    + by apply setValue_same.
    + simpl. by apply setValue_same.
  - intros Hu. split; [by apply set_value_uncontrolled|].
    intros Hv. unfold bind. rewrite (set_value_uncontrolled n v w Hu), Hset.
    destruct (strict_eq old v) eqn:E.
    + rewrite set_value_uncontrolled by done. by apply setValue_same.
    + simpl. rewrite set_value_uncontrolled by done. by apply setValue_same.
  - intros Hc. rewrite updateControlledValue_closed, Hc by done.
    eexists. split; [done|]. split; [done|].
    rewrite since_say_log by done. apply dispatch_effect_tame.
    by apply forallb_elem_of.
Qed.

(** The theorem at an uncontrolled cell with default [false], set to [true]. *)
Lemma change_notification_witness :
  let w := Scenes.uncontrolled_page in
  let v := VBool true in
  let old := StateManager.getValue w in
  (exists w', setValue 4 v w = Some (Ok tt, w')
              /\ notified (change v old) (since w w')
                 = (if strict_eq old v then [] else registered_for "change" w)
              /\ (strict_eq old v = true -> w' = w)
              /\ (strict_eq old v = false ->
                    StateManager.getValue w' = v
                    /\ since w w' = (callback_effect w v).1
                                     ++ dispatch_effect (code w) (change v old)
                                          (registered_for "change" w)))
  /\ (strict_eq v v = true ->
        (setValue 4 v >> setValue 4 v) w = setValue 4 v w)
  /\ (StateManager.isControlledState w = false ->
        set_value 4 v w = setValue 4 v w
        /\ (strict_eq v v = true ->
              (set_value 4 v >> set_value 4 v) w = set_value 4 v w))
  /\ (StateManager.isControlledState w = true ->
        exists w', updateControlledValue 4 v w = Some (Ok tt, w')
                   /\ StateManager.getValue w' = v
                   /\ notified (change v old) (since w w') = registered_for "change" w).
Proof.
  apply (change_notification Scenes.uncontrolled_page (VBool true) 4).
  - reflexivity.
  - reflexivity.
  - reflexivity.
  - vm_compute. lia.
Defined.









End CellSpec.

(** ** The Widget Lifecycle Base *)

Module LifecycleSpec.
Import Run Observe ObserveFacts Examples Scenes.

Lemma listeners_of_remove_own t ty ev l d :
  t <> Own ->
  Native.listeners_of t ty (Native.removeEventListener Own ev l d)
  = Native.listeners_of t ty d.
Proof.
  intros Ht. unfold Native.listeners_of, Native.removeEventListener; simpl.
  generalize (registered d). intros rs.
  induction rs as [|[[t' ty'] f] rs IH]; [done|].
  destruct (decide ((t', ty', f) = (Own, ev, l))) as [Heq|Hne].
  - rewrite filter_cons_False by (intros H; by apply H). rewrite IH.
    change (omap ?g (?x :: ?r)) with (match g x with
                                      | Some y => y :: omap g r
                                      | None => omap g r
                                      end).
    cbv beta. rewrite bool_decide_eq_false_2; [done|].
    simpl. intros ?; simplify_eq.
  - rewrite filter_cons_True by done.
    change (omap ?g (?x :: ?r)) with (match g x with
                                      | Some y => y :: omap g r
                                      | None => omap g r
                                      end).
    cbv beta. by rewrite IH.
Qed.

Lemma listeners_of_remove_tracked t ty m d :
  t <> Own ->
  Native.listeners_of t ty (Component.remove_tracked m d) = Native.listeners_of t ty d.
Proof.
  intros Ht. unfold Component.remove_tracked. revert d.
  induction m as [|[ev s] m IH]; intros d; [done|]. simpl. rewrite IH.
  clear IH. revert d. induction s as [|l s IH]; intros d; [done|]. simpl.
  rewrite IH. by apply listeners_of_remove_own.
Qed.

(** C1 fails on the code: [destroy] calls [removeEventListener] on the
    component's private event target, never on the target a listener was
    registered on.  So (1) the listeners of every other target are the
    same after the removals of [destroy]; (2) a Label that is constructed
    and destroyed at once still has its mousedown handler on the root
    element, and a later mousedown there invokes it; and (3) constructing
    a Switch throws, because [init] runs inside the base constructor,
    before the fields it reads are assigned. *)
Theorem destroy_leaves_dom_listeners :
  (forall m d t ty, t <> Own ->
      Native.listeners_of t ty (Component.remove_tracked m d) = Native.listeners_of t ty d)
  /\ (let w0 := page Scenes.bodies hub in
      exists w1,
        (Label.new 0 no_options >> Label.destroy) w0 = Some (Ok tt, w1)
        /\ Component.isDestroyed w1 = true
        /\ Native.listeners_of (Elem 0) "mousedown" (dom w1) = [LabelMouseDown]
        /\ forall n, 2 <= n ->
             exists w2, simulate n (Elem 0) mousedown w1 = Some (Ok tt, w2)
                        /\ calls_of LabelMouseDown (since w1 w2) = [AEvent mousedown])
  /\ (let w0 := page Scenes.bodies hub in
      exists e w1, Switch.new 0 no_options w0 = Some (Throws (TypeError e), w1)).
Proof.
  split; [|split].
  - intros m d t ty Ht. by apply listeners_of_remove_tracked.
  - intros w0. exists (after (Label.new 0 no_options >> Label.destroy) w0).
    split; [by vm_compute|]. split; [by vm_compute|]. split; [by vm_compute|].
    intros n Hn.
    destruct (simulate 2 (Elem 0) mousedown
                (after (Label.new 0 no_options >> Label.destroy) w0))
      as [[r2 w2]|] eqn:E2; [|by vm_compute in E2].
    exists w2. split.
    + rewrite (Mono.simulate_more 2 n _ _ _ _ E2 Hn).
      f_equal. f_equal. by vm_compute in E2; simplify_eq.
    + by vm_compute in E2; simplify_eq.
  - intros w0. by eexists _, _.
Qed.

(** Refutes C5 as stated: the cleanup hook already sees the destroyed flag
    set, so the flag is not set after the hook has run. *)
Lemma cleanup_sees_destroyed_flag :
  let w := page Scenes.bodies hub in
  Component.isDestroyed w = false
  /\ exists w', Component.destroy (Some probe) w = Some (Ok tt, w')
                /\ since w w' = [Noted "cleanup: destroyed"].
Proof. intros w. split; [reflexivity|]. by eexists. Qed.

(** C5, amended: [destroy()] on an already destroyed widget does nothing;
    a first [destroy()] runs, in this order: (1) set the destroyed flag,
    (2) go through the registry of tracked listeners and empty it,
    (3) run the widget's cleanup hook if it has one.  For Label and
    Switch a second [destroy()] is therefore without effect. *)
Theorem destroy_order (cleanup : option (M unit)) (w : world) :
  Component.destroy cleanup w
  = (if Component.isDestroyed w then Some (Ok tt, w)
     else
       let flagged := with_widget (Component.set_destroyed true) w in
       let removed :=
         with_dom (Component.remove_tracked (tracked (widget flagged))) flagged in
       let emptied := with_widget (Component.set_tracked []) removed in
       match cleanup with
       | Some hook => hook emptied
       | None => Some (Ok tt, emptied)
       end)
  /\ (Label.destroy >> Label.destroy) w = Label.destroy w
  /\ (Switch.destroy >> Switch.destroy) w = Switch.destroy w.
Proof.
  unfold Label.destroy, Switch.destroy, Component.destroy, Component.isDestroyed,
    bind, gets, modify, ret.
  destruct (destroyed (widget w)) eqn:E; simpl; rewrite ?E; [done|].
  split; [by destruct cleanup|]. done.
Qed.

End LifecycleSpec.

(** ** The Switch *)

Module SwitchFacts.
Import Run Observe ObserveFacts.

Lemma has_listener_of t ty f d :
  f ∈ Native.listeners_of t ty d -> Native.has_listener t ty f d = true.
Proof.
  unfold Native.listeners_of, Native.has_listener.
  intros H. apply list_elem_of_omap in H as ([[t' ty'] g] & Hin & Hg).
  simpl in Hg. case_bool_decide; simplify_eq. by apply bool_decide_eq_true.
Qed.

Lemma listeners_of_filter_own t ty (rs : list (target * string * fn)) :
  t <> Own ->
  omap (fun r : target * string * fn =>
          if bool_decide (r.1 = (t, ty)) then Some r.2 else None)
       (filter (fun r => r.1.1 <> Own) rs)
  = omap (fun r : target * string * fn =>
            if bool_decide (r.1 = (t, ty)) then Some r.2 else None) rs.
Proof.
  intros Ht. induction rs as [|[[t' ty'] f] rs IH]; [done|].
  destruct (decide (t' = Own)) as [->|Hne].
  - rewrite filter_cons_False by (simpl; intros H; by apply H).
    rewrite IH.
    change (omap ?g (?x :: ?r)) with (match g x with
                                      | Some y => y :: omap g r
                                      | None => omap g r
                                      end).
    cbv beta. rewrite bool_decide_eq_false_2; [done|].
    simpl. intros ?; simplify_eq.
  - rewrite filter_cons_True by done.
    change (omap ?g (?x :: ?r)) with (match g x with
                                      | Some y => y :: omap g r
                                      | None => omap g r
                                      end).
    cbv beta. by rewrite IH.
Qed.

(** What is left of a [new Switch(element, options)] on a page with a
    DOM: the allocated instance with none of the fields of Switch
    assigned, and at most one detached element more. *)
Lemma Switch_new_throws el o w :
  canUseDOM (dom w) = true ->
  exists msg w',
    Switch.new el o w = Some (Throws (TypeError msg), w')
    /\ sm w' = sm w /\ log w' = log w /\ code w' = code w
    /\ widget w' = widget (Component.allocate Switch el o w)
    /\ registered (dom w') = filter (fun r => r.1.1 <> Own) (registered (dom w)).
Proof.
  intros Hcan.
  unfold Switch.new, Component.constructor, Switch.init, Switch.findElements,
    Component.createElement, bind, gets, modify, throw, ret. simpl.
  rewrite Hcan. simpl.
  destruct (Native.querySelector _ _) as [k|]; simpl; by eexists _, _.
Qed.

End SwitchFacts.

Module SwitchSpec.
Import Run Observe ObserveFacts SwitchFacts Examples Scenes.

(** C4 fails on the code: a Switch is never constructed, so no click is
    ever handled.  [new Switch(el, { checked: false, onCheckedChange: cb })]
    throws a TypeError, for every element [el] and callback [cb] on every
    page with a DOM: [init] runs inside the base constructor, before the
    constructor of Switch has assigned [this.elements] and
    [this.checkedState].  What is left has no cell ([checkedState] is
    unassigned and the cell of the page is untouched), so that
    [getChecked] throws as well, where the claim has it return [false];
    and no click handler was registered on [el], so that a click on an
    element that had no click listeners before does nothing, and [cb] is
    not called at all, where the claim has it called once with [true]. *)
Theorem controlled_switch_never_constructed
    (el : nat) (cb : fn) (w : world) (e : event) (n : nat) :
  canUseDOM (dom w) = true ->
  Native.listeners_of (Elem el) "click" (dom w) = [] ->
  type e = "click" ->
  exists msg w',
    Switch.new el (controlled_options cb) w = Some (Throws (TypeError msg), w')
    /\ checkedState (widget w') = None
    /\ sm w' = sm w
    /\ Native.listeners_of (Elem el) "click" (dom w') = []
    /\ (exists m, Switch.getChecked w' = Some (Throws (TypeError m), w'))
    /\ exists w'',
         simulate n (Elem el) e w' = Some (Ok tt, w'')
         /\ calls_of cb (since w w'') = []
         /\ calls_of SwitchClick (since w w'') = [].
Proof.
  intros Hcan Hnone Hty.
  destruct (Switch_new_throws el (controlled_options cb) w Hcan)
    as (msg & w' & E & Hsm & Hlog & _ & Hwid & Hreg).
  assert (Hl : Native.listeners_of (Elem el) "click" (dom w') = []).
  { unfold Native.listeners_of in *. rewrite Hreg.
    by rewrite listeners_of_filter_own. }
  exists msg, w'. split; [done|]. split; [by rewrite Hwid|]. split; [done|].
  split; [done|]. split.
  - unfold Switch.getChecked, Switch.the_checkedState, bind, gets, throw.
    rewrite Hwid. simpl. by eexists.
  - exists w'. split.
    + unfold simulate, Native.dispatchEvent, bind, gets. cbv beta.
      by rewrite Hty, Hl.
    + unfold since. rewrite Hlog, drop_all. done.
Qed.

(** The theorem for a click on element 0 of an empty page, with callback 4
    as [onCheckedChange]. *)
Lemma controlled_switch_never_constructed_witness :
  let w := page Scenes.bodies hub in
  exists msg w',
    Switch.new 0 (controlled_options (User 4)) w = Some (Throws (TypeError msg), w')
    /\ checkedState (widget w') = None
    /\ sm w' = sm w
    /\ Native.listeners_of (Elem 0) "click" (dom w') = []
    /\ (exists m, Switch.getChecked w' = Some (Throws (TypeError m), w'))
    /\ exists w'',
         simulate 1 (Elem 0) click w' = Some (Ok tt, w'')
         /\ calls_of (User 4) (since w w'') = []
         /\ calls_of SwitchClick (since w w'') = [].
Proof.
  apply (controlled_switch_never_constructed 0 (User 4) (page Scenes.bodies hub) click 1).
  - reflexivity.
  - reflexivity.
  - reflexivity.
Defined.

End SwitchSpec.

(** * Further properties of the same code *)

(** ** The Event Hub: counting, clearing, and changes during a dispatch *)

Module HubMoreFacts.
Import JsFacts Run Quiet QuietFacts Observe ObserveFacts Sets.

Lemma entries_add_other ty ty' f w :
  ty' <> ty -> entries ty' (EventTarget.addEventListener ty f w) = entries ty' w.
Proof.
  intros Hne. rewrite addEventListener_eq. unfold entries at 1; simpl.
  by rewrite lookup_insert_ne.
Qed.

Lemma entries_remove_other ty ty' f w :
  ty' <> ty -> entries ty' (EventTarget.removeEventListener ty f w) = entries ty' w.
Proof.
  intros Hne. rewrite removeEventListener_eq. unfold entries.
  destruct (listeners (sm w) !! ty); simpl; [|done].
  by rewrite lookup_insert_ne.
Qed.

Lemma listenerCount_registered ty w :
  EventTarget.listenerCount ty w = length (registered_for ty w).
Proof.
  unfold EventTarget.listenerCount, registered_for, entries, EventTarget.set_size.
  by destruct (listeners (sm w) !! ty).
Qed.

Lemma length_filter_NoDup (fs : list fn) f :
  NoDup fs -> f ∈ fs -> S (length (filter (fun g => g <> f) fs)) = length fs.
Proof.
  induction fs as [|g fs IH]; intros Hnd Hin; [by apply elem_of_nil in Hin|].
  apply NoDup_cons in Hnd as [Hg Hnd].
  destruct (decide (g = f)) as [->|Hne].
  - rewrite filter_cons_False by (intros H; by apply H). simpl. f_equal.
    clear IH Hin. induction fs as [|h fs IH]; [done|].
    rewrite filter_cons_True.
    + simpl. f_equal. apply IH; [|by apply NoDup_cons in Hnd as [_ ?]].
      intros H. apply Hg. by right.
    + intros ->. apply Hg. by left.
  - rewrite filter_cons_True by done. simpl. f_equal. apply IH; [done|].
    apply elem_of_cons in Hin as [->|Hin]; done.
Qed.

Lemma filter_ne_absent (fs : list fn) f : f ∉ fs -> filter (fun g => g <> f) fs = fs.
Proof.
  induction fs as [|g fs IH]; intros Hin; [done|].
  rewrite filter_cons_True.
  - f_equal. apply IH. intros H. apply Hin. by right.
  - intros ->. apply Hin. by left.
Qed.

Lemma entries_Some ty w s : entries ty w = s -> s <> [] -> listeners (sm w) !! ty = Some s.
Proof.
  unfold entries. destruct (listeners (sm w) !! ty); simpl; intros <- H; done.
Qed.

Lemma drop_set_delete g n s :
  drop n (EventTarget.set_delete g s) = EventTarget.set_delete g (drop n s).
Proof. unfold EventTarget.set_delete. by rewrite fmap_drop. Qed.

Lemma quiet_forall_app c (a b : list fn) :
  forallb (quiet c) (a ++ b) = true ->
  (forall f, f ∈ a -> quiet c f = true) /\ (forall f, f ∈ b -> quiet c f = true).
Proof.
  intros H. pose proof (proj1 (forallb_elem_of _ _) H) as Hq.
  split; intros f Hf; apply Hq, elem_of_app; auto.
Qed.

Lemma quiet_not_wrapper c ty f k (fs : list fn) :
  (forall g, g ∈ fs -> quiet c g = true) -> OnceWrapper ty f k ∉ fs.
Proof. intros Hq Hin. by apply Hq in Hin. Qed.

Lemma once_entries ty f w :
  OnceWrapper ty f (next_closure w) ∉ registered_for ty w ->
  listeners (sm (EventTarget.once ty f w)) !! ty
  = Some (entries ty w ++ [Some (OnceWrapper ty f (next_closure w))]).
Proof.
  intros Hin. unfold EventTarget.once. rewrite addEventListener_eq. simpl.
  rewrite lookup_insert_eq. f_equal.
  change (entries ty (fresh_closure w)) with (entries ty w).
  unfold EventTarget.set_add.
  destruct (EventTarget.set_has _ (entries ty w)) eqn:E; [|done].
  by apply set_has_elements in E.
Qed.

(** A [forEach] through [k] entries that hold tame listeners (or blanks),
    up to entry [i + k], where the loop goes on. *)
Lemma forEach_tame_upto k : forall n ty i e w (s : list (option fn)),
  listeners (sm w) !! ty = Some s ->
  i + k <= length s ->
  (forall f, f ∈ EventTarget.set_elements (take k (drop i s)) -> tame (code w) f = true) ->
  run (k + S (S n)) (TForEach ty i e) w
  = run (S (S n)) (TForEach ty (i + k) e)
      (say (dispatch_effect (code w) e (EventTarget.set_elements (take k (drop i s)))) w).
Proof.
  induction k as [|k IH]; intros n ty i e w s Hs Hlen Htame.
  - rewrite Nat.add_0_r. simpl. unfold dispatch_effect; simpl. by rewrite say_nil.
  - change (S k + S (S n)) with (S (k + S (S n))).
    rewrite run_forEach. unfold EventTarget.forEach_step, bind, gets; simpl.
    rewrite Hs; simpl.
    destruct (s !! i) as [entry|] eqn:Hi; [|apply lookup_ge_None in Hi; lia].
    rewrite (drop_S _ _ _ Hi) in Htame |- *. rewrite firstn_cons in Htame |- *.
    replace (i + S k) with (S i + k) by lia.
    destruct entry as [f|].
    + assert (Hf : tame (code w) f = true)
        by (apply Htame; unfold EventTarget.set_elements; simpl; left).
      unfold try_catch.
      replace (k + S (S n)) with (S (S (k + n))) by lia.
      rewrite (call_tame _ _ _ _ Hf).
      replace (S (S (k + n))) with (k + S (S n)) by lia.
      unfold EventTarget.set_elements, dispatch_effect, listener_effect; simpl.
      destruct (call_effect (code w) f (AEvent e)) as [o [err|]]; simpl.
      * rewrite (IH n ty (S i) e _ s); simpl; try done; try lia.
        -- rewrite !say_say. by rewrite <- !app_assoc.
        -- intros g Hg. apply Htame. unfold EventTarget.set_elements; simpl. by right.
      * rewrite (IH n ty (S i) e _ s); simpl; try done; try lia.
        -- rewrite !say_say. by rewrite app_nil_r.
        -- intros g Hg. apply Htame. unfold EventTarget.set_elements; simpl. by right.
    + rewrite (IH n ty (S i) e _ s); simpl; try done; lia.
Qed.

End HubMoreFacts.

Module HubMore.
Import JsFacts Run Quiet QuietFacts Observe ObserveFacts Sets HubMoreFacts.

(** X1: [listenerCount(type)] is the number of distinct listeners registered
    for [type].  Adding a listener raises it by one unless the listener is
    already registered, removing one lowers it by one if the listener was
    registered, adding and then removing leaves the count of a listener
    that was absent unchanged, and neither touches the count of another
    event type. *)
Theorem listenerCount_counts_registrations
    (w : world) (ty other : string) (f : fn) :
  NoDup (registered_for ty w) ->
  other <> ty ->
  let on := EventTarget.addEventListener ty f in
  let off := EventTarget.removeEventListener ty f in
  let here := if bool_decide (f ∈ registered_for ty w) then 1 else 0 in
  EventTarget.listenerCount ty w = length (registered_for ty w)
  /\ EventTarget.listenerCount ty (on w) = EventTarget.listenerCount ty w + (1 - here)
  /\ EventTarget.listenerCount ty (off w) = EventTarget.listenerCount ty w - here
  /\ EventTarget.listenerCount ty (off (on w)) = EventTarget.listenerCount ty w - here
  /\ EventTarget.listenerCount other (on w) = EventTarget.listenerCount other w
  /\ EventTarget.listenerCount other (off w) = EventTarget.listenerCount other w
  /\ f ∈ registered_for ty (on w)
  /\ f ∉ registered_for ty (off w).
Proof.
  intros Hnd Hne on off here.
  assert (Hon : registered_for ty (on w)
                = if bool_decide (f ∈ registered_for ty w)
                  then registered_for ty w else registered_for ty w ++ [f]).
  { unfold registered_for, on. by rewrite entries_add, set_elements_add. }
  assert (Hoff : forall w0, registered_for ty (off w0)
                            = filter (fun g => g <> f) (registered_for ty w0)).
  { intros w0. unfold registered_for, off. by rewrite entries_remove, set_elements_delete. }
  rewrite !listenerCount_registered.
  split; [done|]. split; [|split; [|split; [|split; [|split; [|split]]]]].
  - rewrite Hon. unfold here. case_bool_decide; [lia|]. rewrite length_app. simpl. lia.
  - rewrite Hoff. unfold here. case_bool_decide as Hin.
    + pose proof (length_filter_NoDup _ f Hnd Hin). lia.
    + rewrite filter_ne_absent by done. lia.
  - rewrite Hoff, Hon. unfold here. case_bool_decide as Hin.
    + pose proof (length_filter_NoDup _ f Hnd Hin). lia.
    + rewrite filter_app, filter_ne_absent by done.
      rewrite filter_cons_False by (intros H; by apply H).
      rewrite length_app. simpl. lia.
  - unfold registered_for, on. by rewrite entries_add_other.
  - unfold registered_for, off. by rewrite entries_remove_other.
  - unfold registered_for, on. rewrite entries_add. apply set_add_member.
  - rewrite Hoff. intros H. by apply list_elem_of_filter in H as [H _].
Qed.

(** The theorem at the hub with three listeners, for the second of them. *)
Lemma listenerCount_counts_registrations_witness :
  let w := Scenes.three_listeners in
  let on := EventTarget.addEventListener "x" (User 1) in
  let off := EventTarget.removeEventListener "x" (User 1) in
  let here := if bool_decide (User 1 ∈ registered_for "x" w) then 1 else 0 in
  EventTarget.listenerCount "x" w = length (registered_for "x" w)
  /\ EventTarget.listenerCount "x" (on w) = EventTarget.listenerCount "x" w + (1 - here)
  /\ EventTarget.listenerCount "x" (off w) = EventTarget.listenerCount "x" w - here
  /\ EventTarget.listenerCount "x" (off (on w)) = EventTarget.listenerCount "x" w - here
  /\ EventTarget.listenerCount "y" (on w) = EventTarget.listenerCount "y" w
  /\ EventTarget.listenerCount "y" (off w) = EventTarget.listenerCount "y" w
  /\ User 1 ∈ registered_for "x" (on w)
  /\ User 1 ∉ registered_for "x" (off w).
Proof.
  apply (listenerCount_counts_registrations Scenes.three_listeners "x" "y" (User 1)).
  - refine (bool_decide_unpack _ _). vm_compute. exact I.
  - discriminate.
Defined.

(** X2: [removeAllListeners()] leaves no listener for any event type, so
    that every later emit returns at once; [removeAllListeners(t)] with a
    non-empty [t] removes the listeners of [t] and leaves those of every
    other type; with the empty string as [t] it removes the listeners of
    all types, as the call without argument does.  The value of a cell is
    not touched. *)
Theorem removeAllListeners_spec (w : world) (t other : string) (d : value) (n : nat) :
  let all := EventTarget.removeAllListeners None w in
  let one := EventTarget.removeAllListeners (Some t) w in
  (forall ty, EventTarget.listenerCount ty all = 0)
  /\ (forall ty, emit n ty d all = Some (Ok tt, all))
  /\ StateManager.getValue all = StateManager.getValue w
  /\ StateManager.getValue one = StateManager.getValue w
  /\ (t = "" -> one = all)
  /\ (t <> "" ->
        EventTarget.listenerCount t one = 0
        /\ emit n t d one = Some (Ok tt, one)
        /\ (other <> t -> registered_for other one = registered_for other w)).
Proof.
  intros all one.
  split; [done|]. split; [|split; [done|split; [|split]]].
  - intros ty. unfold emit, EventTarget.emit, bind.
    change (EventTarget.dispatchEvent (run n) ?e) with (dispatchEvent n e).
    by rewrite dispatchEvent_absent.
  - unfold one, EventTarget.removeAllListeners. by case_bool_decide.
  - intros ->. done.
  - intros Ht. unfold one, EventTarget.removeAllListeners.
    rewrite bool_decide_eq_false_2 by done.
    split; [|split].
    + unfold EventTarget.listenerCount. simpl. by rewrite lookup_delete_eq.
    + unfold emit, EventTarget.emit, bind.
      change (EventTarget.dispatchEvent (run n) ?e) with (dispatchEvent n e).
      rewrite dispatchEvent_absent; [done|]. simpl. by rewrite lookup_delete_eq.
    + intros Hne. unfold registered_for, entries. simpl.
      by rewrite lookup_delete_ne.
Qed.

(** X3: a listener registered with [once] that returns normally and does
    not itself operate on the hub is invoked by the next emit, once, after
    the listeners registered before it, and is unregistered by then: a
    second emit invokes the other listeners only. *)
Theorem once_fires_once (w : world) (ty : string) (f : fn) (d : value) (n : nat) :
  forallb (quiet (code w)) (registered_for ty w) = true ->
  quiet (code w) f = true ->
  thrown (code w) (AEvent (CustomEvent ty (Payload (nullish d VNull)))) f = None ->
  5 + length (entries ty w) <= n ->
  let e := CustomEvent ty (Payload (nullish d VNull)) in
  let wrapper := OnceWrapper ty f (next_closure w) in
  let w1 := EventTarget.once ty f w in
  registered_for ty w1 = registered_for ty w ++ [wrapper]
  /\ exists w2,
       emit n ty d w1 = Some (Ok tt, w2)
       /\ calls (since w1 w2)
          = ((fun g => (g, AEvent e)) <$> registered_for ty w)
            ++ [(wrapper, AEvent e); (f, AEvent e)]
       /\ registered_for ty w2 = registered_for ty w
       /\ exists w3,
            emit n ty d w2 = Some (Ok tt, w3)
            /\ calls (since w2 w3) = (fun g => (g, AEvent e)) <$> registered_for ty w.
Proof.
  intros Hq' Hf Hret Hn e wrapper w1.
  pose proof (proj1 (forallb_elem_of _ _) Hq') as Hq.
  assert (Hnew : wrapper ∉ registered_for ty w) by (by eapply quiet_not_wrapper).
  pose proof (once_entries ty f w Hnew) as Hs1. fold wrapper w1 in Hs1.
  set (s := entries ty w) in *.
  assert (Hreg1 : registered_for ty w1 = registered_for ty w ++ [wrapper]).
  { unfold registered_for at 1, entries. rewrite Hs1. simpl.
    by rewrite set_elements_app. }
  split; [done|].
  assert (Hcode : code w1 = code w) by (unfold w1, EventTarget.once; by rewrite code_add).
  set (pre := dispatch_effect (code w) e (registered_for ty w)).
  destruct (call_effect (code w) f (AEvent e)) as [o err] eqn:Hce.
  unfold thrown in Hret. fold e in Hret. rewrite Hce in Hret. simpl in Hret. subst err.
  set (w2 := EventTarget.removeEventListener ty wrapper
               (say ((pre ++ [Called wrapper (AEvent e)]) ++ o) w1)).
  assert (Hent2 : entries ty w2 = EventTarget.set_delete wrapper (s ++ [Some wrapper])).
  { unfold w2. rewrite entries_remove. unfold entries at 1. simpl. by rewrite Hs1. }
  assert (Hs2 : listeners (sm w2) !! ty
                = Some (EventTarget.set_delete wrapper (s ++ [Some wrapper]))).
  { unfold w2. rewrite removeEventListener_eq. simpl. rewrite Hs1. simpl.
    by rewrite lookup_insert_eq. }
  assert (Hreg2 : registered_for ty w2 = registered_for ty w).
  { unfold registered_for at 1. rewrite Hent2, set_elements_delete, set_elements_app.
    simpl. rewrite filter_app, filter_ne_absent by done.
    rewrite filter_cons_False by (intros H; by apply H). simpl. apply app_nil_r. }
  assert (Hlog2 : log w2 = log w1 ++ ((pre ++ [Called wrapper (AEvent e)]) ++ o)).
  { unfold w2. rewrite removeEventListener_eq. simpl. by rewrite Hs1. }
  assert (Hcode2 : code w2 = code w) by (unfold w2; by rewrite code_remove).
  assert (E1 : emit n ty d w1 = Some (Ok tt, w2)).
  { unfold emit, EventTarget.emit, EventTarget.dispatchEvent, bind, gets; simpl.
    rewrite Hs1.
    destruct (Nat.le_exists_sub (length s + 3) n) as (m & -> & _); [lia|].
    replace (m + (length s + 3)) with (length s + S (S (S m))) by lia.
    fold e.
    rewrite (forEach_tame_upto (length s) (S m) ty 0 e w1 _ Hs1).
    2: { rewrite length_app. simpl. lia. }
    2: { rewrite drop_0, take_app_length. intros g Hg. rewrite Hcode.
         apply quiet_tame. by apply Hq. }
    rewrite drop_0, take_app_length. simpl.
    rewrite Hcode.
    change (dispatch_effect (code w) e (EventTarget.set_elements s)) with pre.
    rewrite run_forEach. unfold EventTarget.forEach_step, bind, gets; simpl.
    rewrite Hs1; simpl.
    rewrite lookup_app_r by done. rewrite Nat.sub_diag. simpl.
    unfold try_catch. rewrite run_call. unfold call, bind, modify; simpl.
    unfold EventTarget.once_wrapper, bind.
    rewrite say_say.
    rewrite (call_quiet m f (AEvent e) (say (pre ++ [Called wrapper (AEvent e)]) w1))
      by (simpl; by rewrite Hcode).
    simpl. rewrite Hcode, Hce. simpl. unfold modify.
    rewrite say_say. fold w2.
    rewrite run_forEach. unfold EventTarget.forEach_step, bind, gets; simpl.
    rewrite Hs2; simpl.
    rewrite (proj2 (lookup_ge_None _ _)).
    2: { rewrite length_set_delete, length_app. simpl. lia. }
    done. }
  exists w2. split; [done|]. split; [|split; [done|]].
  - unfold since. rewrite Hlog2, drop_app_length.
    rewrite !calls_app. unfold pre.
    destruct (dispatch_effect_quiet (code w) e (registered_for ty w)) as [-> _]; [done|].
    rewrite <- app_assoc. f_equal. simpl.
    destruct f as [id| | | | |]; try discriminate.
    unfold call_effect in Hce.
    destruct (body_effect_notes (AEvent e) (code w id)) as [Hc _].
    destruct (body_effect (AEvent e) (code w id)) as [o' err']; simpl in *.
    simplify_eq. simpl. by rewrite Hc.
  - eexists. split.
    + apply emit_quiet.
      * rewrite Hreg2, Hcode2. done.
      * rewrite Hent2, length_set_delete, length_app. simpl. lia.
    + rewrite since_say, Hreg2, Hcode2. fold e.
      by destruct (dispatch_effect_quiet (code w) e (registered_for ty w)) as [-> _].
Qed.

(** The theorem at the hub with three listeners, for a fourth one. *)
Lemma once_fires_once_witness :
  let w := Scenes.three_listeners in
  let e := CustomEvent "x" (Payload (VNum 7)) in
  let wrapper := OnceWrapper "x" (User 4) (next_closure w) in
  let w1 := EventTarget.once "x" (User 4) w in
  registered_for "x" w1 = registered_for "x" w ++ [wrapper]
  /\ exists w2,
       emit 8 "x" (VNum 7) w1 = Some (Ok tt, w2)
       /\ calls (since w1 w2)
          = ((fun g => (g, AEvent e)) <$> registered_for "x" w)
            ++ [(wrapper, AEvent e); (User 4, AEvent e)]
       /\ registered_for "x" w2 = registered_for "x" w
       /\ exists w3,
            emit 8 "x" (VNum 7) w2 = Some (Ok tt, w3)
            /\ calls (since w2 w3) = (fun g => (g, AEvent e)) <$> registered_for "x" w.
Proof.
  apply (once_fires_once Scenes.three_listeners "x" (User 4) (VNum 7) 8).
  - reflexivity.
  - reflexivity.
  - reflexivity.
  - vm_compute. lia.
Defined.

(** X4: the dispatch loop iterates over the live set.  When a listener
    removes another listener [g] of the same event type while it runs,
    [g] is not invoked by that dispatch if its turn had not come yet; the
    listeners before the remover and the other listeners after it are
    invoked as usual. *)
Theorem listener_removed_during_dispatch
    (w : world) (ty : string) (a : nat) (g : fn) (d : value) (n : nat)
    (s1 s2 : list (option fn)) :
  entries ty w = s1 ++ Some (User a) :: s2 ->
  code w a = [Off ty g] ->
  forallb (quiet (code w)) (EventTarget.set_elements (s1 ++ s2)) = true ->
  5 + length (entries ty w) <= n ->
  let e := CustomEvent ty (Payload (nullish d VNull)) in
  exists w',
    emit n ty d w = Some (Ok tt, w')
    /\ calls (since w w')
       = ((fun f => (f, AEvent e)) <$> EventTarget.set_elements s1)
         ++ (User a, AEvent e)
            :: ((fun f => (f, AEvent e))
                  <$> filter (fun f => f <> g) (EventTarget.set_elements s2))
    /\ registered_for ty w' = filter (fun f => f <> g) (registered_for ty w).
Proof.
  intros Hent Hbody Hq' Hn e.
  rewrite set_elements_app in Hq'. apply quiet_forall_app in Hq' as [Hq1 Hq2].
  assert (Hs : listeners (sm w) !! ty = Some (s1 ++ Some (User a) :: s2)).
  { apply entries_Some; [done|]. by destruct s1. }
  rewrite Hent, length_app in Hn. simpl in Hn.
  set (pre := dispatch_effect (code w) e (EventTarget.set_elements s1)).
  set (w1 := EventTarget.removeEventListener ty g
               (say (pre ++ [Called (User a) (AEvent e)]) w)).
  assert (Hs1 : listeners (sm w1) !! ty
                = Some (EventTarget.set_delete g (s1 ++ Some (User a) :: s2))).
  { unfold w1. rewrite removeEventListener_eq. simpl. rewrite Hs. simpl.
    by rewrite lookup_insert_eq. }
  assert (Hcode1 : code w1 = code w) by (unfold w1; by rewrite code_remove).
  assert (Hlog1 : log w1 = log w ++ (pre ++ [Called (User a) (AEvent e)])).
  { unfold w1. rewrite removeEventListener_eq. simpl. by rewrite Hs. }
  set (post := dispatch_effect (code w) e
                 (filter (fun f => f <> g) (EventTarget.set_elements s2))).
  exists (say post w1). split; [|split].
  - unfold emit, EventTarget.emit, EventTarget.dispatchEvent, bind, gets; simpl.
    rewrite Hs. fold e.
    destruct (Nat.le_exists_sub (length s1 + length s2 + 6) n) as (m & -> & _); [lia|].
    replace (m + (length s1 + length s2 + 6))
      with (length s1 + S (S (S (S (length s2 + m + 2))))) by lia.
    rewrite (forEach_tame_upto (length s1) _ ty 0 e w _ Hs).
    2: { rewrite length_app. simpl. lia. }
    2: { rewrite drop_0, take_app_length. intros f Hf. apply quiet_tame. by apply Hq1. }
    rewrite drop_0, take_app_length. simpl. fold pre.
    rewrite run_forEach. unfold EventTarget.forEach_step, bind, gets; simpl.
    rewrite Hs; simpl.
    rewrite lookup_app_r by done. rewrite Nat.sub_diag. simpl.
    unfold try_catch. rewrite run_call. unfold call, bind, modify, gets; simpl.
    rewrite Hbody. simpl. unfold bind, modify, ret; simpl.
    rewrite say_say. fold w1.
    rewrite (forEach_tame (length s2) (length s2 + m + 2) ty (S (length s1)) e w1
               (EventTarget.set_delete g (s1 ++ Some (User a) :: s2))).
    + rewrite drop_set_delete.
      replace (S (length s1)) with (length s1 + 1) by lia.
      rewrite <- drop_drop, drop_app_length. simpl. rewrite drop_0.
      rewrite set_elements_delete, Hcode1. done.
    + lia.
    + done.
    + rewrite length_set_delete, length_app. simpl. lia.
    + rewrite drop_set_delete.
      replace (S (length s1)) with (length s1 + 1) by lia.
      rewrite <- drop_drop, drop_app_length. simpl. rewrite drop_0.
      rewrite set_elements_delete, Hcode1. intros f Hf.
      apply list_elem_of_filter in Hf as [_ Hf]. apply quiet_tame. by apply Hq2.
  - unfold since. simpl. rewrite Hlog1, <- app_assoc, drop_app_length.
    rewrite !calls_app. unfold pre, post.
    destruct (dispatch_effect_quiet (code w) e (EventTarget.set_elements s1)) as [-> _];
      [done|].
    destruct (dispatch_effect_quiet (code w) e
                (filter (fun f => f <> g) (EventTarget.set_elements s2))) as [-> _].
    { intros f Hf. apply list_elem_of_filter in Hf as [_ Hf]. by apply Hq2. }
    by rewrite <- app_assoc.
  - unfold registered_for, entries. simpl. rewrite Hs1, Hs. simpl.
    by rewrite set_elements_delete.
Qed.

(** The theorem at a hub whose second listener removes the third. *)
Lemma listener_removed_during_dispatch_witness :
  let w := Pages.hub_with 6 in
  let e := CustomEvent "x" (Payload (VNum 7)) in
  exists w',
    emit 8 "x" (VNum 7) w = Some (Ok tt, w')
    /\ calls (since w w')
       = ((fun f => (f, AEvent e)) <$> EventTarget.set_elements [Some (User 0)])
         ++ (User 6, AEvent e)
            :: ((fun f => (f, AEvent e))
                  <$> filter (fun f => f <> User 2)
                        (EventTarget.set_elements [Some (User 2)]))
    /\ registered_for "x" w' = filter (fun f => f <> User 2) (registered_for "x" w).
Proof.
  apply (listener_removed_during_dispatch (Pages.hub_with 6) "x" 6 (User 2) (VNum 7) 8
           [Some (User 0)] [Some (User 2)]).
  - reflexivity.
  - reflexivity.
  - reflexivity.
  - vm_compute. lia.
Defined.

(** X5: when a listener registers a new listener [g] for the same event
    type while it runs, the dispatch that is under way invokes [g] too,
    after the listeners registered before; if [g] was registered already,
    nothing changes. *)
Theorem listener_added_during_dispatch
    (w : world) (ty : string) (a : nat) (g : fn) (d : value) (n : nat)
    (s1 s2 : list (option fn)) :
  entries ty w = s1 ++ Some (User a) :: s2 ->
  code w a = [On ty g] ->
  quiet (code w) g = true ->
  forallb (quiet (code w)) (EventTarget.set_elements (s1 ++ s2)) = true ->
  5 + length (entries ty w) <= n ->
  let e := CustomEvent ty (Payload (nullish d VNull)) in
  let late := if bool_decide (g ∈ registered_for ty w) then [] else [g] in
  exists w',
    emit n ty d w = Some (Ok tt, w')
    /\ calls (since w w')
       = ((fun f => (f, AEvent e)) <$> EventTarget.set_elements s1)
         ++ (User a, AEvent e)
            :: ((fun f => (f, AEvent e)) <$> (EventTarget.set_elements s2 ++ late))
    /\ registered_for ty w' = registered_for ty w ++ late.
Proof.
  intros Hent Hbody Hg Hq' Hn e late.
  rewrite set_elements_app in Hq'. apply quiet_forall_app in Hq' as [Hq1 Hq2].
  set (s := s1 ++ Some (User a) :: s2) in *.
  assert (Hs : listeners (sm w) !! ty = Some s).
  { apply entries_Some; [done|]. unfold s. by destruct s1. }
  assert (Hlen : length s = length s1 + S (length s2)).
  { unfold s. rewrite length_app. done. }
  rewrite Hent, Hlen in Hn.
  set (pre := dispatch_effect (code w) e (EventTarget.set_elements s1)).
  set (w1 := EventTarget.addEventListener ty g
               (say (pre ++ [Called (User a) (AEvent e)]) w)).
  assert (Hs1 : listeners (sm w1) !! ty = Some (EventTarget.set_add g s)).
  { unfold w1. rewrite addEventListener_eq. simpl. rewrite lookup_insert_eq.
    unfold entries. simpl. by rewrite Hs. }
  assert (Hcode1 : code w1 = code w) by (unfold w1; by rewrite code_add).
  assert (Hlog1 : log w1 = log w ++ (pre ++ [Called (User a) (AEvent e)])).
  { unfold w1. by rewrite addEventListener_eq. }
  assert (Hdrop : EventTarget.set_elements (drop (S (length s1)) (EventTarget.set_add g s))
                  = EventTarget.set_elements s2 ++ late).
  { unfold late, registered_for. rewrite Hent. unfold EventTarget.set_add.
    destruct (EventTarget.set_has g s) eqn:E.
    - apply set_has_elements in E. rewrite bool_decide_eq_true_2 by done.
      rewrite app_nil_r. unfold s.
      replace (S (length s1)) with (length s1 + 1) by lia.
      by rewrite <- drop_drop, drop_app_length.
    - rewrite bool_decide_eq_false_2.
      2: { intros H. apply set_has_elements in H. congruence. }
      unfold s. rewrite <- app_assoc.
      replace (S (length s1)) with (length s1 + 1) by lia.
      rewrite <- drop_drop, drop_app_length. simpl. rewrite drop_0.
      by rewrite set_elements_app. }
  assert (Hlate : forall f, f ∈ EventTarget.set_elements s2 ++ late -> quiet (code w) f = true).
  { intros f Hf. apply elem_of_app in Hf as [Hf|Hf]; [by apply Hq2|].
    unfold late in Hf. case_bool_decide; [by apply elem_of_nil in Hf|].
    apply list_elem_of_singleton in Hf. by subst. }
  set (post := dispatch_effect (code w) e (EventTarget.set_elements s2 ++ late)).
  exists (say post w1). split; [|split].
  - unfold emit, EventTarget.emit, EventTarget.dispatchEvent, bind, gets; simpl.
    rewrite Hs. fold e.
    destruct (Nat.le_exists_sub (length s1 + length s2 + 6) n) as (m & -> & _); [lia|].
    replace (m + (length s1 + length s2 + 6))
      with (length s1 + S (S (S (S (length s2 + m + 2))))) by lia.
    rewrite (forEach_tame_upto (length s1) _ ty 0 e w _ Hs).
    2: { lia. }
    2: { unfold s. rewrite drop_0, take_app_length. intros f Hf.
         apply quiet_tame. by apply Hq1. }
    unfold s at 1. rewrite drop_0, take_app_length. simpl. fold pre.
    rewrite run_forEach. unfold EventTarget.forEach_step, bind, gets; simpl.
    rewrite Hs; simpl. unfold s at 1.
    rewrite lookup_app_r by done. rewrite Nat.sub_diag. simpl.
    unfold try_catch. rewrite run_call. unfold call, bind, modify, gets; simpl.
    rewrite Hbody. simpl. unfold bind, modify, ret; simpl.
    rewrite say_say. fold w1.
    rewrite (forEach_tame (S (length s2)) (length s2 + m + 2) ty (S (length s1)) e w1
               (EventTarget.set_add g s)).
    + by rewrite Hdrop, Hcode1.
    + lia.
    + done.
    + pose proof (length_set_add g s). lia.
    + rewrite Hdrop, Hcode1. intros f Hf. apply quiet_tame. by apply Hlate.
  - unfold since. simpl. rewrite Hlog1, <- app_assoc, drop_app_length.
    rewrite !calls_app. unfold pre, post.
    destruct (dispatch_effect_quiet (code w) e (EventTarget.set_elements s1)) as [-> _];
      [done|].
    destruct (dispatch_effect_quiet (code w) e (EventTarget.set_elements s2 ++ late))
      as [-> _]; [done|].
    by rewrite <- app_assoc.
  - unfold registered_for at 1, entries. simpl. rewrite Hs1. simpl.
    rewrite set_elements_add. unfold late, registered_for. rewrite Hent.
    case_bool_decide; [by rewrite app_nil_r | done].
Qed.

(** The theorem at a hub whose second listener registers a fourth. *)
Lemma listener_added_during_dispatch_witness :
  let w := Pages.hub_with 7 in
  let e := CustomEvent "x" (Payload (VNum 7)) in
  let late := if bool_decide (User 4 ∈ registered_for "x" w) then [] else [User 4] in
  exists w',
    emit 8 "x" (VNum 7) w = Some (Ok tt, w')
    /\ calls (since w w')
       = ((fun f => (f, AEvent e)) <$> EventTarget.set_elements [Some (User 0)])
         ++ (User 7, AEvent e)
            :: ((fun f => (f, AEvent e))
                  <$> (EventTarget.set_elements [Some (User 2)] ++ late))
    /\ registered_for "x" w' = registered_for "x" w ++ late.
Proof.
  apply (listener_added_during_dispatch (Pages.hub_with 7) "x" 7 (User 4) (VNum 7) 8
           [Some (User 0)] [Some (User 2)]).
  - reflexivity.
  - reflexivity.
  - reflexivity.
  - reflexivity.
  - vm_compute. lia.
Defined.

End HubMore.

(** ** The Observable Value Cell: subscriptions, exceptions, configuration *)

Module CellMoreFacts.
Import JsFacts Run Quiet QuietFacts Observe ObserveFacts Sets CellFacts CellSpec HubMoreFacts
  Closures.

Lemma dispatch_effect_app c e (a b : list fn) :
  dispatch_effect c e (a ++ b) = dispatch_effect c e a ++ dispatch_effect c e b.
Proof. unfold dispatch_effect. by rewrite fmap_app, concat_app. Qed.

Lemma well_stamped_next ty w f :
  well_stamped ty w = true -> stamp f = Some (next_closure w) -> f ∉ registered_for ty w.
Proof.
  intros Hw Hf Hin. apply (proj1 (forallb_elem_of _ _) Hw) in Hin.
  unfold allocated in Hin. rewrite Hf in Hin. apply Nat.ltb_lt in Hin. lia.
Qed.

(** What [subscribe] leaves behind. *)
Lemma subscribe_world f w :
  well_stamped "change" w = true ->
  let wrapped := SubscribeWrapper f (next_closure w) in
  StateManager.subscribe f w
  = (wrapped,
     with_sm (set_listeners (<["change" := entries "change" w ++ [Some wrapped]]>
                               (listeners (sm w))))
       (fresh_closure w)).
Proof.
  intros Hw wrapped. unfold StateManager.subscribe. f_equal.
  rewrite addEventListener_eq. simpl.
  change (entries "change" (fresh_closure w)) with (entries "change" w).
  unfold EventTarget.set_add.
  destruct (EventTarget.set_has _ (entries "change" w)) eqn:E; [|done].
  apply set_has_elements in E. by apply well_stamped_next in E.
Qed.

Lemma subscribe_registered f w :
  well_stamped "change" w = true ->
  registered_for "change" (StateManager.subscribe f w).2
  = registered_for "change" w ++ [(StateManager.subscribe f w).1].
Proof.
  intros Hw. rewrite subscribe_world by done. simpl.
  unfold registered_for at 1, entries at 1. simpl. rewrite lookup_insert_eq. simpl.
  by rewrite set_elements_app.
Qed.

Lemma subscribe_well_stamped f w :
  well_stamped "change" w = true ->
  well_stamped "change" (StateManager.subscribe f w).2 = true.
Proof.
  intros Hw. unfold well_stamped. rewrite subscribe_registered by done.
  apply forallb_elem_of. intros g Hg. apply elem_of_app in Hg as [Hg|Hg].
  - apply (proj1 (forallb_elem_of _ _) Hw) in Hg.
    rewrite subscribe_world by done. unfold allocated in *; simpl.
    destruct (stamp g); [|done]. apply Nat.ltb_lt in Hg. apply Nat.ltb_lt. lia.
  - apply list_elem_of_singleton in Hg. subst g.
    rewrite subscribe_world by done. unfold allocated; simpl. apply Nat.ltb_lt. lia.
Qed.

Lemma listener_effect_subscriber c v old f k :
  quiet c f = true ->
  calls (listener_effect c (change v old) (SubscribeWrapper f k))
  = [(SubscribeWrapper f k, AEvent (change v old)); (f, AValue v)].
Proof.
  destruct f as [id| | | | |]; try discriminate. intros _.
  unfold listener_effect, call_effect. simpl.
  destruct (body_effect_notes (AValue v) (c id)) as [Hc _].
  destruct (body_effect (AValue v) (c id)) as [o err]; simpl in *.
  rewrite calls_app, Hc. by destruct err.
Qed.

Lemma tame_subscriber c f k : quiet c f = true -> tame c (SubscribeWrapper f k) = true.
Proof. by destruct f. Qed.

(** [setValue] with a new value and an [onChange] that returns, on a page
    that differs from [w] in the listeners of ["change"] only. *)
Lemma setValue_returns n v w w1 o :
  callback_quiet w = true ->
  callback_effect w v = (o, None) ->
  code w1 = code w -> options (sm w1) = options (sm w) ->
  StateManager.getValue w1 = StateManager.getValue w ->
  strict_eq (StateManager.getValue w) v = false ->
  forallb (tame (code w)) (registered_for "change" w1) = true ->
  3 + length (entries "change" w1) <= n ->
  setValue n v w1
  = Some (Ok tt,
          say (o ++ dispatch_effect (code w) (change v (StateManager.getValue w))
                      (registered_for "change" w1))
              (with_sm (store_value v) w1)).
Proof.
  intros Hcb Hce Hcode Hopt Hval Hne Ht Hn.
  rewrite setValue_closed; try done.
  - rewrite Hval, Hne. unfold callback_effect in *. rewrite Hopt, Hcode, Hce. done.
  - unfold callback_quiet in *. by rewrite Hopt, Hcode.
  - by rewrite Hcode.
Qed.

End CellMoreFacts.

Module ConfigFacts.
Import Run QuietFacts Sets Config.

Lemma same_config_refl w : same_config w w.
Proof. done. Qed.

Lemma same_config_trans w1 w2 w3 :
  same_config w1 w2 -> same_config w2 w3 -> same_config w1 w3.
Proof. intros (? & ? & ?) (? & ? & ?). repeat split; congruence. Qed.

Lemma keeps_ret {A} (a : A) : keeps_config (ret a).
Proof. intros w r w' H. unfold ret in H. by simplify_eq. Qed.

Lemma keeps_throw {A} e : keeps_config (@throw A e).
Proof. intros w r w' H. unfold throw in H. by simplify_eq. Qed.

Lemma keeps_gets {A} (f : world -> A) : keeps_config (gets f).
Proof. intros w r w' H. unfold gets in H. by simplify_eq. Qed.

Lemma keeps_modify (f : world -> world) :
  (forall w, same_config w (f w)) -> keeps_config (modify f).
Proof. intros Hf w r w' H. unfold modify in H. simplify_eq. apply Hf. Qed.

Lemma keeps_bind {A B} (m : M A) (k : A -> M B) :
  keeps_config m -> (forall a, keeps_config (k a)) -> keeps_config (bind m k).
Proof.
  intros Hm Hk w r w' H. unfold bind in H.
  destruct (m w) as [[[a|e] w1]|] eqn:E; try discriminate.
  - eapply same_config_trans; [by eapply Hm | by eapply Hk].
  - simplify_eq. by eapply Hm.
Qed.

Lemma keeps_try_catch {A} (m : M A) (h : error -> M A) :
  keeps_config m -> (forall e, keeps_config (h e)) -> keeps_config (try_catch m h).
Proof.
  intros Hm Hh w r w' H. unfold try_catch in H.
  destruct (m w) as [[[a|e] w1]|] eqn:E; try discriminate.
  - simplify_eq. by eapply Hm.
  - eapply same_config_trans; [by eapply Hm | by eapply Hh].
Qed.

Lemma same_config_add ty f w : same_config w (EventTarget.addEventListener ty f w).
Proof. by rewrite addEventListener_eq. Qed.

Lemma same_config_remove ty f w : same_config w (EventTarget.removeEventListener ty f w).
Proof. rewrite removeEventListener_eq. by destruct (listeners (sm w) !! ty). Qed.

Lemma same_config_once ty f w : same_config w (EventTarget.once ty f w).
Proof. unfold EventTarget.once. by rewrite addEventListener_eq. Qed.

Lemma same_config_subscribe f w : same_config w (StateManager.subscribe f w).2.
Proof. unfold StateManager.subscribe. simpl. by rewrite addEventListener_eq. Qed.

Lemma keeps_open {A} : keeps_config (fun _ : world => @None (result A * world)).
Proof. by intros w r w' H. Qed.

Ltac keep :=
  repeat first
    [ apply keeps_ret
    | apply keeps_open
    | apply keeps_throw
    | apply keeps_gets
    | apply keeps_bind
    | apply keeps_try_catch
    | apply keeps_modify; intros; first
        [ apply same_config_add | apply same_config_remove | apply same_config_once
        | done ]
    | progress intros
    | match goal with
      | H : forall t, keeps_config (?r t) |- keeps_config (?r _) => apply H
      | |- keeps_config (match ?x with _ => _ end) => destruct x
      | |- keeps_config (if ?x then _ else _) => destruct x
      end ].

Section Rec.
Variable rec : task -> M unit.
Hypothesis Hrec : forall t, keeps_config (rec t).

Lemma keeps_dispatchEvent e : keeps_config (EventTarget.dispatchEvent rec e).
Proof. unfold EventTarget.dispatchEvent. keep. Qed.

Lemma keeps_emit ty d : keeps_config (EventTarget.emit rec ty d).
Proof. unfold EventTarget.emit. keep; apply keeps_dispatchEvent. Qed.

Lemma keeps_setValue v : keeps_config (StateManager.setValue rec v).
Proof. unfold StateManager.setValue. keep; apply keeps_dispatchEvent. Qed.

Lemma keeps_set_value v : keeps_config (StateManager.set_value rec v).
Proof. unfold StateManager.set_value. keep; apply keeps_setValue. Qed.

Lemma keeps_updateControlledValue v :
  keeps_config (StateManager.updateControlledValue rec v).
Proof. unfold StateManager.updateControlledValue. keep; apply keeps_dispatchEvent. Qed.

Lemma keeps_invoke_all t e fs : keeps_config (Native.invoke_all rec t e fs).
Proof. induction fs as [|f fs IH]; simpl; keep; apply IH. Qed.

Lemma keeps_native_dispatch t e : keeps_config (Native.dispatchEvent rec t e).
Proof. unfold Native.dispatchEvent. keep; apply keeps_invoke_all. Qed.

Lemma keeps_exec_stmt a s : keeps_config (exec_stmt rec a s).
Proof.
  induction s; simpl; keep;
    first [ apply IHs | apply keeps_emit | apply keeps_set_value | apply keeps_setValue
          | apply keeps_updateControlledValue ].
Qed.

Lemma keeps_exec a body : keeps_config (exec rec a body).
Proof.
  induction body as [|s rest IH]; simpl; keep; first [apply keeps_exec_stmt | apply IH].
Qed.

Lemma keeps_updateDisplay : keeps_config Switch.updateDisplay.
Proof.
  unfold Switch.updateDisplay, Switch.getChecked, Switch.the_checkedState,
    Switch.the_elements, Switch.the_node, Switch.toString, Component.setDataAttribute,
    Component.setAttribute.
  keep.
Qed.

Lemma keeps_call f a : keeps_config (call rec f a).
Proof.
  unfold call. apply keeps_bind; [by apply keeps_modify|]. intros _.
  destruct f.
  - keep; apply keeps_exec.
  - unfold EventTarget.once_wrapper. keep.
  - unfold StateManager.subscribe_wrapper. keep.
  - unfold Label.handleMouseDown. keep.
  - unfold Switch.checked_subscriber, Component.dispatchEvent.
    apply keeps_bind; [apply keeps_updateDisplay|]. intros _. apply keeps_native_dispatch.
  - unfold Switch.handleClick, Switch.getChecked, Switch.the_checkedState.
    keep; apply keeps_setValue.
Qed.

Lemma keeps_forEach_step ty i e : keeps_config (EventTarget.forEach_step rec ty i e).
Proof. unfold EventTarget.forEach_step, EventTarget.console_error. keep. Qed.
End Rec.

Lemma keeps_run n : forall t, keeps_config (run n t).
Proof.
  induction n as [|n IH]; intros t; [by intros w r w' H|].
  destruct t as [f a|ty i e].
  - rewrite run_call. by apply keeps_call.
  - rewrite run_forEach. by apply keeps_forEach_step.
Qed.

End ConfigFacts.

Module CellMore.
Import JsFacts Run Quiet QuietFacts Observe ObserveFacts Sets CellFacts CellSpec HubMoreFacts
  Closures CellMoreFacts Config ConfigFacts.

(** X6: [subscribe(f)] adds one listener of ["change"]; on the next change
    of value [f] is called after the earlier subscribers, with the bare new
    value.  The function [subscribe] returns removes that subscription and
    nothing else.  Subscribing the same function twice gives two
    subscriptions: [f] is then called twice per change, and unsubscribing
    the first leaves the second in place. *)
Theorem subscribe_unsubscribe (w : world) (f : fn) (v : value) (n : nat) :
  callback_quiet w = true ->
  (callback_effect w v).2 = None ->
  forallb (tame (code w)) (registered_for "change" w) = true ->
  quiet (code w) f = true ->
  well_stamped "change" w = true ->
  strict_eq (StateManager.getValue w) v = false ->
  5 + length (entries "change" w) <= n ->
  let old := registered_for "change" w in
  let e := change v (StateManager.getValue w) in
  let g1 := (StateManager.subscribe f w).1 in
  let w1 := (StateManager.subscribe f w).2 in
  let g2 := (StateManager.subscribe f w1).1 in
  let w2 := (StateManager.subscribe f w1).2 in
  exists w0,
    setValue n v w = Some (Ok tt, w0)
    /\ registered_for "change" w1 = old ++ [g1]
    /\ (exists w', setValue n v w1 = Some (Ok tt, w')
                   /\ calls (since w1 w')
                      = calls (since w w0) ++ [(g1, AEvent e); (f, AValue v)])
    /\ registered_for "change" (StateManager.unsubscribe g1 w1) = old
    /\ (exists w', setValue n v (StateManager.unsubscribe g1 w1) = Some (Ok tt, w')
                   /\ since (StateManager.unsubscribe g1 w1) w' = since w w0)
    /\ g1 <> g2
    /\ registered_for "change" w2 = old ++ [g1; g2]
    /\ (exists w', setValue n v w2 = Some (Ok tt, w')
                   /\ calls (since w2 w')
                      = calls (since w w0)
                        ++ [(g1, AEvent e); (f, AValue v); (g2, AEvent e); (f, AValue v)])
    /\ registered_for "change" (StateManager.unsubscribe g1 w2) = old ++ [g2].
Proof.
  intros Hcb Hret Ht Hf Hw Hne Hn old e g1 w1 g2 w2.
  destruct (callback_effect w v) as [o err] eqn:Hce. simpl in Hret. subst err.
  assert (Hw1 : well_stamped "change" w1 = true) by (by apply subscribe_well_stamped).
  pose proof (subscribe_registered f w Hw) as Hreg1. fold w1 g1 old in Hreg1.
  pose proof (subscribe_registered f w1 Hw1) as Hreg2. fold w2 g2 in Hreg2.
  rewrite Hreg1, <- app_assoc in Hreg2. simpl in Hreg2.
  pose proof (subscribe_world f w Hw) as E1.
  pose proof (subscribe_world f w1 Hw1) as E2. simpl in E1, E2.
  assert (Hg1 : g1 = SubscribeWrapper f (next_closure w)) by (unfold g1; by rewrite E1).
  assert (Hg2 : g2 = SubscribeWrapper f (next_closure w1)) by (unfold g2; by rewrite E2).
  assert (Hnext : next_closure w1 = S (next_closure w)) by (unfold w1; by rewrite E1).
  assert (Hne12 : g1 <> g2) by (rewrite Hg1, Hg2, Hnext; intros ?; simplify_eq; lia).
  assert (Hin1 : g1 ∉ old).
  { rewrite Hg1. by apply well_stamped_next. }
  assert (Hin2 : g2 ∉ old).
  { intros Hin. assert (Hin' : g2 ∈ registered_for "change" w1)
      by (rewrite Hreg1; apply elem_of_app; by left).
    revert Hin'. rewrite Hg2. by apply well_stamped_next. }
  assert (Hent1 : entries "change" w1 = entries "change" w ++ [Some g1]).
  { unfold w1. rewrite E1. unfold entries at 1. simpl. rewrite lookup_insert_eq. simpl.
    by rewrite Hg1. }
  assert (Hent2 : entries "change" w2 = (entries "change" w ++ [Some g1]) ++ [Some g2]).
  { unfold w2. rewrite E2. unfold entries at 1. simpl. rewrite lookup_insert_eq. simpl.
    by rewrite Hent1, Hg2. }
  assert (Hsame1 : code w1 = code w /\ options (sm w1) = options (sm w)
                   /\ StateManager.getValue w1 = StateManager.getValue w /\ log w1 = log w).
  { unfold w1. by rewrite E1. }
  destruct Hsame1 as (Hc1 & Ho1 & Hv1 & Hl1).
  assert (Hsame2 : code w2 = code w /\ options (sm w2) = options (sm w)
                   /\ StateManager.getValue w2 = StateManager.getValue w /\ log w2 = log w).
  { unfold w2. rewrite E2. simpl. done. }
  destruct Hsame2 as (Hc2 & Ho2 & Hv2 & Hl2).
  assert (Htg1 : tame (code w) g1 = true) by (rewrite Hg1; by apply tame_subscriber).
  assert (Htg2 : tame (code w) g2 = true) by (rewrite Hg2; by apply tame_subscriber).
  pose proof (proj1 (forallb_elem_of _ _) Ht) as Ht'.
  assert (Hcg : forall g, calls (listener_effect (code w) e (SubscribeWrapper f g))
                          = [(SubscribeWrapper f g, AEvent e); (f, AValue v)]).
  { intros g. by apply listener_effect_subscriber. }
  set (u1 := StateManager.unsubscribe g1 w1).
  assert (Hentu : entries "change" u1 = EventTarget.set_delete g1 (entries "change" w1)).
  { unfold u1, StateManager.unsubscribe. by rewrite entries_remove. }
  assert (Hregu : registered_for "change" u1 = old).
  { unfold registered_for at 1. rewrite Hentu, set_elements_delete.
    fold (registered_for "change" w1). rewrite Hreg1, filter_app.
    rewrite filter_ne_absent by done.
    rewrite filter_cons_False by (intros H; by apply H). apply app_nil_r. }
  assert (Hsameu : code u1 = code w /\ options (sm u1) = options (sm w)
                   /\ StateManager.getValue u1 = StateManager.getValue w /\ log u1 = log w).
  { unfold u1, StateManager.unsubscribe. rewrite removeEventListener_eq.
    destruct (listeners (sm w1) !! "change"); simpl; done. }
  destruct Hsameu as (Hcu & Hou & Hvu & Hlu).
  eexists. split; [apply (setValue_returns n v w w o); try done; lia|].
  rewrite since_say_log by done.
  split; [done|]. split; [|split; [done|split; [|split; [done|split; [done|split]]]]].
  - eexists. split.
    + apply (setValue_returns n v w w1 o); try done.
      * apply forallb_elem_of. intros g Hg. rewrite Hreg1 in Hg.
        apply elem_of_app in Hg as [Hg|Hg]; [by apply Ht'|].
        apply list_elem_of_singleton in Hg. by subst.
      * rewrite Hent1, length_app. simpl. lia.
    + rewrite since_say_log by done. rewrite Hreg1, dispatch_effect_app.
      rewrite app_assoc, calls_app. f_equal.
      unfold dispatch_effect; simpl. rewrite app_nil_r, Hg1. apply Hcg.
  - eexists. split.
    + apply (setValue_returns n v w u1 o); try done.
      * by rewrite Hregu.
      * rewrite Hentu, length_set_delete, Hent1, length_app. simpl. lia.
    + rewrite since_say_log by done. by rewrite Hregu.
  - eexists. split.
    + apply (setValue_returns n v w w2 o); try done.
      * apply forallb_elem_of. intros g Hg. rewrite Hreg2 in Hg.
        apply elem_of_app in Hg as [Hg|Hg]; [by apply Ht'|].
        apply elem_of_cons in Hg as [->|Hg]; [done|].
        apply list_elem_of_singleton in Hg. by subst.
      * rewrite Hent2, !length_app. simpl. lia.
    + rewrite since_say_log by done. rewrite Hreg2, dispatch_effect_app.
      rewrite app_assoc, calls_app. f_equal.
      unfold dispatch_effect; simpl. rewrite app_nil_r, calls_app, Hg1, Hg2, !Hcg. done.
  - unfold StateManager.unsubscribe, registered_for at 1.
    rewrite entries_remove, set_elements_delete.
    fold (registered_for "change" w2). rewrite Hreg2, filter_app.
    rewrite filter_ne_absent by done.
    rewrite filter_cons_False by (intros H; by apply H).
    rewrite filter_cons_True by (intros H; by apply Hne12). done.
Qed.

(** The theorem at an uncontrolled cell holding [false], set to [true]. *)
Lemma subscribe_unsubscribe_witness :
  let w := Scenes.uncontrolled_page in
  let f := User 0 in
  let v := VBool true in
  let old := registered_for "change" w in
  let e := change v (StateManager.getValue w) in
  let g1 := (StateManager.subscribe f w).1 in
  let w1 := (StateManager.subscribe f w).2 in
  let g2 := (StateManager.subscribe f w1).1 in
  let w2 := (StateManager.subscribe f w1).2 in
  exists w0,
    setValue 6 v w = Some (Ok tt, w0)
    /\ registered_for "change" w1 = old ++ [g1]
    /\ (exists w', setValue 6 v w1 = Some (Ok tt, w')
                   /\ calls (since w1 w')
                      = calls (since w w0) ++ [(g1, AEvent e); (f, AValue v)])
    /\ registered_for "change" (StateManager.unsubscribe g1 w1) = old
    /\ (exists w', setValue 6 v (StateManager.unsubscribe g1 w1) = Some (Ok tt, w')
                   /\ since (StateManager.unsubscribe g1 w1) w' = since w w0)
    /\ g1 <> g2
    /\ registered_for "change" w2 = old ++ [g1; g2]
    /\ (exists w', setValue 6 v w2 = Some (Ok tt, w')
                   /\ calls (since w2 w')
                      = calls (since w w0)
                        ++ [(g1, AEvent e); (f, AValue v); (g2, AEvent e); (f, AValue v)])
    /\ registered_for "change" (StateManager.unsubscribe g1 w2) = old ++ [g2].
Proof.
  apply (subscribe_unsubscribe Scenes.uncontrolled_page (User 0) (VBool true) 6).
  - reflexivity.
  - reflexivity.
  - reflexivity.
  - reflexivity.
  - reflexivity.
  - reflexivity.
  - vm_compute. lia.
Defined.

(** X7: when [onChange] throws, [setValue] passes the exception on to its
    caller; by then the new value is stored, and no listener of ["change"]
    has been notified.  A second [setValue] with the same value is a no-op,
    so the subscribers never hear of the change. *)
Theorem setValue_onChange_throws (w : world) (v : value) (x : error) (n : nat) :
  callback_quiet w = true ->
  (callback_effect w v).2 = Some x ->
  forallb (tame (code w)) (registered_for "change" w) = true ->
  strict_eq (StateManager.getValue w) v = false ->
  3 + length (entries "change" w) <= n ->
  exists cb w',
    onChange (options (sm w)) = Some cb
    /\ setValue n v w = Some (Throws x, w')
    /\ StateManager.getValue w' = v
    /\ calls (since w w') = [(cb, AValue v)]
    /\ notified (change v (StateManager.getValue w)) (since w w') = []
    /\ (strict_eq v v = true -> setValue n v w' = Some (Ok tt, w')).
Proof.
  intros Hcb Hthrow Ht Hne Hn.
  pose proof (setValue_closed n v w Hcb Ht Hn) as Hset. rewrite Hne in Hset.
  pose proof (notified_callback_effect w v (change v (StateManager.getValue w)) Hcb) as Hnot.
  unfold callback_quiet, callback_effect in *.
  destruct (onChange (options (sm w))) as [cb|] eqn:Hon; [|discriminate].
  destruct (call_effect (code w) cb (AValue v)) as [o err] eqn:Hce.
  simpl in *. subst err.
  exists cb, (say o (with_sm (store_value v) w)).
  split; [done|]. split; [done|]. split; [done|].
  rewrite since_say_log by done. split; [|split; [done|]].
  - destruct cb as [id| | | | |]; try discriminate.
    unfold call_effect in Hce.
    destruct (body_effect_notes (AValue v) (code w id)) as [Hc _].
    destruct (body_effect (AValue v) (code w id)) as [o' err']; simpl in *.
    simplify_eq. simpl. by rewrite Hc.
  - intros Hv. by apply setValue_same.
Qed.

(** The theorem at a cell whose [onChange] throws. *)
Lemma setValue_onChange_throws_witness :
  exists cb w',
    onChange (options (sm Pages.throwing_page)) = Some cb
    /\ setValue 4 (VBool true) Pages.throwing_page = Some (Throws (Error "boom"), w')
    /\ StateManager.getValue w' = VBool true
    /\ calls (since Pages.throwing_page w') = [(cb, AValue (VBool true))]
    /\ notified (change (VBool true) (StateManager.getValue Pages.throwing_page))
         (since Pages.throwing_page w') = []
    /\ (strict_eq (VBool true) (VBool true) = true ->
          setValue 4 (VBool true) w' = Some (Ok tt, w')).
Proof.
  apply (setValue_onChange_throws Pages.throwing_page (VBool true) (Error "boom") 4).
  - reflexivity.
  - reflexivity.
  - reflexivity.
  - reflexivity.
  - vm_compute. lia.
Defined.

(** X8: whatever the listeners of ["change"] do, their exceptions never
    reach the caller of a set: [updateControlledValue] never throws, the
    [value] setter of a controlled cell never throws, and an exception
    that leaves [setValue] is the one [onChange] threw. *)
Theorem only_onChange_makes_setValue_throw :
  (forall k v w x w', updateControlledValue k v w <> Some (Throws x, w'))
  /\ (forall k v w x w',
        StateManager.isControlledState w = true ->
        set_value k v w <> Some (Throws x, w'))
  /\ (forall k v w x w',
        setValue k v w = Some (Throws x, w') ->
        exists cb,
          onChange (options (sm w)) = Some cb
          /\ run k (TCall cb (AValue v)) (with_sm (store_value v) w)
             = Some (Throws x, w')).
Proof.
  split; [|split].
  - intros k v w x w'.
    unfold updateControlledValue, StateManager.updateControlledValue, bind, gets; simpl.
    destruct (StateManager.isControlledState w); simpl; [|discriminate].
    unfold modify; simpl.
    change (EventTarget.dispatchEvent (run k) ?e) with (dispatchEvent k e).
    destruct (dispatchEvent k _ _) as [[[b|y] w1]|] eqn:E; try discriminate.
    by apply dispatchEvent_no_throw in E.
  - intros k v w x w' Hc. destruct (set_value_controlled k v w Hc) as [msg ->].
    discriminate.
  - intros k v w x w'.
    unfold setValue, StateManager.setValue, bind, gets; simpl.
    destruct (strict_eq (StateManager.getValue w) v); [discriminate|].
    unfold modify; simpl.
    change (EventTarget.dispatchEvent (run k) ?e) with (dispatchEvent k e).
    destruct (onChange (options (sm w))) as [cb|].
    + destruct (run k (TCall cb (AValue v)) _) as [[[[]|y] w1]|] eqn:E.
      * destruct (dispatchEvent k _ w1) as [[[b|z] w2]|] eqn:E2; try discriminate.
        by apply dispatchEvent_no_throw in E2.
      * intros ?; simplify_eq. by exists cb.
      * discriminate.
    + unfold ret; simpl.
      destruct (dispatchEvent k _ _) as [[[b|z] w2]|] eqn:E2; try discriminate.
      by apply dispatchEvent_no_throw in E2.
Qed.

(** X9: [NaN] is not identical to itself, so the guard of [setValue] never
    holds for it: setting [NaN] on a cell that already holds [NaN] invokes
    [onChange] and notifies every subscriber again. *)
Theorem setValue_NaN_always_notifies (w : world) (n : nat) :
  callback_quiet w = true ->
  (callback_effect w VNaN).2 = None ->
  forallb (tame (code w)) (registered_for "change" w) = true ->
  3 + length (entries "change" w) <= n ->
  exists w1 w2,
    setValue n VNaN w = Some (Ok tt, w1)
    /\ StateManager.getValue w1 = VNaN
    /\ setValue n VNaN w1 = Some (Ok tt, w2)
    /\ StateManager.getValue w2 = VNaN
    /\ notified (change VNaN VNaN) (since w1 w2) = registered_for "change" w
    /\ since w1 w2 = (callback_effect w VNaN).1
                     ++ dispatch_effect (code w) (change VNaN VNaN)
                          (registered_for "change" w).
Proof.
  intros Hcb Hret Ht Hn.
  assert (Hne : forall x, strict_eq x VNaN = false) by (by intros []).
  destruct (callback_effect w VNaN) as [o err] eqn:Hce. simpl in Hret. subst err.
  set (w1 := say (o ++ dispatch_effect (code w) (change VNaN (StateManager.getValue w))
                        (registered_for "change" w))
                 (with_sm (store_value VNaN) w)).
  assert (E1 : setValue n VNaN w = Some (Ok tt, w1)).
  { rewrite setValue_closed by done. by rewrite Hne, Hce. }
  assert (E2 : setValue n VNaN w1
               = Some (Ok tt,
                       say (o ++ dispatch_effect (code w) (change VNaN VNaN)
                                   (registered_for "change" w))
                           (with_sm (store_value VNaN) w1))).
  { rewrite setValue_closed by done. rewrite Hne.
    change (callback_effect w1 VNaN) with (callback_effect w VNaN). by rewrite Hce. }
  exists w1. eexists. split; [done|]. split; [done|]. split; [exact E2|]. split; [done|].
  rewrite since_say_log by done. split; [|done].
  rewrite notified_app, dispatch_effect_tame by (by apply forallb_elem_of).
  pose proof (notified_callback_effect w VNaN (change VNaN VNaN) Hcb) as Hn0.
  rewrite Hce in Hn0. simpl in Hn0. by rewrite Hn0.
Qed.

(** The theorem at an uncontrolled cell. *)
Lemma setValue_NaN_always_notifies_witness :
  let w := Scenes.uncontrolled_page in
  exists w1 w2,
    setValue 4 VNaN w = Some (Ok tt, w1)
    /\ StateManager.getValue w1 = VNaN
    /\ setValue 4 VNaN w1 = Some (Ok tt, w2)
    /\ StateManager.getValue w2 = VNaN
    /\ notified (change VNaN VNaN) (since w1 w2) = registered_for "change" w
    /\ since w1 w2 = (callback_effect w VNaN).1
                     ++ dispatch_effect (code w) (change VNaN VNaN)
                          (registered_for "change" w).
Proof.
  apply (setValue_NaN_always_notifies Scenes.uncontrolled_page 4).
  - reflexivity.
  - reflexivity.
  - reflexivity.
  - vm_compute. lia.
Defined.

(** X10: whether a cell is controlled is decided when it is constructed.
    No program a user runs against the cell and its hub (setting,
    updating, assigning, registering, removing or emitting, with all the
    callbacks that triggers) changes [isControlledState()] or the options,
    and neither does a later [subscribe]. *)
Theorem controlled_mode_is_fixed
    (n : nat) (program : list stmt) (a : arg) (w : world) (r : result unit) (w' : world) :
  exec (run n) a program w = Some (r, w') ->
  StateManager.isControlledState w' = StateManager.isControlledState w
  /\ options (sm w') = options (sm w)
  /\ forall f,
       StateManager.isControlledState (StateManager.subscribe f w').2
       = StateManager.isControlledState w.
Proof.
  intros H. apply keeps_exec in H; [|apply keeps_run].
  destruct H as (Hc & Ho & _). split; [done|]. split; [done|].
  intros f. destruct (same_config_subscribe f w') as (Hc' & _).
  unfold StateManager.isControlledState. congruence.
Qed.

(** The theorem for a program run on a controlled cell. *)
Lemma controlled_mode_is_fixed_witness :
  let w := Scenes.controlled_page in
  let w' := Scenes.after (exec (run 6) (AValue VUndefined) Pages.program) w in
  StateManager.getValue w' = VBool false
  /\ StateManager.isControlledState w' = StateManager.isControlledState w
  /\ options (sm w') = options (sm w)
  /\ forall f,
       StateManager.isControlledState (StateManager.subscribe f w').2
       = StateManager.isControlledState w.
Proof.
  split; [reflexivity|].
  apply (controlled_mode_is_fixed 6 Pages.program (AValue VUndefined)
           Scenes.controlled_page (Ok tt)).
  vm_compute. reflexivity.
Defined.

End CellMore.

(** ** The Widget Lifecycle Base: tracking, elements, and the Label *)

Module LifecycleMoreFacts.
Import Run Observe ObserveFacts Tracking Elements.

Lemma filter_all {A} (P : A -> Prop) `{forall x, Decision (P x)} (l : list A) :
  (forall x, x ∈ l -> P x) -> filter P l = l.
Proof.
  induction l as [|x l IH]; intros Hall; [done|].
  rewrite filter_cons_True by (apply Hall; left).
  f_equal. apply IH. intros y Hy. apply Hall. by right.
Qed.

Lemma registered_remove_set ev s : forall d,
  registered (foldl (fun d l => Native.removeEventListener Own ev l d) d s)
  = filter (fun r : target * string * fn => ~ (r.1 = (Own, ev) /\ r.2 ∈ s)) (registered d).
Proof.
  induction s as [|l s IH]; intros d; simpl.
  - symmetry. apply filter_all. intros r _ [_ H]. by apply elem_of_nil in H.
  - rewrite IH. unfold Native.removeEventListener at 1. simpl.
    rewrite list_filter_filter. apply list_filter_iff. intros [[t ty] f]. simpl.
    split.
    + intros [H1 H2] [H3 H4]. apply elem_of_cons in H4 as [->|H4]; [|by apply H1].
      apply H2. by simplify_eq.
    + intros H. split.
      * intros [H1 H2]. apply H. split; [done|]. by right.
      * intros ?; simplify_eq. apply H. split; [done|]. by left.
Qed.

Lemma registered_remove_tracked m : forall d,
  registered (Component.remove_tracked m d)
  = filter (fun r => swept m r = false) (registered d).
Proof.
  unfold Component.remove_tracked.
  induction m as [|[ev s] m IH]; intros d; simpl.
  - symmetry. apply filter_all. intros [[t ty] f] _.
    unfold swept, is_tracked. apply andb_false_iff. right.
    apply bool_decide_eq_false. intros H. by apply Exists_nil in H.
  - rewrite IH, registered_remove_set, list_filter_filter.
    apply list_filter_iff. intros [[t ty] f].
    unfold swept, is_tracked; simpl. rewrite !andb_false_iff, !bool_decide_eq_false.
    rewrite Exists_cons. simpl. split.
    + intros [[H1|H1] H2]; [by left|].
      destruct (decide (t = Own)) as [->|Ht]; [|by left]. right.
      intros [[-> Hf]|H3]; [|done]. by apply H2.
    + intros [H1|H1].
      * split; [by left|]. intros [? _]. apply H1. by simplify_eq.
      * split; [right; intros H; apply H1; by right|].
        intros [? Hf]. simplify_eq. apply H1. by left.
Qed.

Lemma listeners_of_nil t ty d :
  (forall r, r ∈ registered d -> r.1 <> (t, ty)) -> Native.listeners_of t ty d = [].
Proof.
  unfold Native.listeners_of. induction (registered d) as [|r rs IH]; intros H; [done|].
  change (omap ?g (?x :: ?l)) with (match g x with
                                    | Some y => y :: omap g l
                                    | None => omap g l
                                    end).
  cbv beta. rewrite bool_decide_eq_false_2 by (apply H; left).
  apply IH. intros r' Hr'. apply H. by right.
Qed.

Lemma track_keys ev f m :
  (Component.track ev f m).*1 = if bool_decide (ev ∈ m.*1) then m.*1 else m.*1 ++ [ev].
Proof.
  induction m as [|[ev' s] m IH]; [done|].
  change (((ev', s) :: m).*1) with (ev' :: m.*1). simpl Component.track.
  destruct (decide (ev' = ev)) as [->|Hne].
  - rewrite (bool_decide_eq_true_2 (ev = ev)) by done.
    rewrite (bool_decide_eq_true_2 (ev ∈ ev :: m.*1)) by left. done.
  - rewrite (bool_decide_eq_false_2 (ev' = ev)) by done.
    change (((ev', s) :: Component.track ev f m).*1)
      with (ev' :: (Component.track ev f m).*1).
    rewrite IH. destruct (decide (ev ∈ m.*1)) as [Hin|Hin].
    + rewrite (bool_decide_eq_true_2 (ev ∈ m.*1)) by done.
      rewrite (bool_decide_eq_true_2 (ev ∈ ev' :: m.*1)) by (by right). done.
    + rewrite (bool_decide_eq_false_2 (ev ∈ m.*1)) by done.
      rewrite (bool_decide_eq_false_2 (ev ∈ ev' :: m.*1)); [done|].
      intros H. apply elem_of_cons in H as [->|H]; done.
Qed.

Lemma NoDup_track ev f m : NoDup m.*1 -> NoDup (Component.track ev f m).*1.
Proof.
  intros H. rewrite track_keys. case_bool_decide; [done|].
  apply NoDup_app. split; [done|]. split; [|apply NoDup_singleton].
  intros x Hx Hx'. apply list_elem_of_singleton in Hx'. by subst.
Qed.

Lemma is_tracked_untrack ev f m :
  NoDup m.*1 -> is_tracked ev f (Component.untrack ev f m) = false.
Proof.
  unfold is_tracked. intros Hnd. apply bool_decide_eq_false.
  induction m as [|[ev' s] m IH]; [intros H; by apply Exists_nil in H|].
  change (((ev', s) :: m).*1) with (ev' :: m.*1) in Hnd.
  apply NoDup_cons in Hnd as [Hev Hnd]. simpl Component.untrack.
  destruct (decide (ev' = ev)) as [->|Hne].
  - rewrite (bool_decide_eq_true_2 (ev = ev)) by done.
    intros Hex. apply Exists_cons in Hex as [[_ Hf]|Hex]; simpl in *.
    + by apply list_elem_of_filter in Hf as [Hf _].
    + apply Exists_exists in Hex as ([ev' s'] & Hin & Hev' & _). simpl in *. subst.
      apply Hev. apply list_elem_of_fmap. by exists (ev, s').
  - rewrite (bool_decide_eq_false_2 (ev' = ev)) by done.
    intros Hex. apply Exists_cons in Hex as [[Hev' _]|Hex]; [done|]. by apply IH.
Qed.

Lemma has_listener_add t ty f d :
  Native.has_listener t ty f (Native.addEventListener t ty f d) = true.
Proof.
  unfold Native.addEventListener. destruct (Native.has_listener t ty f d) eqn:E; [done|].
  unfold Native.has_listener. simpl. apply bool_decide_eq_true, elem_of_app. right. by left.
Qed.

Lemma has_listener_add_other r t ty f d :
  Native.has_listener r.1.1 r.1.2 r.2 d = true ->
  Native.has_listener r.1.1 r.1.2 r.2 (Native.addEventListener t ty f d) = true.
Proof.
  intros H. unfold Native.addEventListener.
  destruct (Native.has_listener t ty f d); [done|].
  unfold Native.has_listener in *. simpl. apply bool_decide_eq_true in H.
  apply bool_decide_eq_true, elem_of_app. by left.
Qed.

Lemma has_listener_remove t ty f d :
  Native.has_listener t ty f (Native.removeEventListener t ty f d) = false.
Proof.
  unfold Native.has_listener, Native.removeEventListener. simpl.
  apply bool_decide_eq_false. intros H. by apply list_elem_of_filter in H as [H _].
Qed.

Lemma has_listener_remove_other t' t ty f d :
  t' <> t ->
  Native.has_listener t' ty f (Native.removeEventListener t ty f d)
  = Native.has_listener t' ty f d.
Proof.
  intros Hne. unfold Native.has_listener, Native.removeEventListener. simpl.
  apply bool_decide_ext. rewrite list_elem_of_filter. split; [by intros [_ ?]|].
  intros H. split; [|done]. intros ?; simplify_eq.
Qed.

Lemma registered_add t ty f d r :
  r ∈ registered (Native.addEventListener t ty f d) ->
  r ∈ registered d \/ r = (t, ty, f).
Proof.
  unfold Native.addEventListener. destruct (Native.has_listener t ty f d); [by left|].
  simpl. intros H. apply elem_of_app in H as [H|H]; [by left|].
  right. by apply list_elem_of_singleton in H.
Qed.

Lemma listeners_of_add_new t ty f d :
  Native.listeners_of t ty d = [] ->
  Native.listeners_of t ty (Native.addEventListener t ty f d) = [f].
Proof.
  intros Hnil. unfold Native.addEventListener.
  destruct (Native.has_listener t ty f d) eqn:E.
  - unfold Native.has_listener in E. apply bool_decide_eq_true in E.
    assert (Hin : f ∈ Native.listeners_of t ty d).
    { unfold Native.listeners_of. apply list_elem_of_omap. exists (t, ty, f).
      split; [done|]. simpl. by rewrite bool_decide_eq_true_2. }
    rewrite Hnil in Hin. by apply elem_of_nil in Hin.
  - unfold Native.listeners_of in *. simpl. rewrite omap_app, Hnil. simpl.
    by rewrite bool_decide_eq_true_2.
Qed.













End LifecycleMoreFacts.

Module LifecycleMore.
Import Run Observe ObserveFacts SwitchFacts Tracking Elements Examples Scenes LifecycleMoreFacts.

(** X11: what [destroy] removes.  On a widget that is not yet destroyed,
    [destroy] (of a Label, or of a Switch with its cleanup hook) removes
    from the private event target exactly the registrations whose event
    name and listener are tracked, and no registration of any other
    target; it empties the tracking map and sets the destroyed flag.  If
    every listener of the private target is tracked, none is left, and a
    later [dispatchEvent] of the widget reaches no one. *)
Theorem destroy_sweeps_own_target (w : world) (hook : option (M unit)) :
  Component.isDestroyed w = false ->
  hook = None \/ hook = Some Switch.cleanup ->
  exists w',
    Component.destroy hook w = Some (Ok tt, w')
    /\ registered (dom w')
       = filter (fun r => swept (tracked (widget w)) r = false) (registered (dom w))
    /\ tracked (widget w') = []
    /\ Component.isDestroyed w' = true
    /\ (own_tracked w = true ->
          (forall ev, Native.listeners_of Own ev (dom w') = [])
          /\ forall n e, Component.dispatchEvent (run n) e w' = Some (Ok tt, w')).
Proof.
  unfold Component.isDestroyed. intros Hlive Hhook.
  assert (Hown : forall w', 
            registered (dom w')
            = filter (fun r => swept (tracked (widget w)) r = false) (registered (dom w)) ->
            own_tracked w = true ->
            (forall ev, Native.listeners_of Own ev (dom w') = [])
            /\ forall n e, Component.dispatchEvent (run n) e w' = Some (Ok tt, w')).
  { intros w' Hreg Hall.
    assert (Hnil : forall ev, Native.listeners_of Own ev (dom w') = []).
    { intros ev. apply listeners_of_nil. rewrite Hreg. intros [[t ty] f] Hr Heq.
      apply list_elem_of_filter in Hr as [Hsw Hr]. simpl in Heq. simplify_eq.
      apply (proj1 (forallb_elem_of _ _) Hall) in Hr.
      unfold swept in Hsw. simpl in Hsw, Hr.
      by destruct (is_tracked _ _ _). }
    split; [done|]. intros n e.
    unfold Component.dispatchEvent, Native.dispatchEvent, bind, gets. simpl.
    by rewrite Hnil. }
  set (w1 := with_widget (Component.set_tracked [])
               (with_dom (Component.remove_tracked (tracked (widget w)))
                  (with_widget (Component.set_destroyed true) w))).
  assert (Hreg1 : registered (dom w1)
                  = filter (fun r => swept (tracked (widget w)) r = false)
                      (registered (dom w))).
  { unfold w1. simpl. by rewrite registered_remove_tracked. }
  destruct Hhook as [->| ->].
  - exists w1. split.
    + unfold Component.destroy, bind, gets, modify, ret. by rewrite Hlive.
    + split; [done|]. split; [done|]. split; [done|]. by apply Hown.
  - exists (with_widget (Switch.set_elements None)
              (with_widget (Switch.set_checkedState None) w1)).
    split.
    + unfold Component.destroy, Switch.cleanup, bind, gets, modify, ret. by rewrite Hlive.
    + split; [done|]. split; [done|]. split; [done|]. by apply Hown.
Qed.

(** The theorem at a page with one custom and one DOM listener. *)
Lemma destroy_sweeps_own_target_witness :
  own_tracked Pages.tracked_page = true
  /\ exists w',
    Component.destroy None Pages.tracked_page = Some (Ok tt, w')
    /\ registered (dom w')
       = filter (fun r => swept (tracked (widget Pages.tracked_page)) r = false)
           (registered (dom Pages.tracked_page))
    /\ tracked (widget w') = []
    /\ Component.isDestroyed w' = true
    /\ (own_tracked Pages.tracked_page = true ->
          (forall ev, Native.listeners_of Own ev (dom w') = [])
          /\ forall n e, Component.dispatchEvent (run n) e w' = Some (Ok tt, w')).
Proof.
  split; [by vm_compute|].
  apply (destroy_sweeps_own_target Pages.tracked_page None).
  - reflexivity.
  - by left.
Defined.

(** X12: the tracking map is keyed by the event name alone.  Adding a
    listener registers and tracks it, and removing it from the same target
    undoes both.  But when the same listener is added for the same event
    on two targets, removing it from the first also drops it from the
    tracking map, although it stays registered on the second; [destroy]
    will then not remove it. *)
Theorem tracking_ignores_target (w : world) (t1 t2 : target) (ev : string) (f : fn) :
  t1 <> t2 ->
  NoDup (tracked (widget w)).*1 ->
  let on t := Component.addEventListener t ev f in
  let off t := Component.removeEventListener t ev f in
  let w' := off t1 (on t2 (on t1 w)) in
  (Native.has_listener t1 ev f (dom (on t1 w)) = true
   /\ is_tracked ev f (tracked (widget (on t1 w))) = true)
  /\ (Native.has_listener t1 ev f (dom (off t1 (on t1 w))) = false
      /\ is_tracked ev f (tracked (widget (off t1 (on t1 w)))) = false)
  /\ Native.has_listener t1 ev f (dom w') = false
  /\ Native.has_listener t2 ev f (dom w') = true
  /\ is_tracked ev f (tracked (widget w')) = false
  /\ swept (tracked (widget w')) (t2, ev, f) = false.
Proof.
  intros Hne Hnd on off w'.
  assert (Htr : forall m, is_tracked ev f (Component.track ev f m) = true).
  { intros m. unfold is_tracked. apply bool_decide_eq_true.
    induction m as [|[ev' s] m IH]; simpl.
    - apply Exists_cons. left. simpl. split; [done|]. by left.
    - case_bool_decide as E; subst; apply Exists_cons.
      + left. simpl. split; [done|]. case_bool_decide; [done|].
        apply elem_of_app. right. by left.
      + by right. }
  assert (Hun : is_tracked ev f (tracked (widget w')) = false).
  { unfold w', off, on. simpl. apply is_tracked_untrack. by do 2 apply NoDup_track. }
  split; [|split; [|split; [|split; [|split]]]]; try done.
  - split; [apply has_listener_add | apply Htr].
  - split; [apply has_listener_remove|].
    unfold off, on. simpl. apply is_tracked_untrack. by apply NoDup_track.
  - apply has_listener_remove.
  - unfold w', off, on. simpl. rewrite has_listener_remove_other by done.
    apply has_listener_add.
  - unfold swept. apply andb_false_iff. by right.
Qed.

(** The theorem for an element and the private event target. *)
Lemma tracking_ignores_target_witness :
  let w := Examples.page Scenes.bodies Examples.hub in
  let on t := Component.addEventListener t "opened" (User 0) in
  let off t := Component.removeEventListener t "opened" (User 0) in
  let w' := off (Elem 0) (on Own (on (Elem 0) w)) in
  (Native.has_listener (Elem 0) "opened" (User 0) (dom (on (Elem 0) w)) = true
   /\ is_tracked "opened" (User 0) (tracked (widget (on (Elem 0) w))) = true)
  /\ (Native.has_listener (Elem 0) "opened" (User 0) (dom (off (Elem 0) (on (Elem 0) w)))
      = false
      /\ is_tracked "opened" (User 0) (tracked (widget (off (Elem 0) (on (Elem 0) w))))
         = false)
  /\ Native.has_listener (Elem 0) "opened" (User 0) (dom w') = false
  /\ Native.has_listener Own "opened" (User 0) (dom w') = true
  /\ is_tracked "opened" (User 0) (tracked (widget w')) = false
  /\ swept (tracked (widget w')) (Own, "opened", User 0) = false.
Proof.
  apply (tracking_ignores_target (Examples.page Scenes.bodies Examples.hub)
           (Elem 0) Own "opened" (User 0)).
  - discriminate.
  - apply NoDup_nil_2.
Defined.



(** X14: [new Label(element, options)].  Without a DOM it throws and
    changes nothing.  Otherwise it returns a live widget for [element] that
    has tracked and registered its mousedown handler on [element], keeps
    the listeners the element had, has a private event target without
    listeners, and has set the [for] attribute to [htmlFor] if that is
    truthy and left it alone otherwise; [getFor()] returns what [setFor]
    has set. *)
Theorem Label_new_spec (el : nat) (o : ComponentOptions) (w : world) :
  (canUseDOM (dom w) = false ->
     Label.new el o w
     = Some (Throws (Error "Component can only be instantiated in a DOM environment"), w))
  /\ (canUseDOM (dom w) = true ->
      exists w',
        Label.new el o w = Some (Ok tt, w')
        /\ sm w' = sm w /\ log w' = log w
        /\ element (widget w') = el
        /\ Component.isDestroyed w' = false
        /\ tracked (widget w') = [("mousedown", [LabelMouseDown])]
        /\ Native.has_listener (Elem el) "mousedown" LabelMouseDown (dom w') = true
        /\ (forall t ev f, t <> Own ->
              Native.has_listener t ev f (dom w) = true ->
              Native.has_listener t ev f (dom w') = true)
        /\ own_tracked w' = true
        /\ (forall ev, Native.listeners_of Own ev (dom w') = [])
        /\ Label.getFor w' = (if truthy (htmlFor o) then Some (to_string (htmlFor o))
                        else Native.getAttribute el "for" (dom w))
        /\ forall s, exists w'',
             Label.setFor s w' = Some (Ok tt, w'') /\ Label.getFor w'' = Some s).
Proof.
  split.
  - intros Hcan. unfold Label.new, Component.constructor, bind, gets. simpl.
    by rewrite Hcan.
  - intros Hcan.
    set (w1 := Component.allocate Label el o w).
    set (w2 := Component.addEventListener (Elem el) "mousedown" LabelMouseDown w1).
    set (w3 := if truthy (htmlFor o)
               then with_dom (Native.setAttribute el "for" (to_string (htmlFor o))) w2
               else w2).
    assert (E : Label.new el o w = Some (Ok tt, w3)).
    { unfold Label.new, Component.constructor, Label.init, Label.setupElement,
        Component.setAttribute, bind, gets, modify, ret. simpl.
      rewrite Hcan. simpl. unfold w3. by destruct (truthy (htmlFor o)). }
    assert (Hreg3 : registered (dom w3) = registered (dom w2)).
    { unfold w3. by destruct (truthy (htmlFor o)). }
    assert (Hwid3 : widget w3 = widget w2).
    { unfold w3. by destruct (truthy (htmlFor o)). }
    exists w3. split; [done|].
    split; [unfold w3; by destruct (truthy (htmlFor o))|].
    split; [unfold w3; by destruct (truthy (htmlFor o))|].
    rewrite Hwid3. unfold Component.isDestroyed. rewrite Hwid3.
    split; [done|]. split; [done|]. split; [done|].
    unfold Native.has_listener. rewrite Hreg3.
    split; [apply has_listener_add|]. split; [|split; [|split; [|split]]].
    + intros t ev f Ht Hin.
      apply (has_listener_add_other (t, ev, f)). simpl.
      unfold Native.has_listener in *. apply bool_decide_eq_true in Hin.
      apply bool_decide_eq_true. simpl. apply list_elem_of_filter. done.
    + unfold own_tracked. rewrite Hreg3. apply forallb_elem_of. intros r Hr.
      apply registered_add in Hr as [Hr| ->]; [|done].
      simpl in Hr. apply list_elem_of_filter in Hr as [Hr _].
      by rewrite bool_decide_eq_false_2.
    + intros ev. apply listeners_of_nil. rewrite Hreg3. intros r Hr.
      apply registered_add in Hr as [Hr| ->]; [|simpl; congruence].
      simpl in Hr. apply list_elem_of_filter in Hr as [Hr _].
      intros Heq. apply Hr. by rewrite Heq.
    + unfold Label.getFor, w3. destruct (truthy (htmlFor o)); simpl.
      * unfold Native.getAttribute. simpl. apply lookup_insert_eq.
      * unfold Native.getAttribute, Native.addEventListener. simpl.
        by destruct (Native.has_listener _ _ _ _).
    + intros s. eexists. split; [done|].
      unfold Label.getFor, Native.getAttribute. simpl. rewrite Hwid3. simpl.
      apply lookup_insert_eq.
Qed.

(** X15: on a newly constructed Label, a mousedown on its element calls the
    Label's handler, which prevents the default action exactly when the
    event is part of a multiple click (its detail, converted to a number,
    is above 1), is not yet prevented, and its target is not inside a
    form control.  Stated for the details whose conversion is embedded:
    every value but an object or a string that is not made of decimal
    digits. *)
Theorem label_prevents_double_click
    (el : nat) (o : ComponentOptions) (w0 w : world) (e : event) (many : bool) (n : nat) :
  Label.new el o w0 = Some (Ok tt, w) ->
  Native.listeners_of (Elem el) "mousedown" (dom w0) = [] ->
  type e = "mousedown" ->
  Label.detail_above_one (edetail e) = Some many ->
  1 <= n ->
  let prevents := negb (inside_control (dom w0)) && negb (defaultPrevented e) && many in
  simulate n (Elem el) e w
  = Some (Ok tt,
          say (Called LabelMouseDown (AEvent e)
                 :: if prevents then [PreventDefault "mousedown"] else []) w).
Proof.
  intros Hnew Hnone Hty Hmany Hn prevents.
  unfold Label.new, Component.constructor, Label.init, Label.setupElement,
    Component.setAttribute, bind, gets, modify, ret in Hnew. simpl in Hnew.
  destruct (canUseDOM (dom w0)); [|discriminate]. simpl in Hnew.
  assert (Hl : Native.listeners_of (Elem el) "mousedown" (dom w) = [LabelMouseDown]
               /\ inside_control (dom w) = inside_control (dom w0)).
  { destruct (truthy (htmlFor o)); simplify_eq; simpl.
    - split.
      + apply listeners_of_add_new. unfold Native.listeners_of. simpl.
        by rewrite listeners_of_filter_own.
      + unfold Native.addEventListener. by destruct (Native.has_listener _ _ _ _).
    - split.
      + apply listeners_of_add_new. unfold Native.listeners_of. simpl.
        by rewrite listeners_of_filter_own.
      + unfold Native.addEventListener. by destruct (Native.has_listener _ _ _ _). }
  destruct Hl as [Hl Hin]. clear Hnew.
  unfold simulate, Native.dispatchEvent, bind, gets. cbv beta. rewrite Hty, Hl.
  cbn [Native.invoke_all]. unfold bind, gets. cbv beta. rewrite Hty.
  rewrite has_listener_of by (rewrite Hl; by left).
  destruct n as [|n']; [lia|].
  unfold try_catch. rewrite QuietFacts.run_call.
  unfold call, Label.handleMouseDown. unfold bind, modify, gets, ret. simpl.
  unfold prevents. rewrite Hin, Hmany, Hty.
  destruct (inside_control (dom w0)); simpl; [done|].
  destruct (defaultPrevented e); simpl; [done|].
  destruct many; simpl; [by rewrite QuietFacts.say_say | done].
Qed.

(** The theorem for a mousedown whose detail is the string ["2"], on a
    Label of an empty page. *)
Lemma label_prevents_double_click_witness :
  let w0 := page Scenes.bodies hub in
  let w := after (Label.new 0 no_options) w0 in
  let e := CustomEvent "mousedown" (Payload (VStr "2")) in
  simulate 1 (Elem 0) e w
  = Some (Ok tt, say [Called LabelMouseDown (AEvent e); PreventDefault "mousedown"] w).
Proof.
  apply (label_prevents_double_click 0 no_options (page Scenes.bodies hub)
           (after (Label.new 0 no_options) (page Scenes.bodies hub))
           (CustomEvent "mousedown" (Payload (VStr "2"))) true 1).
  - reflexivity.
  - reflexivity.
  - reflexivity.
  - reflexivity.
  - lia.
Defined.

End LifecycleMore.

(** ** The Switch: construction *)

Module SwitchMore.
Import Run Observe ObserveFacts SwitchFacts Tracking Examples Scenes LifecycleMoreFacts.

(** X16: [new Switch(element, options)] never returns an instance.  Without
    a DOM the base constructor throws its error; with a DOM, [init] runs
    inside the base constructor and throws a TypeError at the first field
    of Switch it uses, for every element and every options.  By then nothing has
    been registered or tracked, no callback has run, and the cell of the
    page is untouched. *)
Theorem Switch_new_always_throws (el : nat) (o : ComponentOptions) (w : world) :
  (canUseDOM (dom w) = false ->
     Switch.new el o w
     = Some (Throws (Error "Component can only be instantiated in a DOM environment"), w))
  /\ (canUseDOM (dom w) = true ->
      exists msg w',
        Switch.new el o w = Some (Throws (TypeError msg), w')
        /\ sm w' = sm w /\ log w' = log w
        /\ tracked (widget w') = []
        /\ checkedState (widget w') = None
        /\ forall t ev, t <> Own ->
             Native.listeners_of t ev (dom w') = Native.listeners_of t ev (dom w)).
Proof.
  split.
  - intros Hcan. unfold Switch.new, Component.constructor, bind, gets. simpl.
    by rewrite Hcan.
  - intros Hcan.
    destruct (Switch_new_throws el o w Hcan)
      as (msg & w' & E & Hsm & Hlog & _ & Hwid & Hreg).
    exists msg, w'. rewrite Hwid.
    split; [done|]. split; [done|]. split; [done|]. split; [done|]. split; [done|].
    intros t ev Ht. unfold Native.listeners_of. rewrite Hreg.
    by apply listeners_of_filter_own.
Qed.

End SwitchMore.
